(** * Tiled-imagery bootstrap and tile addressing: a shallow embedding

    The development follows two imagery providers of the engine:

    - [Bing]   : [Scene/BingMapsImageryProvider.js]  (quadkey addressing,
                 attribution index, process-wide metadata cache);
    - [ArcGis] : the ArcGIS MapServer provider (builder, capability-document
                 parsing, tile/export addressing, identify queries).

    JavaScript integers are [Z]; the 32-bit bitwise operators are written with
    their wrap-around.  The geometry collaborators that live in [Core/]
    (rectangles, projections, tiling schemes, resources) are not part of the
    sources at hand and enter as an interface, [Core]. *)

From Stdlib Require Import ZArith String Ascii List Lia Bool DecimalString.
From stdpp Require Import base gmap strings.
From Stdlib Require DecimalPos DecimalZ.

Local Open Scope Z_scope.

(** ** JavaScript primitives *)

Module JS.

(** [ToInt32]: reduction modulo 2^32 into the signed range. *)
Definition ToInt32 (z : Z) : Z := (z + 2 ^ 31) mod 2 ^ 32 - 2 ^ 31.

(** [a << b]: the shift count is taken modulo 32. *)
Definition shl (a b : Z) : Z := ToInt32 (Z.shiftl (ToInt32 a) (Z.land b 31)).

(** [a & b] and [a | b] on 32-bit operands. *)
Definition band (a b : Z) : Z := Z.land (ToInt32 a) (ToInt32 b).
Definition bor (a b : Z) : Z := Z.lor (ToInt32 a) (ToInt32 b).

(** Number-to-string conversion of an integer, as in [s += n] and in
    template literals. *)
Definition number_to_string (z : Z) : string :=
  NilZero.string_of_int (Z.to_int z).

(** [`${v}`] for a value that may be [undefined]. *)
Definition optional_number_to_string (v : option Z) : string :=
  match v with
  | Some z => number_to_string z
  | None => "undefined"
  end.

(** [s[k]]: [undefined] ([None]) outside the string. *)
Definition char_at (s : string) (k : Z) : option ascii :=
  if k <? 0 then None else String.get (Z.to_nat k) s.

(** White space that [StringToNumber] strips (code units below 256). *)
Definition is_white_space (c : ascii) : bool :=
  let n := nat_of_ascii c in
  ((9 <=? n) && (n <=? 13))%nat || (n =? 32)%nat || (n =? 160)%nat.

(** Unary plus on the result of [s[k]]: [None] stands for [NaN].
    A one-character string is a number when it is a decimal digit, and 0
    when it is white space; [undefined] converts to [NaN]. *)
Definition to_number (v : option ascii) : option Z :=
  match v with
  | None => None
  | Some c =>
      let n := Z.of_nat (nat_of_ascii c) in
      if (48 <=? n) && (n <=? 57) then Some (n - 48)
      else if is_white_space c then Some 0
      else None
  end.

(** [ToInt32] of a possibly-[NaN] number: [NaN] converts to 0. *)
Definition number_ToInt32 (v : option Z) : Z :=
  match v with
  | Some z => ToInt32 z
  | None => 0
  end.

(** [a[k]] on an array: [undefined] outside it (and for [NaN], which the
    remainder by a zero length gives and [Z.rem] returns as the dividend;
    an empty array has no element either way). *)
Definition array_get {A : Type} (a : list A) (k : Z) : option A :=
  if k <? 0 then None else nth_error a (Z.to_nat k).

(** Truthiness of an optional string: [undefined] and [""] are falsy. *)
Definition truthy_string (v : option string) : bool :=
  match v with
  | Some EmptyString => false
  | Some _ => true
  | None => false
  end.

(** [for (let i = start; i >= 0; --i) body]: the state is threaded
    through the iterations.  [fuel] bounds the number of iterations;
    [for_down_to_zero] supplies [start + 1], which is exactly the
    number of values [start, start - 1, ..., 0]. *)
Fixpoint for_down {St : Type} (fuel : nat) (i : Z)
         (body : Z -> St -> St) (s : St) : St :=
  match fuel with
  | O => s
  | S fuel' =>
      if 0 <=? i then for_down fuel' (i - 1) body (body i s) else s
  end.

Definition for_down_to_zero {St : Type} (start : Z)
           (body : Z -> St -> St) (s : St) : St :=
  for_down (Z.to_nat (start + 1)) start body s.

End JS.

(** ** The [Core/] collaborators

    Rectangles, projections, tiling schemes, ellipsoids and resources are
    defined in [Core/], outside the sources at hand.  Their data is modelled
    by the records below; their numeric behaviour (IEEE-754 arithmetic,
    projection formulas, tile geometry, URL composition) is the interface
    [Core]. *)

(** Numbers of the geometry code. *)
Class Numeric := {
  num : Type;
  num_to_string : num -> string;          (* [`${n}`] *)
  num_zero : num;                         (* [0.0] *)
  num_neg : num -> num;                   (* unary minus *)
  num_mul : num -> num -> num;
  Math_PI : num;
  Math_max : num -> num -> num;
  Math_min : num -> num -> num;
  toRadians : num -> num;                 (* [CesiumMath.toRadians] *)
  toDegrees : num -> num                  (* [CesiumMath.toDegrees] *)
}.

Section Geometry.
Context `{Numeric}.

(** [new Rectangle(west, south, east, north)] *)
Record Rectangle := {
  west : num; south : num; east : num; north : num
}.

(** [new Cartographic(longitude, latitude, height)] *)
Record Cartographic := {
  longitude : num; latitude : num; height : num
}.

(** [new Cartesian3(x, y, z)] *)
Record Cartesian3 := { c3_x : num; c3_y : num; c3_z : num }.

End Geometry.

(** [new Cartesian2(x, y)], used for pixel offsets. *)
Record Cartesian2 := { c2_x : Z; c2_y : Z }.

(** [new Credit(html)] *)
Record Credit := { html : string }.

(** The projection object of a tiling scheme, as far as [instanceof]
    observes it. *)
Inductive Projection := GeographicProjection | WebMercatorProjection.

Class Core `{Numeric} := {
  Ellipsoid : Type;
  maximumRadius : Ellipsoid -> num;
  (** Tiling schemes built by callers in some other way than the two
      constructors used in the sources. *)
  CustomTilingScheme : Type;
  custom_projection : CustomTilingScheme -> Projection;
  (** [Rectangle.fromDegrees] *)
  Rectangle_fromDegrees : num -> num -> num -> num -> Rectangle;
  (** [Rectangle.intersection]: [None] is [undefined]. *)
  Rectangle_intersection : Rectangle -> Rectangle -> option Rectangle;
  (** [new WebMercatorProjection().unproject] *)
  WebMercator_unproject : Cartesian3 -> Cartographic;
  (** [Cartographic.fromDegrees] *)
  Cartographic_fromDegrees : num -> num -> option num -> Cartographic;
  (** Discard policies other than the one the provider builds itself. *)
  OtherDiscardPolicy : Type;
  (** The payload of an identify result that is handed through. *)
  Attributes : Type;
  (** A request object handed through to the transport. *)
  Request : Type;
  (** The engine's message when a property of [undefined] is read. *)
  undefined_property_message : string
}.

Section TilingSchemes.
Context `{Core}.

(** Modelled from the spec: the tiling scheme carries its projection as a
    two-variant value (sections 3 and 9); [GeographicTilingScheme] and
    [WebMercatorTilingScheme] are the two constructors the sources call,
    each with the options' ellipsoid. *)
Inductive TilingScheme :=
| GeographicTilingScheme (ellipsoid : option Ellipsoid)
| WebMercatorTilingScheme (ellipsoid : option Ellipsoid)
| OtherTilingScheme (scheme : CustomTilingScheme).

(** [tilingScheme.projection] *)
Definition projection (t : TilingScheme) : Projection :=
  match t with
  | GeographicTilingScheme _ => GeographicProjection
  | WebMercatorTilingScheme _ => WebMercatorProjection
  | OtherTilingScheme s => custom_projection s
  end.

(** [projection instanceof GeographicProjection] *)
Definition instanceof_GeographicProjection (p : Projection) : bool :=
  match p with
  | GeographicProjection => true
  | WebMercatorProjection => false
  end.

End TilingSchemes.

(** The geometry of tiling schemes. *)
Class TileGeometry `{Core} := {
  (** [tilingScheme.rectangle] *)
  scheme_rectangle : TilingScheme -> Rectangle;
  (** [tilingScheme.ellipsoid] *)
  scheme_ellipsoid : TilingScheme -> Ellipsoid;
  (** [tilingScheme.tileXYToRectangle(x, y, level)] *)
  tileXYToRectangle : TilingScheme -> Z -> Z -> Z -> Rectangle;
  (** [tilingScheme.tileXYToNativeRectangle(x, y, level)]; the level is
      [undefined] when a caller passes a maximum level it does not have. *)
  tileXYToNativeRectangle : TilingScheme -> Z -> Z -> option Z -> Rectangle;
  (** [tilingScheme.projection.project(cartographic)] *)
  project : TilingScheme -> Cartographic -> Cartesian3
}.

(** *** Resources and the transport

    A resource is the tree of derivations from a base URL;
    [getDerivedResource] records the options it was given. *)
Inductive QueryValue :=
| QString (s : string)
| QNumber (n : Z)
| QBool (b : bool).

Section Resources.
Context `{Core}.

Record DerivedOptions := {
  opt_url : option string;
  opt_request : option Request;
  opt_templateValues : list (string * option string);
  opt_queryParameters : list (string * QueryValue)
}.

Inductive Resource :=
| BaseResource (base : string)
| DerivedResource (parent : Resource) (options : DerivedOptions).

Definition getDerivedResource (r : Resource) (o : DerivedOptions) : Resource :=
  DerivedResource r o.

(** What reaches the network. *)
Inductive NetworkCall :=
| FetchJson (r : Resource)
| FetchJsonp (r : Resource) (callbackParameterName : option string).

End Resources.

(** Composition of a resource's URL string ([resource.url]). *)
Class ResourceUrl `{Core} := {
  resource_url : Resource -> string
}.

(** How a promise settles. *)
Inductive Settled (A : Type) :=
| Fulfilled (value : A)
| Rejected (message : option string).
Arguments Fulfilled {A} value.
Arguments Rejected {A} message.

(** [throw new RuntimeError(message)]; a [TypeError] raised by the
    runtime itself is kept apart. *)
Inductive Thrown :=
| RuntimeError (message : string)
| TypeError (message : string).

(** [defined(error) && defined(error.message)] on what a [catch] receives:
    a thrown error, or the reason of a rejected promise. *)
Definition error_message (e : Thrown + option string) : option string :=
  match e with
  | inl (RuntimeError m) => Some m
  | inl (TypeError m) => Some m
  | inr reason => reason
  end.

(** ** The Bing Maps provider *)

Module Bing.

(** *** Quadkeys *)

(** [BingMapsImageryProvider.tileXYToQuadKey] *)
Definition tileXYToQuadKey (x y level : Z) : string :=
  JS.for_down_to_zero level
    (fun i quadkey =>
       let bitmask := JS.shl 1 i in
       let digit := 0 in
       let digit := if JS.band x bitmask =? 0 then digit else JS.bor digit 1 in
       let digit := if JS.band y bitmask =? 0 then digit else JS.bor digit 2 in
       (quadkey ++ JS.number_to_string digit)%string)
    ""%string.

Record TileXY := { tile_x : Z; tile_y : Z; tile_level : Z }.

(** [BingMapsImageryProvider.quadKeyToTileXY] *)
Definition quadKeyToTileXY (quadkey : string) : TileXY :=
  let level := Z.of_nat (String.length quadkey) - 1 in
  let xy :=
    JS.for_down_to_zero level
      (fun i (xy : Z * Z) =>
         let (x, y) := xy in
         let bitmask := JS.shl 1 i in
         let digit := JS.to_number (JS.char_at quadkey (level - i)) in
         let x := if JS.band (JS.number_ToInt32 digit) 1 =? 0
                  then x else JS.bor x bitmask in
         let y := if JS.band (JS.number_ToInt32 digit) 2 =? 0
                  then y else JS.bor y bitmask in
         (x, y))
      (0, 0) in
  {| tile_x := fst xy; tile_y := snd xy; tile_level := level |}.

(** *** Tile requests *)

Section Provider.
Context `{TileGeometry} `{!ResourceUrl}.

(** A coverage area and an attribution entry, once [build] has turned the
    bounding box into a [Rectangle] and the text into a [Credit]. *)
Record CoverageArea := {
  zoomMin : Z;
  zoomMax : Z;
  bbox : Rectangle
}.

Record Attribution := {
  credit : Credit;
  coverageAreas : list CoverageArea
}.

(** The same, as the metadata response carries them: the bounding box is
    the array [south, west, north, east] in degrees. *)
Record ResponseCoverageArea := {
  response_zoomMin : Z;
  response_zoomMax : Z;
  response_bbox : num * num * num * num
}.

Record ResponseAttribution := {
  attribution : string;
  response_coverageAreas : list ResponseCoverageArea
}.

(** The attribution array of a metadata object.  The array is shared
    through the metadata cache and [build] rewrites its entries in place,
    so a later provider finds them already credited. *)
Inductive AttributionList :=
| FromResponse (entries : list ResponseAttribution)
| Credited (entries : list Attribution).

Record BingMapsImageryProvider := {
  _culture : string;
  _tilingScheme : TilingScheme;
  _tileWidth : option Z;
  _tileHeight : option Z;
  _maximumLevel : option Z;
  _imageUrlTemplate : option string;
  _imageUrlSubdomains : list string;
  _attributionList : list Attribution;
  _resource : Resource;
  _ready : bool
}.

(** [buildImageResource] *)
Definition buildImageResource (imageryProvider : BingMapsImageryProvider)
           (x y level : Z) (request : option Request) : Resource :=
  let imageUrl := _imageUrlTemplate imageryProvider in
  let subdomains := _imageUrlSubdomains imageryProvider in
  let subdomainIndex := Z.rem (x + y + level) (Z.of_nat (length subdomains)) in
  getDerivedResource (_resource imageryProvider)
    {| opt_url := imageUrl;
       opt_request := request;
       opt_templateValues :=
         [ ("quadkey"%string, Some (tileXYToQuadKey x y level));
           ("subdomain"%string, JS.array_get subdomains subdomainIndex);
           ("culture"%string, Some (_culture imageryProvider)) ];
       opt_queryParameters := [ ("n"%string, QString "z") ] |}.

(** *** Attribution *)

(** The inner loop of [getRectangleAttribution]: it stops at the first
    qualifying area ([!included] in the loop condition). *)
Fixpoint coverage_loop (level : Z) (rectangle : Rectangle)
         (coverageAreas : list CoverageArea) (included : bool) : bool :=
  match coverageAreas with
  | [] => included
  | area :: rest =>
      if negb included then
        let included :=
          if (level >=? zoomMin area) && (level <=? zoomMax area) then
            match Rectangle_intersection rectangle (bbox area) with
            | Some _ => true
            | None => included
            end
          else included in
        coverage_loop level rectangle rest included
      else included
  end.

(** The outer loop, pushing onto [result]. *)
Fixpoint attribution_loop (level : Z) (rectangle : Rectangle)
         (attributionList : list Attribution) (result : list Credit)
  : list Credit :=
  match attributionList with
  | [] => result
  | attribution :: rest =>
      let included :=
        coverage_loop level rectangle (coverageAreas attribution) false in
      let result := if included then result ++ [credit attribution] else result in
      attribution_loop level rectangle rest result
  end.

(** [getRectangleAttribution] *)
Definition getRectangleAttribution (attributionList : list Attribution)
           (level : Z) (rectangle : Rectangle) : list Credit :=
  (* Bing levels start at 1, while ours start at 0. *)
  let level := level + 1 in
  attribution_loop level rectangle attributionList [].

(** [BingMapsImageryProvider.prototype.getTileCredits] *)
Definition getTileCredits (this : BingMapsImageryProvider) (x y level : Z)
  : list Credit :=
  let rectangle := tileXYToRectangle (_tilingScheme this) x y level in
  getRectangleAttribution (_attributionList this) level rectangle.

(** *** The builder and the metadata *)

Record ImageryProviderBuilder := {
  tileWidth : option Z;
  tileHeight : option Z;
  maximumLevel : option Z;
  imageUrlSubdomains : list string;
  imageUrlTemplate : option string;
  attributionList : option AttributionList
}.

(** [new ImageryProviderBuilder(options)] *)
Definition new_ImageryProviderBuilder : ImageryProviderBuilder :=
  {| tileWidth := None; tileHeight := None; maximumLevel := None;
     imageUrlSubdomains := []; imageUrlTemplate := None;
     attributionList := None |}.

(** The body of the loops of [build] for one entry of the response. *)
Definition credit_attribution (a : ResponseAttribution) : Attribution :=
  {| credit := {| html := attribution a |};
     coverageAreas :=
       map (fun area =>
              let '(b0, b1, b2, b3) := response_bbox area in
              {| zoomMin := response_zoomMin area;
                 zoomMax := response_zoomMax area;
                 bbox := {| west := toRadians b1; south := toRadians b0;
                            east := toRadians b3; north := toRadians b2 |} |})
           (response_coverageAreas a) |}.

(** [ImageryProviderBuilder.prototype.build]: an array whose entries
    already hold a [Credit] is taken as it is (the [break]). *)
Definition build (this : ImageryProviderBuilder)
           (provider : BingMapsImageryProvider) : BingMapsImageryProvider :=
  let attributionList :=
    match attributionList this with
    | None => []
    | Some (Credited entries) => entries
    | Some (FromResponse entries) => map credit_attribution entries
    end in
  {| _culture := _culture provider;
     _tilingScheme := _tilingScheme provider;
     _tileWidth := tileWidth this;
     _tileHeight := tileHeight this;
     _maximumLevel := maximumLevel this;
     _imageUrlTemplate := imageUrlTemplate this;
     _imageUrlSubdomains := imageUrlSubdomains this;
     _attributionList := attributionList;
     _resource := _resource provider;
     _ready := true |}.

Record ImageryResource := {
  imageWidth : Z;
  imageHeight : Z;
  resource_zoomMax : Z;
  resource_imageUrlSubdomains : list string;
  imageUrl : string;
  imageryProviders : option AttributionList
}.

Record ResourceSet := { resources : list ImageryResource }.

Record Metadata := { resourceSets : list ResourceSet }.

(** [metadataSuccess] *)
Definition metadataSuccess (data : Metadata)
           (imageryProviderBuilder : ImageryProviderBuilder)
  : ImageryProviderBuilder * option Thrown :=
  match resourceSets data with
  | [set] =>
      match resources set with
      | resource :: _ =>
          ({| tileWidth := Some (imageWidth resource);
              tileHeight := Some (imageHeight resource);
              maximumLevel := Some (resource_zoomMax resource - 1);
              imageUrlSubdomains := resource_imageUrlSubdomains resource;
              imageUrlTemplate := Some (imageUrl resource);
              attributionList := imageryProviders resource |}, None)
      | [] => (imageryProviderBuilder, Some (TypeError undefined_property_message))
      end
  | _ =>
      (imageryProviderBuilder,
       Some (RuntimeError
               "metadata does not specify one resource in resourceSets"))
  end.

(** [metadataFailure]: the message of the [RuntimeError] it throws (the
    same message goes to the error event). *)
Definition metadataFailure (metadataResource : Resource)
           (error : Thrown + option string) : Thrown :=
  let message :=
    ("An error occurred while accessing " ++ resource_url metadataResource)%string in
  let message :=
    match error_message error with
    | Some m => (message ++ ": " ++ m)%string
    | None => message
    end in
  RuntimeError message.

(** *** The metadata cache

    [BingMapsImageryProvider._metadataCache] is an object used as a map
    from the URL of the metadata resource to the promise of its fetch; the
    keys are URLs, which are never names of inherited properties, so the
    lookup is that of a finite map.  A promise is identified by the
    position, in the log of the transport, of the call that created it. *)
Definition Promise := nat.

Record Process := {
  _metadataCache : gmap string Promise;
  network : list NetworkCall
}.

(** [BingMapsImageryProvider._metadataCache = {}] at load time. *)
Definition process_start : Process :=
  {| _metadataCache := ∅; network := [] |}.

(** [requestMetadata] up to its [await]: the part that runs without
    interruption. *)
Definition requestMetadata_begin (metadataResource : Resource) (w : Process)
  : Promise * Process :=
  let cacheKey := resource_url metadataResource in
  match _metadataCache w !! cacheKey with
  | Some promise => (promise, w)
  | None =>
      let promise := length (network w) in
      (promise,
       {| _metadataCache := <[cacheKey := promise]> (_metadataCache w);
          network := network w ++ [FetchJsonp metadataResource (Some "jsonp"%string)] |})
  end.

(** [requestMetadata] from its [await] on, once the promise has settled. *)
Definition requestMetadata_resume (metadataResource : Resource)
           (settled : Settled Metadata)
           (imageryProviderBuilder : ImageryProviderBuilder)
  : ImageryProviderBuilder * option Thrown :=
  match settled with
  | Fulfilled data =>
      match metadataSuccess data imageryProviderBuilder with
      | (b, None) => (b, None)
      | (b, Some e) => (b, Some (metadataFailure metadataResource (inl e)))
      end
  | Rejected reason =>
      (imageryProviderBuilder,
       Some (metadataFailure metadataResource (inr reason)))
  end.

(** Provider constructions running on one event loop: each one reaches
    [requestMetadata] at some point ([Begin]) and continues after its
    promise has settled ([Resume], which touches neither the cache nor the
    transport).  A schedule is any interleaving of these events. *)
Inductive Event :=
| Begin (metadataResource : Resource)
| Resume (metadataResource : Resource).

Definition step (w : Process) (e : Event) : Process :=
  match e with
  | Begin r => snd (requestMetadata_begin r w)
  | Resume _ => w
  end.

Definition run (schedule : list Event) (w : Process) : Process :=
  fold_left step schedule w.

(** The metadata fetches for one cache key in a transport log. *)
Definition fetches_of (cacheKey : string) (log : list NetworkCall)
  : list NetworkCall :=
  List.filter (fun c => match c with
                   | FetchJsonp r _ => bool_decide (resource_url r = cacheKey)
                   | FetchJson _ => false
                   end) log.

End Provider.

End Bing.

(** ** The ArcGIS MapServer provider *)

Module ArcGis.

Section Provider.
Context `{TileGeometry} `{!ResourceUrl}.

(** [defaultValue(a, b)] *)
Definition defaultValue {A : Type} (a : option A) (b : A) : A :=
  match a with
  | Some v => v
  | None => b
  end.

(** [defined(a)] *)
Definition defined {A : Type} (a : option A) : bool :=
  match a with
  | Some _ => true
  | None => false
  end.

(** [new DiscardMissingTileImagePolicy(options)] *)
Record DiscardMissingTileImagePolicyOptions := {
  missingImageUrl : string;
  pixelsToCheck : list Cartesian2;
  disableCheckIfAllPixelsAreTransparent : bool
}.

Inductive TileDiscardPolicy :=
| DiscardMissingTileImagePolicy (options : DiscardMissingTileImagePolicyOptions)
| OtherPolicy (policy : OtherDiscardPolicy).

(** [ArcGisMapServerImageryProvider.ConstructorOptions] *)
Record ConstructorOptions := {
  options_tileDiscardPolicy : option TileDiscardPolicy;
  options_usePreCachedTilesIfAvailable : option bool;
  options_layers : option string;
  options_enablePickFeatures : option bool;
  options_rectangle : option Rectangle;
  options_tilingScheme : option TilingScheme;
  options_ellipsoid : option Ellipsoid;
  options_credit : option (Credit + string);
  options_tileWidth : option Z;
  options_tileHeight : option Z;
  options_maximumLevel : option Z
}.

Record ArcGisMapServerImageryProvider := {
  _tileDiscardPolicy : option TileDiscardPolicy;
  _tileWidth : Z;
  _tileHeight : Z;
  _maximumLevel : option Z;
  _tilingScheme : TilingScheme;
  _useTiles : bool;
  _rectangle : Rectangle;
  _layers : option string;
  _credit : option Credit;
  enablePickFeatures : bool;
  _resource : Resource;
  _ready : bool
}.

(** The constructor, on the path without the deprecated [options.url];
    the resource is the one [fromUrl] stores right after it.  With
    [options.url] the constructor also starts a metadata request of its
    own: its fetch reaches the transport before the one of [fromUrl], and
    the [build] that follows it assigns the fields that the [build] of
    [fromUrl] assigns again before [fromUrl] returns. *)
Definition new_ArcGisMapServerImageryProvider (options : ConstructorOptions)
           (resource : Resource) : ArcGisMapServerImageryProvider :=
  let tilingScheme :=
    defaultValue (options_tilingScheme options)
                 (GeographicTilingScheme (options_ellipsoid options)) in
  {| _tileDiscardPolicy := options_tileDiscardPolicy options;
     _tileWidth := defaultValue (options_tileWidth options) 256;
     _tileHeight := defaultValue (options_tileHeight options) 256;
     _maximumLevel := options_maximumLevel options;
     _tilingScheme := tilingScheme;
     _useTiles := defaultValue (options_usePreCachedTilesIfAvailable options) true;
     _rectangle := defaultValue (options_rectangle options)
                                (scheme_rectangle tilingScheme);
     _layers := options_layers options;
     _credit := None;
     enablePickFeatures := defaultValue (options_enablePickFeatures options) true;
     _resource := resource;
     _ready := false |}.

(** The getter [layers]. *)
Definition layers (this : ArcGisMapServerImageryProvider) : option string :=
  _layers this.

(** [`${a},${b},${c},${d}`] over the sides of a rectangle. *)
Definition rectangle_to_string (r : Rectangle) : string :=
  (num_to_string (west r) ++ "," ++ num_to_string (south r) ++ ","
   ++ num_to_string (east r) ++ "," ++ num_to_string (north r))%string.

(** [buildImageResource] *)
Definition buildImageResource (imageryProvider : ArcGisMapServerImageryProvider)
           (x y : Z) (level : option Z) (request : option Request) : Resource :=
  if _useTiles imageryProvider then
    getDerivedResource (_resource imageryProvider)
      {| opt_url := Some ("tile/" ++ JS.optional_number_to_string level ++ "/"
                          ++ JS.number_to_string y ++ "/"
                          ++ JS.number_to_string x)%string;
         opt_request := request;
         opt_templateValues := [];
         opt_queryParameters := [] |}
  else
    let nativeRectangle :=
      tileXYToNativeRectangle (_tilingScheme imageryProvider) x y level in
    let bbox := rectangle_to_string nativeRectangle in
    let query :=
      [ ("bbox"%string, QString bbox);
        ("size"%string,
         QString (JS.number_to_string (_tileWidth imageryProvider) ++ ","
                  ++ JS.number_to_string (_tileHeight imageryProvider))%string);
        ("format"%string, QString "png32");
        ("transparent"%string, QBool true);
        ("f"%string, QString "image") ] in
    let query :=
      if instanceof_GeographicProjection
           (projection (_tilingScheme imageryProvider))
      then query ++ [ ("bboxSR"%string, QNumber 4326);
                      ("imageSR"%string, QNumber 4326) ]
      else query ++ [ ("bboxSR"%string, QNumber 3857);
                      ("imageSR"%string, QNumber 3857) ] in
    let query :=
      match layers imageryProvider with
      | Some l =>
          if JS.truthy_string (Some l)
          then query ++ [ ("layers"%string, QString ("show:" ++ l)%string) ]
          else query
      | None => query
      end in
    getDerivedResource (_resource imageryProvider)
      {| opt_url := Some "export"%string;
         opt_request := request;
         opt_templateValues := [];
         opt_queryParameters := query |}.

(** *** The builder *)

Record ImageryProviderBuilder := {
  useTiles : bool;
  tilingScheme : TilingScheme;
  rectangle : Rectangle;
  ellipsoid : option Ellipsoid;
  credit : option Credit;
  tileDiscardPolicy : option TileDiscardPolicy;
  tileWidth : Z;
  tileHeight : Z;
  maximumLevel : option Z
}.

(** [new ImageryProviderBuilder(options)] *)
Definition new_ImageryProviderBuilder (options : ConstructorOptions)
  : ImageryProviderBuilder :=
  let tilingScheme :=
    defaultValue (options_tilingScheme options)
                 (GeographicTilingScheme (options_ellipsoid options)) in
  {| useTiles := defaultValue (options_usePreCachedTilesIfAvailable options) true;
     tilingScheme := tilingScheme;
     rectangle := defaultValue (options_rectangle options)
                               (scheme_rectangle tilingScheme);
     ellipsoid := options_ellipsoid options;
     credit := match options_credit options with
               | Some (inr text) => Some {| html := text |}
               | Some (inl c) => Some c
               | None => None
               end;
     tileDiscardPolicy := options_tileDiscardPolicy options;
     tileWidth := defaultValue (options_tileWidth options) 256;
     tileHeight := defaultValue (options_tileHeight options) 256;
     maximumLevel := options_maximumLevel options |}.

(** The pixels the default discard policy samples. *)
Definition default_pixelsToCheck : list Cartesian2 :=
  [ {| c2_x := 0; c2_y := 0 |};
    {| c2_x := 200; c2_y := 20 |};
    {| c2_x := 20; c2_y := 200 |};
    {| c2_x := 80; c2_y := 110 |};
    {| c2_x := 160; c2_y := 130 |} ].

(** [ImageryProviderBuilder.prototype.build] *)
Definition build (this : ImageryProviderBuilder)
           (provider : ArcGisMapServerImageryProvider)
  : ArcGisMapServerImageryProvider :=
  let provider :=
    {| _useTiles := useTiles this;
       _tilingScheme := tilingScheme this;
       _rectangle := rectangle this;
       _credit := credit this;
       _tileDiscardPolicy := tileDiscardPolicy this;
       _tileWidth := tileWidth this;
       _tileHeight := tileHeight this;
       _maximumLevel := maximumLevel this;
       _layers := _layers provider;
       enablePickFeatures := enablePickFeatures provider;
       _resource := _resource provider;
       _ready := _ready provider |} in
  (* Install the default tile discard policy if none has been supplied. *)
  let discardPolicy :=
    if useTiles this && negb (defined (tileDiscardPolicy this)) then
      Some (DiscardMissingTileImagePolicy
              {| missingImageUrl :=
                   resource_url
                     (buildImageResource provider 0 0 (maximumLevel this) None);
                 pixelsToCheck := default_pixelsToCheck;
                 disableCheckIfAllPixelsAreTransparent := true |})
    else _tileDiscardPolicy provider in
  {| _useTiles := _useTiles provider;
     _tilingScheme := _tilingScheme provider;
     _rectangle := _rectangle provider;
     _credit := _credit provider;
     _tileDiscardPolicy := discardPolicy;
     _tileWidth := _tileWidth provider;
     _tileHeight := _tileHeight provider;
     _maximumLevel := _maximumLevel provider;
     _layers := _layers provider;
     enablePickFeatures := enablePickFeatures provider;
     _resource := _resource provider;
     _ready := true |}.

(** *** The capability document *)

Record SpatialReference := { wkid : option Z }.

Record LevelOfDetail := {
  lod_level : Z;
  lod_resolution : num;
  lod_scale : num
}.

Record TileInfo := {
  rows : Z;
  cols : Z;
  tileInfo_spatialReference : option SpatialReference;
  lods : list LevelOfDetail
}.

Record FullExtent := {
  xmin : num; ymin : num; xmax : num; ymax : num;
  fullExtent_spatialReference : option SpatialReference
}.

Record CapabilityDocument := {
  tileInfo : option TileInfo;
  fullExtent : option FullExtent;
  copyrightText : option string
}.

(** [wkid === code] *)
Definition wkid_is (w : option Z) (code : Z) : bool :=
  match w with
  | Some n => n =? code
  | None => false
  end.

(** *** Statements over the builder

    [metadataSuccess] assigns to the fields of the builder it is handed and
    may throw half-way; a statement maps the builder to the builder after it
    and to either what was thrown or a result. *)
Definition Stmt (A : Type) : Type :=
  ImageryProviderBuilder -> ImageryProviderBuilder * (Thrown + A).

Definition ret {A : Type} (a : A) : Stmt A := fun b => (b, inr a).

Definition throw {A : Type} (e : Thrown) : Stmt A := fun b => (b, inl e).

Definition bind {A B : Type} (c : Stmt A) (k : A -> Stmt B) : Stmt B :=
  fun b =>
    match c b with
    | (b', inr a) => k a b'
    | (b', inl e) => (b', inl e)
    end.

Definition this_builder : Stmt ImageryProviderBuilder := fun b => (b, inr b).

Definition assign (update : ImageryProviderBuilder -> ImageryProviderBuilder)
  : Stmt unit := fun b => (update b, inr tt).

Declare Scope stmt_scope.
Delimit Scope stmt_scope with stmt.
Notation "c1 ;; c2" := (bind c1 (fun _ => c2))
  (at level 100, c2 at level 200, right associativity) : stmt_scope.
Notation "x <- c1 ;; c2" := (bind c1 (fun x => c2))
  (at level 100, c1 at next level, c2 at level 200, right associativity)
  : stmt_scope.
Local Open Scope stmt_scope.

Definition set_useTiles (v : bool) (b : ImageryProviderBuilder) :=
  {| useTiles := v; tilingScheme := tilingScheme b; rectangle := rectangle b;
     ellipsoid := ellipsoid b; credit := credit b;
     tileDiscardPolicy := tileDiscardPolicy b; tileWidth := tileWidth b;
     tileHeight := tileHeight b; maximumLevel := maximumLevel b |}.

Definition set_tilingScheme (v : TilingScheme) (b : ImageryProviderBuilder) :=
  {| useTiles := useTiles b; tilingScheme := v; rectangle := rectangle b;
     ellipsoid := ellipsoid b; credit := credit b;
     tileDiscardPolicy := tileDiscardPolicy b; tileWidth := tileWidth b;
     tileHeight := tileHeight b; maximumLevel := maximumLevel b |}.

Definition set_rectangle (v : Rectangle) (b : ImageryProviderBuilder) :=
  {| useTiles := useTiles b; tilingScheme := tilingScheme b; rectangle := v;
     ellipsoid := ellipsoid b; credit := credit b;
     tileDiscardPolicy := tileDiscardPolicy b; tileWidth := tileWidth b;
     tileHeight := tileHeight b; maximumLevel := maximumLevel b |}.

Definition set_credit (v : option Credit) (b : ImageryProviderBuilder) :=
  {| useTiles := useTiles b; tilingScheme := tilingScheme b;
     rectangle := rectangle b; ellipsoid := ellipsoid b; credit := v;
     tileDiscardPolicy := tileDiscardPolicy b; tileWidth := tileWidth b;
     tileHeight := tileHeight b; maximumLevel := maximumLevel b |}.

Definition set_tileWidth (v : Z) (b : ImageryProviderBuilder) :=
  {| useTiles := useTiles b; tilingScheme := tilingScheme b;
     rectangle := rectangle b; ellipsoid := ellipsoid b; credit := credit b;
     tileDiscardPolicy := tileDiscardPolicy b; tileWidth := v;
     tileHeight := tileHeight b; maximumLevel := maximumLevel b |}.

Definition set_tileHeight (v : Z) (b : ImageryProviderBuilder) :=
  {| useTiles := useTiles b; tilingScheme := tilingScheme b;
     rectangle := rectangle b; ellipsoid := ellipsoid b; credit := credit b;
     tileDiscardPolicy := tileDiscardPolicy b; tileWidth := tileWidth b;
     tileHeight := v; maximumLevel := maximumLevel b |}.

Definition set_maximumLevel (v : option Z) (b : ImageryProviderBuilder) :=
  {| useTiles := useTiles b; tilingScheme := tilingScheme b;
     rectangle := rectangle b; ellipsoid := ellipsoid b; credit := credit b;
     tileDiscardPolicy := tileDiscardPolicy b; tileWidth := tileWidth b;
     tileHeight := tileHeight b; maximumLevel := v |}.

(** The rectangle of a web-mercator extent: the south-west and north-east
    corners, each component clamped to [maximumRadius * Math.PI] of the
    tiling scheme's ellipsoid, then unprojected. *)
Definition mercator_extent_rectangle (scheme : TilingScheme)
           (extent : FullExtent) : Rectangle :=
  let projection_unproject := WebMercator_unproject in
  let sw :=
    projection_unproject
      {| c3_x := Math_max (xmin extent)
                   (num_mul (num_neg (maximumRadius (scheme_ellipsoid scheme)))
                            Math_PI);
         c3_y := Math_max (ymin extent)
                   (num_mul (num_neg (maximumRadius (scheme_ellipsoid scheme)))
                            Math_PI);
         c3_z := num_zero |} in
  let ne :=
    projection_unproject
      {| c3_x := Math_min (xmax extent)
                   (num_mul (maximumRadius (scheme_ellipsoid scheme)) Math_PI);
         c3_y := Math_min (ymax extent)
                   (num_mul (maximumRadius (scheme_ellipsoid scheme)) Math_PI);
         c3_z := num_zero |} in
  {| west := longitude sw; south := latitude sw;
     east := longitude ne; north := latitude ne |}.

(** The part of [metadataSuccess] that reads [data.fullExtent]. *)
Definition read_fullExtent (data : CapabilityDocument) : Stmt unit :=
  match fullExtent data with
  | Some extent =>
      match fullExtent_spatialReference extent with
      | Some {| wkid := Some code |} =>
          if (code =? 102100) || (code =? 102113) then
            b <- this_builder ;;
            assign (set_rectangle (mercator_extent_rectangle (tilingScheme b) extent))
          else if code =? 4326 then
            assign (set_rectangle
                      (Rectangle_fromDegrees (xmin extent) (ymin extent)
                                             (xmax extent) (ymax extent)))
          else
            throw (RuntimeError
                     ("fullExtent.spatialReference WKID "
                      ++ JS.number_to_string code ++ " is not supported."))
      | _ => ret tt
      end
  | None =>
      b <- this_builder ;;
      assign (set_rectangle (scheme_rectangle (tilingScheme b)))
  end.

(** The part of [metadataSuccess] that reads
    [tileInfo.spatialReference.wkid]. *)
Definition select_tilingScheme (tileInfo : TileInfo) : Stmt unit :=
  match tileInfo_spatialReference tileInfo with
  | None => throw (TypeError undefined_property_message)
  | Some reference =>
      if wkid_is (wkid reference) 102100 || wkid_is (wkid reference) 102113
      then
        b <- this_builder ;;
        assign (set_tilingScheme (WebMercatorTilingScheme (ellipsoid b)))
      else if wkid_is (wkid reference) 4326 then
        b <- this_builder ;;
        assign (set_tilingScheme (GeographicTilingScheme (ellipsoid b)))
      else
        throw (RuntimeError
                 ("Tile spatial reference WKID "
                  ++ JS.optional_number_to_string (wkid reference)
                  ++ " is not supported."))
  end.

(** The part of [metadataSuccess] that reads [data.copyrightText]. *)
Definition read_copyrightText (data : CapabilityDocument) : Stmt unit :=
  match copyrightText data with
  | Some text =>
      if 0 <? Z.of_nat (String.length text)
      then assign (set_credit (Some {| html := text |}))
      else ret tt
  | None => ret tt
  end.

(** [metadataSuccess] *)
Definition metadataSuccess (data : CapabilityDocument) : Stmt unit :=
  match tileInfo data with
  | None => assign (set_useTiles false)
  | Some tileInfo =>
      assign (set_tileWidth (rows tileInfo)) ;;
      assign (set_tileHeight (cols tileInfo)) ;;
      select_tilingScheme tileInfo ;;
      assign (set_maximumLevel
                (Some (Z.of_nat (length (lods tileInfo)) - 1))) ;;
      read_fullExtent data ;;
      assign (set_useTiles true)
  end ;;
  read_copyrightText data.

(** [metadataFailure]: the [RuntimeError] it throws. *)
Definition metadataFailure (resource : Resource)
           (error : Thrown + option string) : Thrown :=
  let message :=
    ("An error occurred while accessing " ++ resource_url resource)%string in
  let message :=
    match error_message error with
    | Some m => (message ++ ": " ++ m)%string
    | None => message
    end in
  RuntimeError message.

(** [requestMetadata]: one JSONP fetch, whose outcome is [settled]; the
    calls that reach the transport are returned with the builder. *)
Definition requestMetadata (resource : Resource)
           (imageryProviderBuilder : ImageryProviderBuilder)
           (settled : Settled CapabilityDocument)
  : list NetworkCall * (ImageryProviderBuilder * (Thrown + unit)) :=
  let jsonResource :=
    getDerivedResource resource
      {| opt_url := None; opt_request := None; opt_templateValues := [];
         opt_queryParameters := [ ("f"%string, QString "json") ] |} in
  ([FetchJsonp jsonResource None],
   match settled with
   | Fulfilled data =>
       match metadataSuccess data imageryProviderBuilder with
       | (b, inr tt) => (b, inr tt)
       | (b, inl error) => (b, inl (metadataFailure resource (inl error)))
       end
   | Rejected reason =>
       (imageryProviderBuilder,
        inl (metadataFailure resource (inr reason)))
   end).

(** [ArcGisMapServerImageryProvider.fromUrl], from the point where the
    resource has its trailing slash and token; [settled] is the outcome of
    the metadata fetch, should one be made. *)
Definition fromUrl (resource : Resource) (options : ConstructorOptions)
           (settled : Settled CapabilityDocument)
  : list NetworkCall * (Thrown + ArcGisMapServerImageryProvider) :=
  let provider := new_ArcGisMapServerImageryProvider options resource in
  let imageryProviderBuilder := new_ImageryProviderBuilder options in
  let useTiles :=
    defaultValue (options_usePreCachedTilesIfAvailable options) true in
  if useTiles then
    match requestMetadata resource imageryProviderBuilder settled with
    | (calls, (b, inr tt)) => (calls, inr (build b provider))
    | (calls, (_, inl error)) => (calls, inl error)
    end
  else ([], inr (build imageryProviderBuilder provider)).

(** [ArcGisMapServerImageryProvider.prototype.getTileCredits]: [None] is
    [undefined]. *)
Definition getTileCredits (this : ArcGisMapServerImageryProvider)
           (x y level : Z) : option (list Credit) :=
  None.

(** *** Picking *)

(** The promise [pickFeatures] returns: the identify fetch followed by the
    conversion of its results. *)
Inductive PickPromise :=
| IdentifyThen (resource : Resource).

(** [ArcGisMapServerImageryProvider.prototype.pickFeatures]: the value
    returned ([None] is [undefined]) and the calls that reach the
    transport. *)
Definition pickFeatures (this : ArcGisMapServerImageryProvider)
           (x y level : Z) (longitude latitude : num)
  : option PickPromise * list NetworkCall :=
  if negb (enablePickFeatures this) then (None, [])
  else
    let rectangle :=
      tileXYToNativeRectangle (_tilingScheme this) x y (Some level) in
    let '(horizontal, vertical, sr) :=
      if instanceof_GeographicProjection (projection (_tilingScheme this))
      then (toDegrees longitude, toDegrees latitude, "4326"%string)
      else
        let projected :=
          project (_tilingScheme this)
                  {| longitude := longitude; latitude := latitude;
                     height := num_zero |} in
        (c3_x projected, c3_y projected, "3857"%string) in
    let layers := "visible"%string in
    let layers :=
      match _layers this with
      | Some l => (layers ++ ":" ++ l)%string
      | None => layers
      end in
    let query :=
      [ ("f"%string, QString "json");
        ("tolerance"%string, QNumber 2);
        ("geometryType"%string, QString "esriGeometryPoint");
        ("geometry"%string,
         QString (num_to_string horizontal ++ "," ++ num_to_string vertical)%string);
        ("mapExtent"%string, QString (rectangle_to_string rectangle));
        ("imageDisplay"%string,
         QString (JS.number_to_string (_tileWidth this) ++ ","
                  ++ JS.number_to_string (_tileHeight this) ++ ",96")%string);
        ("sr"%string, QString sr);
        ("layers"%string, QString layers) ] in
    let resource :=
      getDerivedResource (_resource this)
        {| opt_url := Some "identify"%string; opt_request := None;
           opt_templateValues := []; opt_queryParameters := query |} in
    (Some (IdentifyThen resource), [FetchJson resource]).

(** An identify result and the feature information made from it. *)
Record PointGeometry := {
  geometry_x : num;
  geometry_y : num;
  geometry_z : option num;
  geometry_spatialReference : option SpatialReference
}.

Record IdentifyResult := {
  result_value : option string;
  result_attributes : option Attributes;
  result_geometryType : option string;
  result_geometry : option PointGeometry
}.

Record ImageryLayerFeatureInfo := {
  info_data : IdentifyResult;
  info_name : option string;
  info_properties : option Attributes;
  info_position : option Cartographic
}.

(** The body of the loop over [json.results]. *)
Definition feature_info (feature : IdentifyResult) : ImageryLayerFeatureInfo :=
  let position :=
    match result_geometryType feature, result_geometry feature with
    | Some type, Some geometry =>
        if String.eqb type "esriGeometryPoint" then
          let wkid :=
            match geometry_spatialReference geometry with
            | Some {| wkid := Some code |} => if code =? 0 then 4326 else code
            | _ => 4326
            end in
          if (wkid =? 4326) || (wkid =? 4283) then
            Some (Cartographic_fromDegrees (geometry_x geometry)
                    (geometry_y geometry) (geometry_z geometry))
          else if (wkid =? 102100) || (wkid =? 900913) || (wkid =? 3857) then
            Some (WebMercator_unproject
                    {| c3_x := geometry_x geometry;
                       c3_y := geometry_y geometry;
                       (* the constructor's default for a missing [z] *)
                       c3_z := defaultValue (geometry_z geometry) num_zero |})
          else None
        else None
    | _, _ => None
    end in
  {| info_data := feature;
     info_name := result_value feature;
     info_properties := result_attributes feature;
     info_position := position |}.

(** The callback of the identify fetch: [json.results] may be missing. *)
Definition identify_results (results : option (list IdentifyResult))
  : list ImageryLayerFeatureInfo :=
  match results with
  | None => []
  | Some features => map feature_info features
  end.

End Provider.

End ArcGis.

(** ** The iTwin platform requests ([Core/ITwinPlatform.js]) *)

Module ITwinPlatform.

(** [ITwinPlatform.ExportStatus] *)
Inductive ExportStatus := NotStarted | InProgress | Complete | Invalid.

Definition ExportStatus_value (s : ExportStatus) : string :=
  match s with
  | NotStarted => "NotStarted"
  | InProgress => "InProgress"
  | Complete => "Complete"
  | Invalid => "Invalid"
  end.

(** [ITwinPlatform.ExportType]; [TILES3D] is the key ["3DTILES"]. *)
Inductive ExportType := IMODEL | CESIUM | TILES3D.

Definition ExportType_value (t : ExportType) : string :=
  match t with
  | IMODEL => "IMODEL"
  | CESIUM => "CESIUM"
  | TILES3D => "3DTILES"
  end.

(** The settings that the three requests read: the access token, the
    string of the API endpoint, and the global [CESIUM_VERSION] when the
    build defines it. *)
Record Settings := {
  defaultAccessToken : option string;
  apiEndpoint : string;
  CESIUM_VERSION : option string
}.

(** The [error] object of a failed response, as far as it is read. *)
Record ErrorDetail := { detail_code : option string }.

Record ErrorInfo := {
  error_code : option string;
  error_message : option string;
  error_details : option (list ErrorDetail)
}.

(** What [fetch] is called with.  The search parameters are those set on
    the [URL] object, the body is the object given to [JSON.stringify]. *)
Record FetchCall := {
  fetch_url : string;
  fetch_searchParams : list (string * string);
  fetch_method : option string;
  fetch_headers : list (string * string);
  fetch_body : option (list (string * string))
}.

(** An argument of [console.error]. *)
Inductive ConsoleValue :=
| ConsoleString (s : option string)
| ConsoleDetails (details : option (list ErrorDetail)).

(** What ends a request early: a [DeveloperError] of the debug checks, an
    error thrown by the function or by the runtime, or the reason of a
    rejected promise. *)
Inductive Raised :=
| DeveloperError (message : string)
| Threw (error : Thrown)
| RejectedWith (reason : option string).

(** A run of a request: the calls of [fetch], the lines of
    [console.error], and the error raised or the value returned. *)
Record Run (A : Type) := {
  fetched : list FetchCall;
  console : list (list ConsoleValue);
  outcome : Raised + A
}.
Arguments fetched {A} _.
Arguments console {A} _.
Arguments outcome {A} _.

Section Requests.
(** A parsed response body; [result.error] and [result.export] are read
    from it. *)
Variable Json : Type.
Variable json_error : Json -> option ErrorInfo.
(** [result.export.id], when [result.export] is defined. *)
Variable json_export_id : Json -> option (option string).
(** The engine's message when a property of [undefined] is read. *)
Variable undefined_property : string.

(** The response of [fetch]: [response.ok], [response.status] and the
    promise of [response.json()]. *)
Record Response := {
  ok : bool;
  status : Z;
  json : Settled Json
}.

(** [`${v}`] for a string that may be [undefined]. *)
Definition text (v : option string) : string :=
  match v with
  | Some s => s
  | None => "undefined"
  end.

(** [result.error.details[0].code], with the [TypeError] of a missing
    link of the chain. *)
Definition first_detail_code (result : Json) : Thrown + option string :=
  match json_error result with
  | None => inl (TypeError undefined_property)
  | Some error =>
      match error_details error with
      | None => inl (TypeError undefined_property)
      | Some [] => inl (TypeError undefined_property)
      | Some (detail :: _) => inr (detail_code detail)
      end
  end.

Definition ended {A : Type} (calls : list FetchCall)
           (lines : list (list ConsoleValue)) (o : Raised + A) : Run A :=
  {| fetched := calls; console := lines; outcome := o |}.

(** [ITwinPlatform.getExport] *)
Definition getExport (settings : Settings) (exportId : string)
           (answer : Settled Response) : Run Json :=
  match defaultAccessToken settings with
  | None =>
      ended [] [] (inl (DeveloperError "Must set ITwin.defaultAccessToken first"))
  | Some token =>
      let headers :=
        [ ("Authorization", "Bearer " ++ token);
          ("Accept", "application/vnd.bentley.itwin-platform.v1+json") ]%string in
      let url := (apiEndpoint settings ++ "mesh-export/" ++ exportId)%string in
      let call :=
        {| fetch_url := url; fetch_searchParams := []; fetch_method := None;
           fetch_headers := headers; fetch_body := None |} in
      match answer with
      | Rejected reason => ended [call] [] (inl (RejectedWith reason))
      | Fulfilled response =>
          if negb (ok response) then
            match json response with
            | Rejected reason => ended [call] [] (inl (RejectedWith reason))
            | Fulfilled result =>
                if status response =? 401 then
                  match first_detail_code result with
                  | inl error => ended [call] [] (inl (Threw error))
                  | inr code =>
                      ended [call] []
                        (inl (Threw (RuntimeError
                           ("Unauthorized, bad token, wrong scopes or headers bad. "
                            ++ text code))))
                  end
                else if status response =? 404 then
                  ended [call] []
                    (inl (Threw (RuntimeError
                       ("Requested export is not available " ++ exportId))))
                else if status response =? 429 then
                  ended [call] [] (inl (Threw (RuntimeError "Too many requests")))
                else
                  ended [call] []
                    (inl (Threw (RuntimeError
                       ("Unknown request failure "
                        ++ JS.number_to_string (status response)))))
            end
          else
            match json response with
            | Rejected reason => ended [call] [] (inl (RejectedWith reason))
            | Fulfilled result => ended [call] [] (inr result)
            end
      end
  end.

(** [result.error.code] and [result.error.message] as arguments of
    [console.error], with the [TypeError] of a missing [result.error]. *)
Definition code_and_message (result : Json) : Thrown + list ConsoleValue :=
  match json_error result with
  | None => inl (TypeError undefined_property)
  | Some error =>
      inr [ConsoleString (error_code error); ConsoleString (error_message error)]
  end.

(** [ITwinPlatform.getExports], for an endpoint that [new URL] accepts;
    for a string that is no absolute URL, [new URL] throws a [TypeError]
    before [fetch] is reached. *)
Definition getExports (settings : Settings) (iModelId : string)
           (answer : Settled Response) : Run Json :=
  match defaultAccessToken settings with
  | None =>
      ended [] [] (inl (DeveloperError "Must set ITwin.defaultAccessToken first"))
  | Some token =>
      let headers :=
        [ ("Authorization", "Bearer " ++ token);
          ("Accept", "application/vnd.bentley.itwin-platform.v1+json");
          ("Prefer", "return=representation") ]%string in
      let searchParams :=
        [ ("iModelId", iModelId);
          ("exportType", ExportType_value TILES3D);
          ("$top", "1");
          ("client", "CesiumJS") ]%string in
      let searchParams :=
        match CESIUM_VERSION settings with
        | Some version => searchParams ++ [ ("clientVersion"%string, version) ]
        | None => searchParams
        end in
      let call :=
        {| fetch_url := (apiEndpoint settings ++ "mesh-export")%string;
           fetch_searchParams := searchParams; fetch_method := None;
           fetch_headers := headers; fetch_body := None |} in
      match answer with
      | Rejected reason => ended [call] [] (inl (RejectedWith reason))
      | Fulfilled response =>
          if negb (ok response) then
            match json response with
            | Rejected reason => ended [call] [] (inl (RejectedWith reason))
            | Fulfilled result =>
                if status response =? 401 then
                  match first_detail_code result with
                  | inl error => ended [call] [] (inl (Threw error))
                  | inr code =>
                      ended [call] []
                        (inl (Threw (RuntimeError
                           ("Unauthorized, bad token, wrong scopes or headers bad. "
                            ++ text code))))
                  end
                else if status response =? 403 then
                  match code_and_message result with
                  | inl error => ended [call] [] (inl (Threw error))
                  | inr line =>
                      ended [call] [line]
                        (inl (Threw (RuntimeError "Not allowed, forbidden")))
                  end
                else if status response =? 422 then
                  match json_error result with
                  | None => ended [call] [] (inl (Threw (TypeError undefined_property)))
                  | Some error =>
                      ended [call] []
                        (inl (Threw (RuntimeError
                           ("Unprocessable Entity:" ++ text (error_code error)
                            ++ " " ++ text (error_message error)))))
                  end
                else if status response =? 429 then
                  ended [call] [] (inl (Threw (RuntimeError "Too many requests")))
                else
                  ended [call] []
                    (inl (Threw (RuntimeError
                       ("Unknown request failure "
                        ++ JS.number_to_string (status response)))))
            end
          else
            match json response with
            | Rejected reason => ended [call] [] (inl (RejectedWith reason))
            | Fulfilled result => ended [call] [] (inr result)
            end
      end
  end.

(** [ITwinPlatform.createExportForModelId]; the value returned is
    [result.export.id], which may be [undefined]. *)
Definition createExportForModelId (settings : Settings) (iModelId : string)
           (answer : Settled Response) : Run (option string) :=
  match defaultAccessToken settings with
  | None =>
      ended [] [] (inl (DeveloperError "Must set ITwin.defaultAccessToken first"))
  | Some token =>
      let call :=
        {| fetch_url := (apiEndpoint settings ++ "mesh-export/")%string;
           fetch_searchParams := [];
           fetch_method := Some "POST"%string;
           fetch_headers :=
             [ ("Authorization", "Bearer " ++ token);
               ("Accept", "application/vnd.bentley.itwin-platform.v1+json");
               ("Content-Type", "application/json") ]%string;
           fetch_body :=
             Some [ ("iModelId", iModelId);
                    ("exportType", ExportType_value TILES3D) ]%string |} in
      match answer with
      | Rejected reason => ended [call] [] (inl (RejectedWith reason))
      | Fulfilled response =>
          if negb (ok response) then
            match json response with
            | Rejected reason => ended [call] [] (inl (RejectedWith reason))
            | Fulfilled result =>
                if status response =? 401 then
                  match json_error result with
                  | None =>
                      ended [call] [] (inl (Threw (TypeError undefined_property)))
                  | Some error =>
                      ended [call]
                        [ [ ConsoleString (error_code error);
                            ConsoleString (error_message error);
                            ConsoleDetails (error_details error) ] ]
                        (inl (Threw (RuntimeError
                           "Unauthorized, bad token, wrong scopes or headers bad")))
                  end
                else if status response =? 403 then
                  match code_and_message result with
                  | inl error => ended [call] [] (inl (Threw error))
                  | inr line =>
                      ended [call] [line]
                        (inl (Threw (RuntimeError "Not allowed, forbidden")))
                  end
                else if status response =? 422 then
                  match json_error result with
                  | None =>
                      ended [call] [] (inl (Threw (TypeError undefined_property)))
                  | Some error =>
                      ended [call]
                        [ [ ConsoleString (error_code error);
                            ConsoleString (error_message error) ];
                          [ ConsoleDetails (error_details error) ] ]
                        (inl (Threw (RuntimeError
                           "Unprocessable: Cannot create export job")))
                  end
                else if status response =? 429 then
                  ended [call] [] (inl (Threw (RuntimeError "Too many requests")))
                else
                  ended [call] []
                    (inl (Threw (RuntimeError
                       ("Unknown request failure "
                        ++ JS.number_to_string (status response)))))
            end
          else
            match json response with
            | Rejected reason => ended [call] [] (inl (RejectedWith reason))
            | Fulfilled result =>
                match json_export_id result with
                | None => ended [call] [] (inl (Threw (TypeError undefined_property)))
                | Some id => ended [call] [] (inr id)
                end
            end
      end
  end.

End Requests.

End ITwinPlatform.

(** ** The vocabulary of the specification *)

Module Spec.

(** Written after the specification (SpatialReferenceMap): codes 102100
    and 102113 are the web-mercator projection, 4326 the geographic one,
    anything else is unsupported. *)
Definition SpatialReferenceMap (code : option Z) : option Projection :=
  match code with
  | Some 102100 => Some WebMercatorProjection
  | Some 102113 => Some WebMercatorProjection
  | Some 4326 => Some GeographicProjection
  | _ => None
  end.

Section AttributionIndex.
Context `{TileGeometry} `{!ResourceUrl}.

(** Written after the specification (AttributionIndex): an area passes at
    a 1-based [level] when the level is in its zoom range and its
    rectangle meets the query rectangle. *)
Definition area_passes (level : Z) (rectangle : Rectangle)
           (area : Bing.CoverageArea) : bool :=
  (Bing.zoomMin area <=? level) && (level <=? Bing.zoomMax area)
  && match Rectangle_intersection rectangle (Bing.bbox area) with
     | Some _ => true
     | None => false
     end.

(** [creditsFor]: the credits of the entries with a passing area, in the
    order of the attribution list; [level] is 0-based. *)
Definition creditsFor (attributionList : list Bing.Attribution)
           (rectangle : Rectangle) (level : Z) : list Credit :=
  map Bing.credit
      (List.filter
         (fun entry => existsb (area_passes (level + 1) rectangle)
                               (Bing.coverageAreas entry))
         attributionList).

End AttributionIndex.

End Spec.

(** ** Auxiliary definitions of the proofs *)

(** The bits of [x] from position [k] upwards. *)
Definition bits_from (x k : Z) : Z := Z.shiftl (Z.shiftr x k) k.

(** The digit of a quadkey for bit [i]: bit 0 is the bit of [x], bit 1
    the bit of [y]. *)
Definition quad_digit (x y i : Z) : Z :=
  Z.b2z (Z.testbit x i) + 2 * Z.b2z (Z.testbit y i).

(** The digits for bits [n - 1] down to 0, most significant first. *)
Fixpoint quad_digits (x y : Z) (n : nat) : string :=
  match n with
  | O => ""
  | S n' =>
      (JS.number_to_string (quad_digit x y (Z.of_nat n'))
       ++ quad_digits x y n')%string
  end.

Section CacheInvariant.
Context `{TileGeometry} `{!ResourceUrl}.

(** The cache holds a key exactly when the transport has seen the one
    fetch for it. *)
Definition cache_agrees (w : Bing.Process) : Prop :=
  forall cacheKey : string,
    length (Bing.fetches_of cacheKey (Bing.network w))
    = match Bing._metadataCache w !! cacheKey with
      | Some _ => 1%nat
      | None => 0%nat
      end.

End CacheInvariant.

(** The characters of a quadkey: the digits 0 to 3. *)
Definition is_quad_character (c : ascii) : bool :=
  ((48 <=? nat_of_ascii c) && (nat_of_ascii c <=? 51))%nat.

(** Every character of a string passes a test. *)
Fixpoint string_all (test : ascii -> bool) (s : string) : bool :=
  match s with
  | EmptyString => true
  | String c rest => test c && string_all test rest
  end.

(** Setting or leaving bit [n] of a number below [2 ^ n]. *)
Definition with_bit (b : bool) (x n : Z) : Z :=
  if b then Z.lor x (2 ^ n) else x.

Section BingAuxiliary.
Context `{TileGeometry} `{!ResourceUrl}.

(** The cache keys that the constructions of a schedule ask for. *)
Definition begun_keys (schedule : list Bing.Event) : list string :=
  flat_map (fun e => match e with
                     | Bing.Begin r => [resource_url r]
                     | Bing.Resume _ => []
                     end) schedule.

(** Every promise in the cache is the position of the fetch for its key. *)
Definition cache_points_to_fetches (w : Bing.Process) : Prop :=
  forall (cacheKey : string) (promise : Bing.Promise),
    Bing._metadataCache w !! cacheKey = Some promise ->
    exists r : Resource,
      nth_error (Bing.network w) promise = Some (FetchJsonp r (Some "jsonp"%string))
      /\ resource_url r = cacheKey.

(** The transport has seen one call per cached key. *)
Definition cache_counts (w : Bing.Process) : Prop :=
  length (Bing.network w) = size (Bing._metadataCache w).

End BingAuxiliary.

Section ArcGisAuxiliary.
Context `{TileGeometry} `{!ResourceUrl}.


(** The value of a query parameter of a derived resource. *)
Definition query_parameter (r : Resource) (key : string) : option QueryValue :=
  match r with
  | BaseResource _ => None
  | DerivedResource _ options =>
      match List.find (fun kv => String.eqb (fst kv) key)
                      (opt_queryParameters options) with
      | Some kv => Some (snd kv)
      | None => None
      end
  end.

(** The relative URL of a derived resource. *)
Definition relative_url (r : Resource) : option string :=
  match r with
  | BaseResource _ => None
  | DerivedResource _ options => opt_url options
  end.

(** The options with other values for the tile size and the maximum
    level. *)
Definition with_tile_options (width height maximumLevel : option Z)
           (options : ArcGis.ConstructorOptions) : ArcGis.ConstructorOptions :=
  {| ArcGis.options_tileDiscardPolicy := ArcGis.options_tileDiscardPolicy options;
     ArcGis.options_usePreCachedTilesIfAvailable :=
       ArcGis.options_usePreCachedTilesIfAvailable options;
     ArcGis.options_layers := ArcGis.options_layers options;
     ArcGis.options_enablePickFeatures := ArcGis.options_enablePickFeatures options;
     ArcGis.options_rectangle := ArcGis.options_rectangle options;
     ArcGis.options_tilingScheme := ArcGis.options_tilingScheme options;
     ArcGis.options_ellipsoid := ArcGis.options_ellipsoid options;
     ArcGis.options_credit := ArcGis.options_credit options;
     ArcGis.options_tileWidth := width;
     ArcGis.options_tileHeight := height;
     ArcGis.options_maximumLevel := maximumLevel |}.

(** The spatial-reference code that [pickFeatures] uses for a point
    geometry: the geometry's own code, 4326 when it is missing or zero. *)
Definition point_wkid (geometry : ArcGis.PointGeometry) : Z :=
  match ArcGis.geometry_spatialReference geometry with
  | Some {| ArcGis.wkid := Some code |} => if code =? 0 then 4326 else code
  | _ => 4326
  end.

End ArcGisAuxiliary.

Section BingFromUrl.
Context `{TileGeometry} `{!ResourceUrl}.

(** [tileProtocol.length > 0 && tileProtocol[tileProtocol.length - 1] === ":"] *)
Definition ends_with_colon (tileProtocol : string) : bool :=
  (0 <? String.length tileProtocol)%nat
  && match String.get (String.length tileProtocol - 1) tileProtocol with
     | Some c => Ascii.eqb c ":"
     | None => false
     end.

(** The tile protocol that [BingMapsImageryProvider.fromUrl] settles on,
    from [options.tileProtocol] and [document.location.protocol]. *)
Definition fromUrl_tileProtocol (tileProtocol : option string)
           (documentProtocol : string) : string :=
  match tileProtocol with
  | Some tileProtocol =>
      if ends_with_colon tileProtocol then
        String.substring 0 (String.length tileProtocol - 1) tileProtocol
      else tileProtocol
  | None =>
      if String.eqb documentProtocol "http:" then "http"%string
      else "https"%string
  end.

(** The metadata resource of [BingMapsImageryProvider.fromUrl]; [resource]
    is the URL after [appendForwardSlash], [AERIAL] the value of
    [BingMapsStyle.AERIAL]. *)
Definition fromUrl_metadataResource (AERIAL : string) (resource : Resource)
           (key : string) (tileProtocol mapStyle : option string)
           (documentProtocol : string) : Resource :=
  let tileProtocol := fromUrl_tileProtocol tileProtocol documentProtocol in
  let mapStyle := ArcGis.defaultValue mapStyle AERIAL in
  getDerivedResource resource
    {| opt_url := Some ("REST/v1/Imagery/Metadata/" ++ mapStyle)%string;
       opt_request := None;
       opt_templateValues := [];
       opt_queryParameters :=
         [ ("incl"%string, QString "ImageryProviders");
           ("key"%string, QString key);
           ("uriScheme"%string, QString tileProtocol) ] |}.

End BingFromUrl.

(** A character other than the slash. *)
Definition is_not_slash (c : ascii) : bool := negb (Ascii.eqb c "/").

(** ** A concrete instance of the interfaces

    Exact integer arithmetic with angles in whole degrees, so that
    [toRadians] and [toDegrees] are the identity and [Math_PI] is half a
    turn; projections are the identity.  The instance serves to run the
    definitions on concrete documents. *)

Module Sample.

#[export] Instance numeric : Numeric := {|
  num := Z;
  num_to_string := JS.number_to_string;
  num_zero := 0;
  num_neg := Z.opp;
  num_mul := Z.mul;
  Math_PI := 180;
  Math_max := Z.max;
  Math_min := Z.min;
  toRadians := fun d => d;
  toDegrees := fun r => r
|}.

(** Rectangles that do not cross the antimeridian. *)
Definition intersection (a b : Rectangle) : option Rectangle :=
  let w := Z.max (west a) (west b) in
  let e := Z.min (east a) (east b) in
  let s := Z.max (south a) (south b) in
  let n := Z.min (north a) (north b) in
  if (e <=? w) || (n <=? s) then None
  else Some {| west := w; south := s; east := e; north := n |}.

#[export] Instance core : Core := {|
  Ellipsoid := unit;
  maximumRadius := fun _ => 1;
  CustomTilingScheme := Empty_set;
  custom_projection := fun s => match s with end;
  Rectangle_fromDegrees := fun w s e n =>
    {| west := w; south := s; east := e; north := n |};
  Rectangle_intersection := intersection;
  WebMercator_unproject := fun c =>
    {| longitude := c3_x c; latitude := c3_y c; height := c3_z c |};
  Cartographic_fromDegrees := fun lon lat h =>
    {| longitude := lon; latitude := lat;
       height := match h with Some v => v | None => 0 end |};
  OtherDiscardPolicy := unit;
  Attributes := unit;
  Request := unit;
  undefined_property_message := "Cannot read properties of undefined"
|}.

Definition world : Rectangle :=
  {| west := -180; south := -90; east := 180; north := 90 |}.

(** Two tiles by one at level zero, halved at each level. *)
Definition tile_rectangle (x y : Z) (level : option Z) : Rectangle :=
  match level with
  | None => world
  | Some l =>
      let w := 180 / 2 ^ l in
      let h := 180 / 2 ^ l in
      {| west := -180 + x * w; south := 90 - (y + 1) * h;
         east := -180 + (x + 1) * w; north := 90 - y * h |}
  end.

#[export] Instance geometry : TileGeometry := {|
  scheme_rectangle := fun _ => world;
  scheme_ellipsoid := fun _ => tt;
  tileXYToRectangle := fun _ x y level => tile_rectangle x y (Some level);
  tileXYToNativeRectangle := fun _ x y level => tile_rectangle x y level;
  project := fun _ c =>
    {| c3_x := longitude c; c3_y := latitude c; c3_z := height c |}
|}.

(** The URL of a resource: the base followed by the relative paths. *)
Fixpoint url_of (r : Resource) : string :=
  match r with
  | BaseResource base => base
  | DerivedResource parent options =>
      match opt_url options with
      | Some path => (url_of parent ++ path)%string
      | None => url_of parent
      end
  end.

#[export] Instance urls : ResourceUrl := {| resource_url := url_of |}.

Definition server : Resource := BaseResource "https://example.com/MapServer/".

Definition no_options : ArcGis.ConstructorOptions :=
  {| ArcGis.options_tileDiscardPolicy := None;
     ArcGis.options_usePreCachedTilesIfAvailable := None;
     ArcGis.options_layers := None;
     ArcGis.options_enablePickFeatures := None;
     ArcGis.options_rectangle := None;
     ArcGis.options_tilingScheme := None;
     ArcGis.options_ellipsoid := None;
     ArcGis.options_credit := None;
     ArcGis.options_tileWidth := None;
     ArcGis.options_tileHeight := None;
     ArcGis.options_maximumLevel := None |}.

(** A tiled map server in web-mercator: three levels of detail, an extent
    given in degrees. *)
Definition tiles : ArcGis.TileInfo :=
  {| ArcGis.rows := 256;
     ArcGis.cols := 512;
     ArcGis.tileInfo_spatialReference := Some {| ArcGis.wkid := Some 102100 |};
     ArcGis.lods :=
       [ {| ArcGis.lod_level := 0; ArcGis.lod_resolution := 4; ArcGis.lod_scale := 4 |};
         {| ArcGis.lod_level := 1; ArcGis.lod_resolution := 2; ArcGis.lod_scale := 2 |};
         {| ArcGis.lod_level := 2; ArcGis.lod_resolution := 1; ArcGis.lod_scale := 1 |} ] |}.

Definition extent_in (code : option Z) : ArcGis.FullExtent :=
  {| ArcGis.xmin := -10; ArcGis.ymin := -20; ArcGis.xmax := 30; ArcGis.ymax := 40;
     ArcGis.fullExtent_spatialReference :=
       match code with
       | Some c => Some {| ArcGis.wkid := Some c |}
       | None => None
       end |}.

Definition tiled_document (extent : option ArcGis.FullExtent)
  : ArcGis.CapabilityDocument :=
  {| ArcGis.tileInfo := Some tiles;
     ArcGis.fullExtent := extent;
     ArcGis.copyrightText := Some "Sample"%string |}.

Definition untiled_document (extent : option ArcGis.FullExtent)
  : ArcGis.CapabilityDocument :=
  {| ArcGis.tileInfo := None;
     ArcGis.fullExtent := extent;
     ArcGis.copyrightText := None |}.

Definition builder : ArcGis.ImageryProviderBuilder :=
  ArcGis.new_ImageryProviderBuilder no_options.

(** A caller who passes a rectangle of their own. *)
Definition small : Rectangle :=
  {| west := 0; south := 0; east := 10; north := 10 |}.

Definition options_with_rectangle : ArcGis.ConstructorOptions :=
  {| ArcGis.options_tileDiscardPolicy := None;
     ArcGis.options_usePreCachedTilesIfAvailable := None;
     ArcGis.options_layers := None;
     ArcGis.options_enablePickFeatures := None;
     ArcGis.options_rectangle := Some small;
     ArcGis.options_tilingScheme := None;
     ArcGis.options_ellipsoid := None;
     ArcGis.options_credit := None;
     ArcGis.options_tileWidth := None;
     ArcGis.options_tileHeight := None;
     ArcGis.options_maximumLevel := None |}.

(** Two attribution entries of one supplier, with different coverage. *)
Definition supplier_everywhere : Bing.Attribution :=
  {| Bing.credit := {| html := "Supplier" |};
     Bing.coverageAreas :=
       [ {| Bing.zoomMin := 1; Bing.zoomMax := 10; Bing.bbox := world |} ] |}.

Definition supplier_west : Bing.Attribution :=
  {| Bing.credit := {| html := "Supplier" |};
     Bing.coverageAreas :=
       [ {| Bing.zoomMin := 5; Bing.zoomMax := 21;
            Bing.bbox := {| west := -180; south := -90; east := 0; north := 90 |} |} ] |}.

Definition other_supplier : Bing.Attribution :=
  {| Bing.credit := {| html := "Other" |};
     Bing.coverageAreas :=
       [ {| Bing.zoomMin := 1; Bing.zoomMax := 21; Bing.bbox := world |} ] |}.

Definition bing (attributionList : list Bing.Attribution)
  : Bing.BingMapsImageryProvider :=
  {| Bing._culture := ""%string;
     Bing._tilingScheme := WebMercatorTilingScheme None;
     Bing._tileWidth := Some 256;
     Bing._tileHeight := Some 256;
     Bing._maximumLevel := Some 20;
     Bing._imageUrlTemplate := None;
     Bing._imageUrlSubdomains := [];
     Bing._attributionList := attributionList;
     Bing._resource := BaseResource "https://dev.virtualearth.net/";
     Bing._ready := true |}.


(** A Bing provider with four tile servers. *)
Definition bing_servers : Bing.BingMapsImageryProvider :=
  {| Bing._culture := "en-GB"%string;
     Bing._tilingScheme := WebMercatorTilingScheme None;
     Bing._tileWidth := Some 256;
     Bing._tileHeight := Some 256;
     Bing._maximumLevel := Some 20;
     Bing._imageUrlTemplate :=
       Some "https://{subdomain}.tiles.example.com/{quadkey}?mkt={culture}"%string;
     Bing._imageUrlSubdomains := ["t0"; "t1"; "t2"; "t3"]%string;
     Bing._attributionList := [];
     Bing._resource := BaseResource "https://dev.virtualearth.net/";
     Bing._ready := true |}.

(** An attribution entry as a metadata response carries it, and a builder
    filled from such a response. *)
Definition response_supplier : Bing.ResponseAttribution :=
  {| Bing.attribution := "Supplier"%string;
     Bing.response_coverageAreas :=
       [ {| Bing.response_zoomMin := 1; Bing.response_zoomMax := 10;
            Bing.response_bbox := (-90, -180, 90, 180) |} ] |}.

Definition response_builder : Bing.ImageryProviderBuilder :=
  {| Bing.tileWidth := Some 256;
     Bing.tileHeight := Some 256;
     Bing.maximumLevel := Some 20;
     Bing.imageUrlSubdomains := ["t0"; "t1"; "t2"; "t3"]%string;
     Bing.imageUrlTemplate := None;
     Bing.attributionList := Some (Bing.FromResponse [response_supplier]) |}.

(** The metadata of a Bing response with one resource, and an empty
    builder. *)
Definition aerial : Bing.ImageryResource :=
  {| Bing.imageWidth := 256;
     Bing.imageHeight := 256;
     Bing.resource_zoomMax := 21;
     Bing.resource_imageUrlSubdomains := ["t0"; "t1"; "t2"; "t3"]%string;
     Bing.imageUrl :=
       "https://{subdomain}.tiles.example.com/{quadkey}?mkt={culture}"%string;
     Bing.imageryProviders :=
       Some (Bing.FromResponse [response_supplier]) |}.

Definition aerial_metadata : Bing.Metadata :=
  {| Bing.resourceSets := [ {| Bing.resources := [aerial] |} ] |}.

(** A caller who asks for dynamic addressing with the empty string as
    the layer list. *)
Definition empty_layers_options : ArcGis.ConstructorOptions :=
  {| ArcGis.options_tileDiscardPolicy := None;
     ArcGis.options_usePreCachedTilesIfAvailable := Some false;
     ArcGis.options_layers := Some ""%string;
     ArcGis.options_enablePickFeatures := None;
     ArcGis.options_rectangle := None;
     ArcGis.options_tilingScheme := None;
     ArcGis.options_ellipsoid := None;
     ArcGis.options_credit := None;
     ArcGis.options_tileWidth := None;
     ArcGis.options_tileHeight := None;
     ArcGis.options_maximumLevel := None |}.

(** A caller who asks for dynamic addressing, and the two kinds of
    provider. *)
Definition dynamic_options : ArcGis.ConstructorOptions :=
  {| ArcGis.options_tileDiscardPolicy := None;
     ArcGis.options_usePreCachedTilesIfAvailable := Some false;
     ArcGis.options_layers := None;
     ArcGis.options_enablePickFeatures := None;
     ArcGis.options_rectangle := None;
     ArcGis.options_tilingScheme := None;
     ArcGis.options_ellipsoid := None;
     ArcGis.options_credit := None;
     ArcGis.options_tileWidth := None;
     ArcGis.options_tileHeight := None;
     ArcGis.options_maximumLevel := None |}.

Definition dynamic_provider : ArcGis.ArcGisMapServerImageryProvider :=
  ArcGis.new_ArcGisMapServerImageryProvider dynamic_options server.

Definition precached_provider : ArcGis.ArcGisMapServerImageryProvider :=
  ArcGis.new_ArcGisMapServerImageryProvider no_options server.

(** An identify result: a point in web-mercator coordinates. *)
Definition point_result : ArcGis.IdentifyResult :=
  {| ArcGis.result_value := Some "Well"%string;
     ArcGis.result_attributes := None;
     ArcGis.result_geometryType := Some "esriGeometryPoint"%string;
     ArcGis.result_geometry :=
       Some {| ArcGis.geometry_x := 1; ArcGis.geometry_y := 2;
               ArcGis.geometry_z := None;
               ArcGis.geometry_spatialReference :=
                 Some {| ArcGis.wkid := Some 102100 |} |} |}.

(** The iTwin platform with a token, and two responses whose body is
    opaque. *)
Definition itwin : ITwinPlatform.Settings :=
  {| ITwinPlatform.defaultAccessToken := Some "token"%string;
     ITwinPlatform.apiEndpoint := "https://api.bentley.com/"%string;
     ITwinPlatform.CESIUM_VERSION := Some "1.0"%string |}.

Definition too_many_requests : ITwinPlatform.Response unit :=
  {| ITwinPlatform.ok := false; ITwinPlatform.status := 429;
     ITwinPlatform.json := Fulfilled tt |}.

Definition export_found : ITwinPlatform.Response unit :=
  {| ITwinPlatform.ok := true; ITwinPlatform.status := 200;
     ITwinPlatform.json := Fulfilled tt |}.

End Sample.

(** * Properties *)

(** ** The loop combinator *)

(** Fuel beyond [i + 1] is never used: the loop of [for_down_to_zero] ends
    because its condition fails. *)
Lemma for_down_fuel {St : Type} (body : Z -> St -> St) (fuel : nat) (i : Z)
      (s : St) :
  (Z.to_nat (i + 1) <= fuel)%nat ->
  JS.for_down fuel i body s = JS.for_down_to_zero i body s.
Proof.
  unfold JS.for_down_to_zero.
  revert i s. induction fuel as [|fuel IH]; intros i s Hfuel.
  - replace (Z.to_nat (i + 1)) with 0%nat by lia. reflexivity.
  - cbn [JS.for_down]. destruct (Z.leb_spec 0 i) as [Hi|Hi].
    + replace (Z.to_nat (i + 1)) with (S (Z.to_nat (i - 1 + 1))) by lia.
      cbn [JS.for_down].
      replace (0 <=? i) with true by (symmetry; apply Z.leb_le; lia).
      apply IH. lia.
    + replace (Z.to_nat (i + 1)) with 0%nat by lia. reflexivity.
Qed.

(** ** JavaScript integers in the range the quadkey code uses *)

Section Int32.

Lemma ToInt32_small (z : Z) : - 2 ^ 31 <= z < 2 ^ 31 -> JS.ToInt32 z = z.
Proof.
  intros Hz. unfold JS.ToInt32.
  rewrite Z.mod_small by lia. lia.
Qed.

Lemma pow2_le_30 (i : Z) : 0 <= i <= 30 -> 0 < 2 ^ i <= 2 ^ 30.
Proof.
  intros Hi. split.
  - apply Z.pow_pos_nonneg; lia.
  - apply Z.pow_le_mono_r; lia.
Qed.

Lemma shl_one (i : Z) : 0 <= i <= 30 -> JS.shl 1 i = 2 ^ i.
Proof.
  intros Hi. unfold JS.shl.
  rewrite (ToInt32_small 1) by lia.
  change 31 with (Z.ones 5) at 1.
  rewrite Z.land_ones by lia.
  rewrite Z.mod_small by (change (2 ^ 5) with 32; lia).
  rewrite Z.shiftl_1_l.
  apply ToInt32_small. pose proof (pow2_le_30 i Hi). lia.
Qed.

Lemma land_pow2 (x i : Z) :
  0 <= i -> Z.land x (2 ^ i) = if Z.testbit x i then 2 ^ i else 0.
Proof.
  intros Hi. apply Z.bits_inj'. intros j Hj.
  rewrite Z.land_spec, Z.pow2_bits_eqb by lia.
  destruct (Z.eqb_spec i j) as [->|Hne].
  - destruct (Z.testbit x j) eqn:E; cbn.
    + now rewrite Z.pow2_bits_true.
    + now rewrite Z.bits_0.
  - rewrite andb_false_r.
    destruct (Z.testbit x i).
    + now rewrite Z.pow2_bits_false.
    + now rewrite Z.bits_0.
Qed.

Lemma band_pow2_is_zero (x i : Z) :
  0 <= x < 2 ^ 31 -> 0 <= i <= 30 ->
  (JS.band x (2 ^ i) =? 0) = negb (Z.testbit x i).
Proof.
  intros Hx Hi. unfold JS.band.
  pose proof (pow2_le_30 i Hi).
  rewrite !ToInt32_small by lia.
  rewrite land_pow2 by lia.
  destruct (Z.testbit x i); cbn.
  - apply Z.eqb_neq. lia.
  - reflexivity.
Qed.

Lemma bits_from_spec (x k j : Z) :
  0 <= k -> 0 <= j ->
  Z.testbit (bits_from x k) j = (k <=? j) && Z.testbit x j.
Proof.
  intros Hk Hj. unfold bits_from.
  destruct (Z.leb_spec k j).
  - rewrite Z.shiftl_spec, Z.shiftr_spec by lia.
    cbn. f_equal. lia.
  - rewrite Z.shiftl_spec_low by lia. reflexivity.
Qed.

Lemma bits_from_0 (x : Z) : bits_from x 0 = x.
Proof. unfold bits_from. now rewrite Z.shiftr_0_r, Z.shiftl_0_r. Qed.

Lemma bits_from_above (x k : Z) : 0 <= k -> 0 <= x < 2 ^ k -> bits_from x k = 0.
Proof.
  intros Hk Hx. unfold bits_from.
  rewrite Z.shiftr_div_pow2 by lia.
  rewrite Z.div_small by lia. apply Z.shiftl_0_l.
Qed.

Lemma bits_from_range (x k : Z) : 0 <= k -> 0 <= x -> 0 <= bits_from x k <= x.
Proof.
  intros Hk Hx. unfold bits_from.
  rewrite Z.shiftl_mul_pow2, Z.shiftr_div_pow2 by lia.
  assert (0 < 2 ^ k) by (apply Z.pow_pos_nonneg; lia).
  pose proof (Z.mul_div_le x (2 ^ k) ltac:(lia)).
  pose proof (Z.div_pos x (2 ^ k) ltac:(lia) ltac:(lia)).
  nia.
Qed.

Lemma bits_from_step (x i : Z) :
  0 <= i ->
  bits_from x i =
  if Z.testbit x i then Z.lor (bits_from x (i + 1)) (2 ^ i)
  else bits_from x (i + 1).
Proof.
  intros Hi. apply Z.bits_inj'. intros j Hj.
  rewrite bits_from_spec by lia.
  destruct (Z.testbit x i) eqn:E.
  - rewrite Z.lor_spec, bits_from_spec, Z.pow2_bits_eqb by lia.
    destruct (Z.eqb_spec i j) as [->|Hne].
    + rewrite E, orb_true_r. now rewrite Z.leb_refl.
    + rewrite orb_false_r.
      destruct (Z.leb_spec i j), (Z.leb_spec (i + 1) j); try lia; reflexivity.
  - rewrite bits_from_spec by lia.
    destruct (Z.eqb_spec i j) as [->|Hne].
    + rewrite E, !andb_false_r. reflexivity.
    + destruct (Z.leb_spec i j), (Z.leb_spec (i + 1) j); try lia; reflexivity.
Qed.

End Int32.

(** ** Quadkeys *)

Section Quadkey.

Lemma string_app_cons (ch : ascii) (a b : string) :
  (String ch a ++ b = String ch (a ++ b))%string.
Proof. reflexivity. Qed.

Lemma string_app_nil_l (a : string) : (EmptyString ++ a = a)%string.
Proof. reflexivity. Qed.

Lemma string_app_nil_r (a : string) : (a ++ EmptyString = a)%string.
Proof.
  induction a as [|ch a IH]; [reflexivity|].
  now rewrite string_app_cons, IH.
Qed.

Lemma string_app_assoc (a b c : string) :
  ((a ++ b) ++ c = a ++ (b ++ c))%string.
Proof.
  induction a as [|ch a IH]; [reflexivity|].
  now rewrite !string_app_cons, IH.
Qed.

(** A digit is printed as one character and read back as itself. *)
Lemma quad_digit_cases (x y i : Z) :
  exists c : ascii,
    JS.number_to_string (quad_digit x y i) = String c EmptyString /\
    JS.to_number (Some c) = Some (quad_digit x y i).
Proof.
  unfold quad_digit.
  destruct (Z.testbit x i), (Z.testbit y i); cbn;
    eexists; split; reflexivity.
Qed.

Lemma quad_digits_length (x y : Z) (n : nat) :
  String.length (quad_digits x y n) = n.
Proof.
  induction n as [|n IH]; cbn [quad_digits]; [reflexivity|].
  destruct (quad_digit_cases x y (Z.of_nat n)) as (c & -> & _).
  rewrite string_app_cons, string_app_nil_l. cbn. now rewrite IH.
Qed.

(** Position [k] of the key holds the digit of bit [n - 1 - k]. *)
Lemma quad_digits_get (x y : Z) (n k : nat) :
  (k < n)%nat ->
  JS.to_number (String.get k (quad_digits x y n)) =
  Some (quad_digit x y (Z.of_nat (n - 1 - k))).
Proof.
  revert k. induction n as [|n IH]; intros k Hk; [lia|].
  cbn [quad_digits].
  destruct (quad_digit_cases x y (Z.of_nat n)) as (c & -> & Hc).
  rewrite string_app_cons, string_app_nil_l.
  destruct k as [|k]; cbn [String.get].
  - rewrite Hc. do 3 f_equal. lia.
  - rewrite IH by lia. do 3 f_equal. lia.
Qed.

(** The digit the encoder computes for bit [i]. *)
Lemma encoder_digit (x y i : Z) :
  0 <= x < 2 ^ 31 -> 0 <= y < 2 ^ 31 -> 0 <= i <= 30 ->
  (let bitmask := JS.shl 1 i in
   let digit := 0 in
   let digit := if JS.band x bitmask =? 0 then digit else JS.bor digit 1 in
   let digit := if JS.band y bitmask =? 0 then digit else JS.bor digit 2 in
   digit) = quad_digit x y i.
Proof.
  intros Hx Hy Hi. cbv zeta.
  rewrite shl_one, !band_pow2_is_zero by lia.
  unfold quad_digit.
  destruct (Z.testbit x i), (Z.testbit y i); reflexivity.
Qed.

Lemma encoder_loop (x y : Z) (n : nat) (quadkey : string) :
  0 <= x < 2 ^ 31 -> 0 <= y < 2 ^ 31 -> (n <= 31)%nat ->
  JS.for_down n (Z.of_nat n - 1)
    (fun i quadkey =>
       let bitmask := JS.shl 1 i in
       let digit := 0 in
       let digit := if JS.band x bitmask =? 0 then digit else JS.bor digit 1 in
       let digit := if JS.band y bitmask =? 0 then digit else JS.bor digit 2 in
       (quadkey ++ JS.number_to_string digit)%string)
    quadkey
  = (quadkey ++ quad_digits x y n)%string.
Proof.
  intros Hx Hy. revert quadkey.
  induction n as [|n IH]; intros quadkey Hn.
  - cbn. now rewrite string_app_nil_r.
  - cbn [JS.for_down quad_digits].
    replace (0 <=? Z.of_nat (S n) - 1) with true by (symmetry; apply Z.leb_le; lia).
    rewrite encoder_digit by lia.
    replace (Z.of_nat (S n) - 1 - 1) with (Z.of_nat n - 1) by lia.
    rewrite IH by lia.
    replace (Z.of_nat (S n) - 1) with (Z.of_nat n) by lia.
    apply string_app_assoc.
Qed.

Lemma tileXYToQuadKey_digits (x y level : Z) :
  0 <= x < 2 ^ 31 -> 0 <= y < 2 ^ 31 -> -1 <= level <= 30 ->
  Bing.tileXYToQuadKey x y level = quad_digits x y (Z.to_nat (level + 1)).
Proof.
  intros Hx Hy Hl. unfold Bing.tileXYToQuadKey, JS.for_down_to_zero.
  replace level with (Z.of_nat (Z.to_nat (level + 1)) - 1) at 2 by lia.
  rewrite encoder_loop by lia. reflexivity.
Qed.

(** The decoder, started on bit [m - 1] with the bits from [m] upwards
    already in place, ends with all bits in place. *)
Lemma decoder_loop (x y : Z) (n m : nat) :
  0 <= x < 2 ^ 31 -> 0 <= y < 2 ^ 31 -> (m <= n <= 31)%nat ->
  JS.for_down m (Z.of_nat m - 1)
    (fun i (xy : Z * Z) =>
       let (x', y') := xy in
       let bitmask := JS.shl 1 i in
       let digit :=
         JS.to_number (JS.char_at (quad_digits x y n) (Z.of_nat n - 1 - i)) in
       let x' := if JS.band (JS.number_ToInt32 digit) 1 =? 0
                 then x' else JS.bor x' bitmask in
       let y' := if JS.band (JS.number_ToInt32 digit) 2 =? 0
                 then y' else JS.bor y' bitmask in
       (x', y'))
    (bits_from x (Z.of_nat m), bits_from y (Z.of_nat m))
  = (x, y).
Proof.
  intros Hx Hy. induction m as [|m IH]; intros Hm.
  - cbn. now rewrite !bits_from_0.
  - cbn [JS.for_down].
    replace (0 <=? Z.of_nat (S m) - 1) with true by (symmetry; apply Z.leb_le; lia).
    replace (Z.of_nat (S m) - 1 - 1) with (Z.of_nat m - 1) by lia.
    replace (Z.of_nat (S m) - 1) with (Z.of_nat m) by lia.
    rewrite <- IH by lia. f_equal.
    unfold JS.char_at.
    replace (Z.of_nat n - 1 - Z.of_nat m <? 0) with false
      by (symmetry; apply Z.ltb_ge; lia).
    rewrite quad_digits_get by lia.
    replace (Z.of_nat (n - 1 - Z.to_nat (Z.of_nat n - 1 - Z.of_nat m)))
      with (Z.of_nat m) by lia.
    rewrite shl_one by lia.
    pose proof (pow2_le_30 (Z.of_nat m) ltac:(lia)).
    pose proof (bits_from_range x (Z.of_nat (S m)) ltac:(lia) ltac:(lia)).
    pose proof (bits_from_range y (Z.of_nat (S m)) ltac:(lia) ltac:(lia)).
    rewrite (bits_from_step x (Z.of_nat m)), (bits_from_step y (Z.of_nat m)) by lia.
    replace (Z.of_nat m + 1) with (Z.of_nat (S m)) by lia.
    unfold JS.bor. rewrite !ToInt32_small by lia.
    unfold quad_digit.
    destruct (Z.testbit x (Z.of_nat m)), (Z.testbit y (Z.of_nat m)); reflexivity.
Qed.

(** The round trip on the whole 31-bit range: level up to 30, coordinates
    below [2 ^ (level + 1)]. *)
Lemma quadkey_roundtrip_31 (x y level : Z) :
  -1 <= level <= 30 ->
  0 <= x < 2 ^ (level + 1) -> 0 <= y < 2 ^ (level + 1) ->
  Bing.quadKeyToTileXY (Bing.tileXYToQuadKey x y level)
  = {| Bing.tile_x := x; Bing.tile_y := y; Bing.tile_level := level |}.
Proof.
  intros Hl Hx Hy.
  assert (2 ^ (level + 1) <= 2 ^ 31) by (apply Z.pow_le_mono_r; lia).
  rewrite tileXYToQuadKey_digits by lia.
  unfold Bing.quadKeyToTileXY, JS.for_down_to_zero.
  rewrite quad_digits_length.
  set (n := Z.to_nat (level + 1)).
  replace (Z.to_nat (Z.of_nat n - 1 + 1)) with n by lia.
  pose proof (decoder_loop x y n n ltac:(lia) ltac:(lia) ltac:(lia)) as D.
  rewrite !bits_from_above in D by (subst n; rewrite ?Z2Nat.id; lia).
  cbv zeta in D. rewrite D. cbn [fst snd]. f_equal. subst n. lia.
Qed.

End Quadkey.

(** C1. For every level in [0, 23] and every x, y in [0, 2^level), decoding
    the quadkey that encoding produces gives back the tile coordinate; in
    particular tile (3, 5, 3) has the quadkey "0213", and "0213" decodes to
    (3, 5, 3). *)
Theorem quadkey_roundtrip :
  (forall x y level : Z,
      0 <= level <= 23 -> 0 <= x < 2 ^ level -> 0 <= y < 2 ^ level ->
      Bing.quadKeyToTileXY (Bing.tileXYToQuadKey x y level)
      = {| Bing.tile_x := x; Bing.tile_y := y; Bing.tile_level := level |})
  /\ Bing.tileXYToQuadKey 3 5 3 = "0213"%string
  /\ Bing.quadKeyToTileXY "0213"
     = {| Bing.tile_x := 3; Bing.tile_y := 5; Bing.tile_level := 3 |}.
Proof.
  split; [|split; reflexivity].
  intros x y level Hl Hx Hy.
  assert (2 ^ level <= 2 ^ (level + 1)) by (apply Z.pow_le_mono_r; lia).
  apply quadkey_roundtrip_31; lia.
Qed.

(** ** The attribution index *)

Section Attribution.
Context `{TileGeometry} `{!ResourceUrl}.

Lemma coverage_loop_exists (level : Z) (rectangle : Rectangle)
      (coverageAreas : list Bing.CoverageArea) (included : bool) :
  Bing.coverage_loop level rectangle coverageAreas included
  = included || existsb (Spec.area_passes level rectangle) coverageAreas.
Proof.
  revert included.
  induction coverageAreas as [|area rest IH]; intros included; cbn.
  - now rewrite orb_false_r.
  - destruct included; cbn; [reflexivity|].
    rewrite IH. unfold Spec.area_passes.
    rewrite Z.geb_leb.
    destruct (Bing.zoomMin area <=? level), (level <=? Bing.zoomMax area),
      (Rectangle_intersection rectangle (Bing.bbox area)); reflexivity.
Qed.

Lemma attribution_loop_filter (level : Z) (rectangle : Rectangle)
      (attributionList : list Bing.Attribution) (result : list Credit) :
  Bing.attribution_loop level rectangle attributionList result
  = result ++
    map Bing.credit
        (List.filter
           (fun entry => existsb (Spec.area_passes level rectangle)
                                 (Bing.coverageAreas entry))
           attributionList).
Proof.
  revert result.
  induction attributionList as [|entry rest IH]; intros result; cbn.
  - now rewrite app_nil_r.
  - rewrite IH, coverage_loop_exists. cbn.
    destruct (existsb _ _); cbn; [|reflexivity].
    now rewrite <- app_assoc.
Qed.

Lemma getRectangleAttribution_creditsFor
      (attributionList : list Bing.Attribution) (level : Z)
      (rectangle : Rectangle) :
  Bing.getRectangleAttribution attributionList level rectangle
  = Spec.creditsFor attributionList rectangle level.
Proof.
  unfold Bing.getRectangleAttribution, Spec.creditsFor.
  now rewrite attribution_loop_filter.
Qed.

(** What it means for an area to pass, in words of order and intersection. *)
Lemma area_passes_iff (level : Z) (rectangle : Rectangle)
      (area : Bing.CoverageArea) :
  Spec.area_passes level rectangle area = true <->
  (Bing.zoomMin area <= level <= Bing.zoomMax area
   /\ Rectangle_intersection rectangle (Bing.bbox area) <> None).
Proof.
  unfold Spec.area_passes.
  rewrite !andb_true_iff, !Z.leb_le.
  destruct (Rectangle_intersection rectangle (Bing.bbox area)); split.
  - intros [[? ?] _]. repeat split; try lia. discriminate.
  - intros [[? ?] _]. repeat split; lia.
  - intros [_ ?]. discriminate.
  - intros [_ ?]. congruence.
Qed.

Lemma creditsFor_In (attributionList : list Bing.Attribution)
      (rectangle : Rectangle) (level : Z) (c : Credit) :
  In c (Spec.creditsFor attributionList rectangle level) <->
  exists entry,
    In entry attributionList /\ Bing.credit entry = c /\
    exists area,
      In area (Bing.coverageAreas entry) /\
      Bing.zoomMin area <= level + 1 <= Bing.zoomMax area /\
      Rectangle_intersection rectangle (Bing.bbox area) <> None.
Proof.
  unfold Spec.creditsFor. rewrite in_map_iff. split.
  - intros (entry & Hc & Hin). apply filter_In in Hin as [Hin Hex].
    apply existsb_exists in Hex as (area & Ha & Hp).
    apply area_passes_iff in Hp.
    exists entry. repeat split; try tauto. exists area. tauto.
  - intros (entry & Hin & Hc & area & Ha & Hz & Hi).
    exists entry. split; [assumption|].
    apply filter_In. split; [assumption|].
    apply existsb_exists. exists area. split; [assumption|].
    apply area_passes_iff. tauto.
Qed.

Lemma creditsFor_sublist (attributionList : list Bing.Attribution)
      (rectangle : Rectangle) (level : Z) :
  sublist (Spec.creditsFor attributionList rectangle level)
          (map Bing.credit attributionList).
Proof.
  unfold Spec.creditsFor.
  induction attributionList as [|entry rest IH]; cbn.
  - constructor.
  - destruct (existsb _ _); cbn.
    + now apply sublist_skip.
    + now apply sublist_cons.
Qed.

(** C3, as the code has it.  The credits of a tile are those of
    [creditsFor] at the tile's rectangle: a credit is returned exactly when
    an entry carrying it has an area whose zoom range holds the 1-based
    level and whose rectangle meets the tile's; the result follows the
    order of the attribution list, and it is free of duplicates whenever
    the credits of the attribution list are. *)
Theorem getTileCredits_creditsFor (this : Bing.BingMapsImageryProvider)
        (x y level : Z) :
  let rectangle := tileXYToRectangle (Bing._tilingScheme this) x y level in
  let result := Bing.getTileCredits this x y level in
  result = Spec.creditsFor (Bing._attributionList this) rectangle level
  /\ (forall c : Credit,
         In c result <->
         exists entry,
           In entry (Bing._attributionList this) /\ Bing.credit entry = c /\
           exists area,
             In area (Bing.coverageAreas entry) /\
             Bing.zoomMin area <= level + 1 <= Bing.zoomMax area /\
             Rectangle_intersection rectangle (Bing.bbox area) <> None)
  /\ sublist result (map Bing.credit (Bing._attributionList this))
  /\ (NoDup (map Bing.credit (Bing._attributionList this)) -> NoDup result).
Proof.
  cbv zeta. unfold Bing.getTileCredits.
  rewrite getRectangleAttribution_creditsFor.
  split; [reflexivity|]. split; [|split].
  - intros c. apply creditsFor_In.
  - apply creditsFor_sublist.
  - intros Hnd. eapply sublist_NoDup; [exact Hnd|apply creditsFor_sublist].
Qed.

End Attribution.

(** ** Parsing the capability document *)

Lemma SpatialReferenceMap_cases (code : option Z) :
  ((code = Some 102100 \/ code = Some 102113)
   /\ Spec.SpatialReferenceMap code = Some WebMercatorProjection)
  \/ (code = Some 4326
      /\ Spec.SpatialReferenceMap code = Some GeographicProjection)
  \/ (code <> Some 102100 /\ code <> Some 102113 /\ code <> Some 4326
      /\ Spec.SpatialReferenceMap code = None).
Proof.
  destruct code as [c|]; [|right; right; repeat split; congruence].
  destruct (Z.eq_dec c 102100) as [->|H1]; [left; split; [left|]; reflexivity|].
  destruct (Z.eq_dec c 102113) as [->|H2]; [left; split; [right|]; reflexivity|].
  destruct (Z.eq_dec c 4326) as [->|H3]; [right; left; split; reflexivity|].
  right; right. repeat split; try congruence.
  unfold Spec.SpatialReferenceMap.
  destruct c as [|p|p]; try reflexivity.
  repeat (destruct p as [p|p|]; try reflexivity; try congruence).
Qed.

(** Unfolding the statement combinators. *)
Ltac run_stmt :=
  unfold ArcGis.bind, ArcGis.assign, ArcGis.throw, ArcGis.ret,
    ArcGis.this_builder.

Section Metadata.
Context `{TileGeometry} `{!ResourceUrl}.

Lemma wkid_is_true (w : option Z) (code : Z) :
  ArcGis.wkid_is w code = true <-> w = Some code.
Proof.
  destruct w as [n|]; cbn; [|split; congruence].
  rewrite Z.eqb_eq. split; congruence.
Qed.

Lemma wkid_is_false (w : option Z) (code : Z) :
  w <> Some code -> ArcGis.wkid_is w code = false.
Proof.
  intros Hne. destruct (ArcGis.wkid_is w code) eqn:E; [|reflexivity].
  apply wkid_is_true in E. contradiction.
Qed.

Lemma select_tilingScheme_run (tileInfo : ArcGis.TileInfo)
      (reference : ArcGis.SpatialReference) (b : ArcGis.ImageryProviderBuilder) :
  ArcGis.tileInfo_spatialReference tileInfo = Some reference ->
  ArcGis.select_tilingScheme tileInfo b =
  match Spec.SpatialReferenceMap (ArcGis.wkid reference) with
  | Some WebMercatorProjection =>
      (ArcGis.set_tilingScheme (WebMercatorTilingScheme (ArcGis.ellipsoid b)) b,
       inr tt)
  | Some GeographicProjection =>
      (ArcGis.set_tilingScheme (GeographicTilingScheme (ArcGis.ellipsoid b)) b,
       inr tt)
  | None =>
      (b, inl (RuntimeError
                 ("Tile spatial reference WKID "
                  ++ JS.optional_number_to_string (ArcGis.wkid reference)
                  ++ " is not supported.")))
  end.
Proof.
  intros Href. unfold ArcGis.select_tilingScheme. rewrite Href.
  destruct (SpatialReferenceMap_cases (ArcGis.wkid reference))
    as [[Hw ->]|[[Hw ->]|(N1 & N2 & N3 & ->)]].
  - assert (ArcGis.wkid_is (ArcGis.wkid reference) 102100
            || ArcGis.wkid_is (ArcGis.wkid reference) 102113 = true) as ->.
    { apply orb_true_iff.
      destruct Hw as [Hw|Hw]; [left|right]; now apply wkid_is_true. }
    reflexivity.
  - rewrite Hw. reflexivity.
  - rewrite !wkid_is_false by assumption. reflexivity.
Qed.

Lemma read_fullExtent_run (data : ArcGis.CapabilityDocument)
      (b : ArcGis.ImageryProviderBuilder) :
  ArcGis.read_fullExtent data b =
  match ArcGis.fullExtent data with
  | None =>
      (ArcGis.set_rectangle (scheme_rectangle (ArcGis.tilingScheme b)) b, inr tt)
  | Some extent =>
      match ArcGis.fullExtent_spatialReference extent with
      | Some {| ArcGis.wkid := Some code |} =>
          match Spec.SpatialReferenceMap (Some code) with
          | Some WebMercatorProjection =>
              (ArcGis.set_rectangle
                 (ArcGis.mercator_extent_rectangle (ArcGis.tilingScheme b) extent)
                 b,
               inr tt)
          | Some GeographicProjection =>
              (ArcGis.set_rectangle
                 (Rectangle_fromDegrees
                    (ArcGis.xmin extent) (ArcGis.ymin extent)
                    (ArcGis.xmax extent) (ArcGis.ymax extent))
                 b,
               inr tt)
          | None =>
              (b, inl (RuntimeError
                         ("fullExtent.spatialReference WKID "
                          ++ JS.number_to_string code ++ " is not supported.")))
          end
      | _ => (b, inr tt)
      end
  end.
Proof.
  unfold ArcGis.read_fullExtent.
  destruct (ArcGis.fullExtent data) as [extent|]; [|reflexivity].
  destruct (ArcGis.fullExtent_spatialReference extent) as [[[code|]]|];
    try reflexivity.
  destruct (SpatialReferenceMap_cases (Some code))
    as [[Hw ->]|[[Hw ->]|(N1 & N2 & N3 & ->)]].
  - assert ((code =? 102100) || (code =? 102113) = true) as ->.
    { apply orb_true_iff. rewrite !Z.eqb_eq.
      destruct Hw as [Hw|Hw]; [left|right]; congruence. }
    reflexivity.
  - injection Hw as ->. reflexivity.
  - assert ((code =? 102100) = false) as -> by (apply Z.eqb_neq; congruence).
    assert ((code =? 102113) = false) as -> by (apply Z.eqb_neq; congruence).
    assert ((code =? 4326) = false) as -> by (apply Z.eqb_neq; congruence).
    reflexivity.
Qed.

Lemma read_copyrightText_run (data : ArcGis.CapabilityDocument)
      (b : ArcGis.ImageryProviderBuilder) :
  exists c : option Credit,
    ArcGis.read_copyrightText data b = (ArcGis.set_credit c b, inr tt).
Proof.
  unfold ArcGis.read_copyrightText.
  destruct (ArcGis.copyrightText data) as [text|].
  - destruct (0 <? Z.of_nat (String.length text)).
    + eexists. reflexivity.
    + exists (ArcGis.credit b). destruct b. reflexivity.
  - exists (ArcGis.credit b). destruct b. reflexivity.
Qed.

(** [metadataSuccess] on a document with a tile-grid section, up to the
    statement that reads the data extent. *)
Lemma metadataSuccess_tiled (data : ArcGis.CapabilityDocument)
      (b : ArcGis.ImageryProviderBuilder) (tileInfo : ArcGis.TileInfo) :
  ArcGis.tileInfo data = Some tileInfo ->
  ArcGis.metadataSuccess data b =
  match
    ArcGis.select_tilingScheme tileInfo
      (ArcGis.set_tileHeight (ArcGis.cols tileInfo)
         (ArcGis.set_tileWidth (ArcGis.rows tileInfo) b))
  with
  | (b1, inr _) =>
      match
        ArcGis.read_fullExtent data
          (ArcGis.set_maximumLevel
             (Some (Z.of_nat (length (ArcGis.lods tileInfo)) - 1)) b1)
      with
      | (b2, inr _) =>
          ArcGis.read_copyrightText data (ArcGis.set_useTiles true b2)
      | (b2, inl e) => (b2, inl e)
      end
  | (b1, inl e) => (b1, inl e)
  end.
Proof.
  intros Hti. unfold ArcGis.metadataSuccess. rewrite Hti. run_stmt.
  destruct (ArcGis.select_tilingScheme _ _) as [b1 [e|[]]]; [reflexivity|].
  destruct (ArcGis.read_fullExtent _ _) as [b2 [e|[]]]; reflexivity.
Qed.

(** The code of the tile-grid section decides the tiling scheme. *)
Lemma metadataSuccess_scheme
      (data : ArcGis.CapabilityDocument) (b : ArcGis.ImageryProviderBuilder)
      (tileInfo : ArcGis.TileInfo) (reference : ArcGis.SpatialReference) :
  ArcGis.tileInfo data = Some tileInfo ->
  ArcGis.tileInfo_spatialReference tileInfo = Some reference ->
  match Spec.SpatialReferenceMap (ArcGis.wkid reference) with
  | Some WebMercatorProjection =>
      ArcGis.tilingScheme (fst (ArcGis.metadataSuccess data b))
      = WebMercatorTilingScheme (ArcGis.ellipsoid b)
  | Some GeographicProjection =>
      ArcGis.tilingScheme (fst (ArcGis.metadataSuccess data b))
      = GeographicTilingScheme (ArcGis.ellipsoid b)
  | None =>
      snd (ArcGis.metadataSuccess data b)
      = inl (RuntimeError
               ("Tile spatial reference WKID "
                ++ JS.optional_number_to_string (ArcGis.wkid reference)
                ++ " is not supported."))
  end.
Proof.
  intros Hti Href.
  rewrite (metadataSuccess_tiled data b tileInfo Hti).
  rewrite (select_tilingScheme_run tileInfo reference _ Href).
  destruct (Spec.SpatialReferenceMap (ArcGis.wkid reference)) as [[]|];
    [| |reflexivity];
    rewrite read_fullExtent_run;
    (destruct (ArcGis.fullExtent data) as [extent|];
     [destruct (ArcGis.fullExtent_spatialReference extent) as [[[code|]]|];
      [destruct (Spec.SpatialReferenceMap (Some code)) as [[]|]| |]|]);
    try reflexivity;
    match goal with
    | |- context [ArcGis.read_copyrightText data ?b'] =>
        destruct (read_copyrightText_run data b') as [c ->]
    end; reflexivity.
Qed.

(** Under a supported tile-grid code, the code of the data extent decides
    how the extent is read. *)
Lemma metadataSuccess_extent
      (data : ArcGis.CapabilityDocument) (b : ArcGis.ImageryProviderBuilder)
      (tileInfo : ArcGis.TileInfo) (reference : ArcGis.SpatialReference)
      (extent : ArcGis.FullExtent) (code : Z) :
  ArcGis.tileInfo data = Some tileInfo ->
  ArcGis.tileInfo_spatialReference tileInfo = Some reference ->
  Spec.SpatialReferenceMap (ArcGis.wkid reference) <> None ->
  ArcGis.fullExtent data = Some extent ->
  ArcGis.fullExtent_spatialReference extent
  = Some {| ArcGis.wkid := Some code |} ->
  match Spec.SpatialReferenceMap (Some code) with
  | Some WebMercatorProjection =>
      snd (ArcGis.metadataSuccess data b) = inr tt /\
      ArcGis.rectangle (fst (ArcGis.metadataSuccess data b))
      = ArcGis.mercator_extent_rectangle
          (ArcGis.tilingScheme (fst (ArcGis.metadataSuccess data b))) extent
  | Some GeographicProjection =>
      snd (ArcGis.metadataSuccess data b) = inr tt /\
      ArcGis.rectangle (fst (ArcGis.metadataSuccess data b))
      = Rectangle_fromDegrees (ArcGis.xmin extent) (ArcGis.ymin extent)
                              (ArcGis.xmax extent) (ArcGis.ymax extent)
  | None =>
      snd (ArcGis.metadataSuccess data b)
      = inl (RuntimeError
               ("fullExtent.spatialReference WKID "
                ++ JS.number_to_string code ++ " is not supported."))
  end.
Proof.
  intros Hti Href Hsup Hext Hcode.
  rewrite (metadataSuccess_tiled data b tileInfo Hti).
  rewrite (select_tilingScheme_run tileInfo reference _ Href).
  destruct (Spec.SpatialReferenceMap (ArcGis.wkid reference)) as [[]|];
    [| |contradiction];
    rewrite read_fullExtent_run, Hext, Hcode;
    (destruct (Spec.SpatialReferenceMap (Some code)) as [[]|];
     [| |reflexivity]);
    match goal with
    | |- context [ArcGis.read_copyrightText data ?b'] =>
        destruct (read_copyrightText_run data b') as [c ->]
    end; split; reflexivity.
Qed.

(** Under a supported tile-grid code, a document without a data extent
    gets the rectangle of the resolved tiling scheme. *)
Lemma metadataSuccess_no_extent
      (data : ArcGis.CapabilityDocument) (b : ArcGis.ImageryProviderBuilder)
      (tileInfo : ArcGis.TileInfo) (reference : ArcGis.SpatialReference) :
  ArcGis.tileInfo data = Some tileInfo ->
  ArcGis.tileInfo_spatialReference tileInfo = Some reference ->
  Spec.SpatialReferenceMap (ArcGis.wkid reference) <> None ->
  ArcGis.fullExtent data = None ->
  snd (ArcGis.metadataSuccess data b) = inr tt /\
  ArcGis.rectangle (fst (ArcGis.metadataSuccess data b))
  = scheme_rectangle (ArcGis.tilingScheme (fst (ArcGis.metadataSuccess data b))).
Proof.
  intros Hti Href Hsup Hnone.
  rewrite (metadataSuccess_tiled data b tileInfo Hti).
  rewrite (select_tilingScheme_run tileInfo reference _ Href).
  destruct (Spec.SpatialReferenceMap (ArcGis.wkid reference)) as [[]|];
    [| |contradiction];
    rewrite read_fullExtent_run, Hnone;
    match goal with
    | |- context [ArcGis.read_copyrightText data ?b'] =>
        destruct (read_copyrightText_run data b') as [c ->]
    end; split; reflexivity.
Qed.

(** C2, as the code has it.  For every capability document with a
    tile-grid section, the section's code decides the tiling scheme:
    102100 and 102113 give the web-mercator scheme, 4326 the geographic
    one, and every other code makes parsing throw the unsupported-reference
    error.  When that code is supported and the data extent reports a code
    of its own, the extent's code decides how the extent is read: 102100
    and 102113 through the web-mercator projection, 4326 as degrees, and
    every other code throws the extent's unsupported-reference error. *)
Theorem metadataSuccess_spatial_reference
        (data : ArcGis.CapabilityDocument) (b : ArcGis.ImageryProviderBuilder)
        (tileInfo : ArcGis.TileInfo) (reference : ArcGis.SpatialReference) :
  ArcGis.tileInfo data = Some tileInfo ->
  ArcGis.tileInfo_spatialReference tileInfo = Some reference ->
  let after := ArcGis.metadataSuccess data b in
  match Spec.SpatialReferenceMap (ArcGis.wkid reference) with
  | Some WebMercatorProjection =>
      ArcGis.tilingScheme (fst after)
      = WebMercatorTilingScheme (ArcGis.ellipsoid b)
  | Some GeographicProjection =>
      ArcGis.tilingScheme (fst after)
      = GeographicTilingScheme (ArcGis.ellipsoid b)
  | None =>
      snd after
      = inl (RuntimeError
               ("Tile spatial reference WKID "
                ++ JS.optional_number_to_string (ArcGis.wkid reference)
                ++ " is not supported."))
  end
  /\ forall (extent : ArcGis.FullExtent) (code : Z),
      Spec.SpatialReferenceMap (ArcGis.wkid reference) <> None ->
      ArcGis.fullExtent data = Some extent ->
      ArcGis.fullExtent_spatialReference extent
      = Some {| ArcGis.wkid := Some code |} ->
      match Spec.SpatialReferenceMap (Some code) with
      | Some WebMercatorProjection =>
          snd after = inr tt /\
          ArcGis.rectangle (fst after)
          = ArcGis.mercator_extent_rectangle
              (ArcGis.tilingScheme (fst after)) extent
      | Some GeographicProjection =>
          snd after = inr tt /\
          ArcGis.rectangle (fst after)
          = Rectangle_fromDegrees (ArcGis.xmin extent) (ArcGis.ymin extent)
                                  (ArcGis.xmax extent) (ArcGis.ymax extent)
      | None =>
          snd after
          = inl (RuntimeError
                   ("fullExtent.spatialReference WKID "
                    ++ JS.number_to_string code ++ " is not supported."))
      end.
Proof.
  intros Hti Href. cbv zeta. split.
  - exact (metadataSuccess_scheme data b tileInfo reference Hti Href).
  - intros extent code Hsup Hext Hcode.
    exact (metadataSuccess_extent data b tileInfo reference extent code
             Hti Href Hsup Hext Hcode).
Qed.

(** What the code does with a data extent that carries no spatial
    reference: the rectangle of the builder stays as it was. *)
Lemma metadataSuccess_extent_without_reference
      (data : ArcGis.CapabilityDocument) (b : ArcGis.ImageryProviderBuilder)
      (tileInfo : ArcGis.TileInfo) (reference : ArcGis.SpatialReference)
      (extent : ArcGis.FullExtent) :
  ArcGis.tileInfo data = Some tileInfo ->
  ArcGis.tileInfo_spatialReference tileInfo = Some reference ->
  Spec.SpatialReferenceMap (ArcGis.wkid reference) <> None ->
  ArcGis.fullExtent data = Some extent ->
  ArcGis.fullExtent_spatialReference extent = None ->
  snd (ArcGis.metadataSuccess data b) = inr tt /\
  ArcGis.rectangle (fst (ArcGis.metadataSuccess data b)) = ArcGis.rectangle b.
Proof.
  intros Hti Href Hsup Hext Hnone.
  rewrite (metadataSuccess_tiled data b tileInfo Hti).
  rewrite (select_tilingScheme_run tileInfo reference _ Href).
  destruct (Spec.SpatialReferenceMap (ArcGis.wkid reference)) as [[]|];
    [| |contradiction];
    rewrite read_fullExtent_run, Hext, Hnone;
    match goal with
    | |- context [ArcGis.read_copyrightText data ?b'] =>
        destruct (read_copyrightText_run data b') as [c ->]
    end; split; reflexivity.
Qed.

(** C7 on the code.  For every capability document with a tile-grid
    section of a supported code: a document without a data extent gets the
    full rectangle of the resolved tiling scheme; a data extent of code
    102100 or 102113 becomes the provider rectangle after its corners are
    clamped to plus and minus [maximumRadius * Math.PI] and unprojected; a
    data extent of code 4326 becomes the rectangle of its degrees; and a
    data extent that carries no spatial reference leaves the rectangle of
    the builder as it was: the one that the builder took from the caller's
    options, whatever the resolved tiling scheme. *)
Theorem metadataSuccess_rectangle
        (data : ArcGis.CapabilityDocument) (b : ArcGis.ImageryProviderBuilder)
        (tileInfo : ArcGis.TileInfo) (reference : ArcGis.SpatialReference) :
  ArcGis.tileInfo data = Some tileInfo ->
  ArcGis.tileInfo_spatialReference tileInfo = Some reference ->
  Spec.SpatialReferenceMap (ArcGis.wkid reference) <> None ->
  let after := ArcGis.metadataSuccess data b in
  let scheme := ArcGis.tilingScheme (fst after) in
  let radius := maximumRadius (scheme_ellipsoid scheme) in
  (ArcGis.fullExtent data = None ->
   snd after = inr tt /\
   ArcGis.rectangle (fst after) = scheme_rectangle scheme)
  /\ (forall (extent : ArcGis.FullExtent) (code : Z),
       ArcGis.fullExtent data = Some extent ->
       ArcGis.fullExtent_spatialReference extent
       = Some {| ArcGis.wkid := Some code |} ->
       (code = 102100 \/ code = 102113 ->
        let sw :=
          WebMercator_unproject
            {| c3_x := Math_max (ArcGis.xmin extent)
                                (num_mul (num_neg radius) Math_PI);
               c3_y := Math_max (ArcGis.ymin extent)
                                (num_mul (num_neg radius) Math_PI);
               c3_z := num_zero |} in
        let ne :=
          WebMercator_unproject
            {| c3_x := Math_min (ArcGis.xmax extent) (num_mul radius Math_PI);
               c3_y := Math_min (ArcGis.ymax extent) (num_mul radius Math_PI);
               c3_z := num_zero |} in
        snd after = inr tt /\
        ArcGis.rectangle (fst after)
        = {| west := longitude sw; south := latitude sw;
             east := longitude ne; north := latitude ne |})
       /\ (code = 4326 ->
           snd after = inr tt /\
           ArcGis.rectangle (fst after)
           = Rectangle_fromDegrees (ArcGis.xmin extent) (ArcGis.ymin extent)
                                   (ArcGis.xmax extent) (ArcGis.ymax extent)))
  /\ forall extent : ArcGis.FullExtent,
      ArcGis.fullExtent data = Some extent ->
      ArcGis.fullExtent_spatialReference extent = None ->
      snd after = inr tt /\
      ArcGis.rectangle (fst after) = ArcGis.rectangle b.
Proof.
  intros Hti Href Hsup. cbv zeta. split; [|split].
  - intros Hnone.
    exact (metadataSuccess_no_extent data b tileInfo reference
             Hti Href Hsup Hnone).
  - intros extent code Hext Hcode.
    pose proof (metadataSuccess_extent data b tileInfo reference extent code
                  Hti Href Hsup Hext Hcode) as Hextent.
    split.
    + intros Hc.
      assert (Spec.SpatialReferenceMap (Some code) = Some WebMercatorProjection)
        as E by (destruct Hc as [->| ->]; reflexivity).
      rewrite E in Hextent. exact Hextent.
    + intros ->. exact Hextent.
  - intros extent Hext Hnone.
    exact (metadataSuccess_extent_without_reference data b tileInfo
             reference extent Hti Href Hsup Hext Hnone).
Qed.

(** C9 on the code.  For every capability document with a tile-grid
    section the builder's tile width is the grid's [rows] and its tile
    height the grid's [cols]; when parsing succeeds the addressing mode is
    precached and the maximum level is the number of levels of detail
    minus one. *)
Theorem metadataSuccess_tile_size
        (tileInfo : ArcGis.TileInfo) (extent : option ArcGis.FullExtent)
        (text : option string) (b : ArcGis.ImageryProviderBuilder) :
  let data := {| ArcGis.tileInfo := Some tileInfo;
                 ArcGis.fullExtent := extent;
                 ArcGis.copyrightText := text |} in
  let after := ArcGis.metadataSuccess data b in
  ArcGis.tileWidth (fst after) = ArcGis.rows tileInfo
  /\ ArcGis.tileHeight (fst after) = ArcGis.cols tileInfo
  /\ match snd after with
     | inr _ =>
         ArcGis.useTiles (fst after) = true /\
         ArcGis.maximumLevel (fst after)
         = Some (Z.of_nat (length (ArcGis.lods tileInfo)) - 1)
     | inl _ => True
     end.
Proof.
  intros data after. subst after.
  rewrite (metadataSuccess_tiled data b tileInfo eq_refl). subst data.
  unfold ArcGis.select_tilingScheme.
  destruct (ArcGis.tileInfo_spatialReference tileInfo) as [reference|];
    [|cbn; auto].
  destruct (ArcGis.wkid_is _ 102100 || ArcGis.wkid_is _ 102113);
    [|destruct (ArcGis.wkid_is _ 4326); [|cbn; auto]];
    run_stmt; rewrite read_fullExtent_run; cbn [ArcGis.fullExtent];
    (destruct extent as [extent|];
     [destruct (ArcGis.fullExtent_spatialReference extent) as [[[code|]]|];
      [destruct (Spec.SpatialReferenceMap (Some code)) as [[]|]| |]|]);
    try (cbn; auto; fail);
    match goal with
    | |- context [ArcGis.read_copyrightText ?d ?b'] =>
        destruct (read_copyrightText_run d b') as [c ->]
    end; cbn; auto.
Qed.

End Metadata.

(** ** Committing the builder and addressing tiles *)

Section Addressing.
Context `{TileGeometry} `{!ResourceUrl}.

(** C4.  [build] installs the default missing-tile policy exactly when the
    builder is in precached mode and holds no discard policy; otherwise the
    provider gets the builder's policy.  The default policy samples the
    pixels (0,0), (200,20), (20,200), (80,110), (160,130), in that order,
    of the tile x = 0, y = 0 at the maximum level, and switches the check
    off when all of them are transparent. *)
Theorem build_default_discard_policy
        (this : ArcGis.ImageryProviderBuilder)
        (provider : ArcGis.ArcGisMapServerImageryProvider) :
  ArcGis._tileDiscardPolicy (ArcGis.build this provider) =
  match ArcGis.useTiles this, ArcGis.tileDiscardPolicy this with
  | true, None =>
      Some (ArcGis.DiscardMissingTileImagePolicy
              {| ArcGis.missingImageUrl :=
                   resource_url
                     (getDerivedResource (ArcGis._resource provider)
                        {| opt_url :=
                             Some ("tile/"
                                   ++ JS.optional_number_to_string
                                        (ArcGis.maximumLevel this)
                                   ++ "/0/0")%string;
                           opt_request := None;
                           opt_templateValues := [];
                           opt_queryParameters := [] |});
                 ArcGis.pixelsToCheck :=
                   [ {| c2_x := 0; c2_y := 0 |};
                     {| c2_x := 200; c2_y := 20 |};
                     {| c2_x := 20; c2_y := 200 |};
                     {| c2_x := 80; c2_y := 110 |};
                     {| c2_x := 160; c2_y := 130 |} ];
                 ArcGis.disableCheckIfAllPixelsAreTransparent := true |})
  | _, supplied => supplied
  end.
Proof.
  unfold ArcGis.build.
  destruct (ArcGis.useTiles this) eqn:Emode;
    destruct (ArcGis.tileDiscardPolicy this) as [policy|] eqn:Epolicy;
    reflexivity.
Qed.

(** The provider that [build] leaves is in the builder's addressing mode. *)
Lemma build_useTiles (this : ArcGis.ImageryProviderBuilder)
      (provider : ArcGis.ArcGisMapServerImageryProvider) :
  ArcGis._useTiles (ArcGis.build this provider) = ArcGis.useTiles this.
Proof. reflexivity. Qed.

(** C5 on the code.  A capability document without a tile-grid section
    leaves the provider in dynamic mode.  A dynamic provider with tiles of
    256 by 256 pixels asks for tile (2, 3, 5) through an [export] query
    whose [bbox] is the native rectangle of the tile (west, south, east,
    north), whose [size] is "256,256", with [transparent] set, with
    [bboxSR] and [imageSR] 4326 under the geographic scheme and 3857 under
    the web-mercator scheme.  The query has [layers] equal to "show:"
    followed by the layer list when the configured list is a non-empty
    string, and no [layers] parameter when no list is configured and also
    when the configured list is the empty string. *)
Theorem dynamic_addressing :
  (forall (resource : Resource) (options : ArcGis.ConstructorOptions)
          (extent : option ArcGis.FullExtent) (text : option string),
      exists calls provider,
        ArcGis.fromUrl resource options
          (Fulfilled {| ArcGis.tileInfo := None;
                        ArcGis.fullExtent := extent;
                        ArcGis.copyrightText := text |})
        = (calls, inr provider)
        /\ ArcGis._useTiles provider = false)
  /\ forall (p : ArcGis.ArcGisMapServerImageryProvider)
            (scheme : TilingScheme) (layers : option string)
            (request : option Request),
      let provider :=
        {| ArcGis._tileDiscardPolicy := ArcGis._tileDiscardPolicy p;
           ArcGis._tileWidth := 256;
           ArcGis._tileHeight := 256;
           ArcGis._maximumLevel := ArcGis._maximumLevel p;
           ArcGis._tilingScheme := scheme;
           ArcGis._useTiles := false;
           ArcGis._rectangle := ArcGis._rectangle p;
           ArcGis._layers := layers;
           ArcGis._credit := ArcGis._credit p;
           ArcGis.enablePickFeatures := ArcGis.enablePickFeatures p;
           ArcGis._resource := ArcGis._resource p;
           ArcGis._ready := ArcGis._ready p |} in
      let nativeRectangle := tileXYToNativeRectangle scheme 2 3 (Some 5) in
      let code :=
        match projection scheme with
        | GeographicProjection => 4326
        | WebMercatorProjection => 3857
        end in
      exists query,
        ArcGis.buildImageResource provider 2 3 (Some 5) request
        = getDerivedResource (ArcGis._resource p)
            {| opt_url := Some "export"%string;
               opt_request := request;
               opt_templateValues := [];
               opt_queryParameters := query |}
        /\ map fst query
           = [ "bbox"; "size"; "format"; "transparent"; "f"; "bboxSR"; "imageSR" ]%string
             ++ (if JS.truthy_string layers then ["layers"%string] else [])
        /\ In ("bbox"%string,
               QString (num_to_string (west nativeRectangle) ++ ","
                        ++ num_to_string (south nativeRectangle) ++ ","
                        ++ num_to_string (east nativeRectangle) ++ ","
                        ++ num_to_string (north nativeRectangle))%string) query
        /\ In ("size"%string, QString "256,256") query
        /\ In ("transparent"%string, QBool true) query
        /\ In ("bboxSR"%string, QNumber code) query
        /\ In ("imageSR"%string, QNumber code) query
        /\ match layers with
           | Some (String c l) =>
               In ("layers"%string, QString ("show:" ++ String c l)%string) query
           | _ => ~ In "layers"%string (map fst query)
           end.
Proof.
  split.
  - intros resource options extent text.
    unfold ArcGis.fromUrl.
    destruct (ArcGis.defaultValue
                (ArcGis.options_usePreCachedTilesIfAvailable options) true)
      eqn:Emode.
    + unfold ArcGis.requestMetadata, ArcGis.metadataSuccess.
      cbn [ArcGis.tileInfo]. run_stmt.
      destruct (read_copyrightText_run
                  {| ArcGis.tileInfo := None; ArcGis.fullExtent := extent;
                     ArcGis.copyrightText := text |}
                  (ArcGis.set_useTiles false
                     (ArcGis.new_ImageryProviderBuilder options))) as [c ->].
      eexists _, _. split; reflexivity.
    + eexists _, _. split; [reflexivity|].
      rewrite build_useTiles. cbn. exact Emode.
  - intros p scheme layers request. cbv zeta.
    unfold ArcGis.buildImageResource, ArcGis.layers, ArcGis.rectangle_to_string.
    cbn [ArcGis._useTiles ArcGis._tilingScheme ArcGis._tileWidth
         ArcGis._tileHeight ArcGis._layers ArcGis._resource].
    eexists. split; [reflexivity|].
    destruct (projection scheme); cbn [instanceof_GeographicProjection];
      (destruct layers as [[|c l]|]; cbn;
       repeat split; auto 12;
       intros Hin; repeat (destruct Hin as [Hin|Hin]; [discriminate|]);
       exact Hin).
Qed.

(** C6.  With picking switched off, [pickFeatures] returns [undefined] and
    nothing reaches the transport.  With picking switched on, exactly one
    call reaches the transport: the fetch of an [identify] query that
    carries the point in the coordinates of the tiling scheme's projection,
    the native rectangle of the tile, the display size, the code of the
    spatial reference, and the layer filter, "visible" or "visible:"
    followed by the layer list. *)
Theorem pickFeatures_query
        (this : ArcGis.ArcGisMapServerImageryProvider) (x y level : Z)
        (longitude latitude : num) :
  match ArcGis.enablePickFeatures this with
  | false =>
      ArcGis.pickFeatures this x y level longitude latitude = (None, [])
  | true =>
      let scheme := ArcGis._tilingScheme this in
      let rectangle := tileXYToNativeRectangle scheme x y (Some level) in
      let projected :=
        project scheme {| longitude := longitude; latitude := latitude;
                          height := num_zero |} in
      let point :=
        match projection scheme with
        | GeographicProjection => (toDegrees longitude, toDegrees latitude)
        | WebMercatorProjection => (c3_x projected, c3_y projected)
        end in
      let sr :=
        match projection scheme with
        | GeographicProjection => "4326"%string
        | WebMercatorProjection => "3857"%string
        end in
      let layers :=
        match ArcGis._layers this with
        | Some l => ("visible:" ++ l)%string
        | None => "visible"%string
        end in
      exists resource query,
        ArcGis.pickFeatures this x y level longitude latitude
        = (Some (ArcGis.IdentifyThen resource), [FetchJson resource])
        /\ resource
           = getDerivedResource (ArcGis._resource this)
               {| opt_url := Some "identify"%string;
                  opt_request := None;
                  opt_templateValues := [];
                  opt_queryParameters := query |}
        /\ map fst query
           = [ "f"; "tolerance"; "geometryType"; "geometry"; "mapExtent";
               "imageDisplay"; "sr"; "layers" ]%string
        /\ In ("geometry"%string,
               QString (num_to_string (fst point) ++ ","
                        ++ num_to_string (snd point))%string) query
        /\ In ("mapExtent"%string,
               QString (num_to_string (west rectangle) ++ ","
                        ++ num_to_string (south rectangle) ++ ","
                        ++ num_to_string (east rectangle) ++ ","
                        ++ num_to_string (north rectangle))%string) query
        /\ In ("imageDisplay"%string,
               QString (JS.number_to_string (ArcGis._tileWidth this) ++ ","
                        ++ JS.number_to_string (ArcGis._tileHeight this)
                        ++ ",96")%string) query
        /\ In ("sr"%string, QString sr) query
        /\ In ("layers"%string, QString layers) query
  end.
Proof.
  unfold ArcGis.pickFeatures, ArcGis.rectangle_to_string.
  destruct (ArcGis.enablePickFeatures this); cbn [negb]; [|reflexivity].
  cbv zeta.
  destruct (projection (ArcGis._tilingScheme this));
    cbn [instanceof_GeographicProjection fst snd];
    destruct (ArcGis._layers this) as [l|].
  all: eexists _, _.
  all: split; [reflexivity|].
  all: split; [reflexivity|].
  all: cbn; repeat split; auto 12.
Qed.

(** C10.  The ArcGIS provider's [getTileCredits] returns [undefined] for
    every provider and every tile. *)
Theorem getTileCredits_undefined
        (this : ArcGis.ArcGisMapServerImageryProvider) (x y level : Z) :
  ArcGis.getTileCredits this x y level = None.
Proof. reflexivity. Qed.

End Addressing.

(** ** The metadata cache *)

Section Cache.
Context `{TileGeometry} `{!ResourceUrl}.

Lemma fetches_of_app (cacheKey : string) (l1 l2 : list NetworkCall) :
  Bing.fetches_of cacheKey (l1 ++ l2)
  = Bing.fetches_of cacheKey l1 ++ Bing.fetches_of cacheKey l2.
Proof. unfold Bing.fetches_of. apply List.filter_app. Qed.

Lemma cache_agrees_start : cache_agrees Bing.process_start.
Proof. intros k. cbn. now rewrite lookup_empty. Qed.

Lemma begin_agrees (r : Resource) (w : Bing.Process) :
  cache_agrees w -> cache_agrees (snd (Bing.requestMetadata_begin r w)).
Proof.
  intros Hw k. unfold Bing.requestMetadata_begin.
  destruct (Bing._metadataCache w !! resource_url r) as [p|] eqn:E;
    cbn [snd Bing.network Bing._metadataCache].
  - apply Hw.
  - rewrite fetches_of_app, length_app, Hw. cbn.
    destruct (decide (resource_url r = k)) as [Heq|Hne].
    + rewrite <- Heq.
      rewrite lookup_insert_eq, E, bool_decide_eq_true_2 by reflexivity.
      reflexivity.
    + rewrite lookup_insert_ne, bool_decide_eq_false_2 by assumption.
      cbn. lia.
Qed.

Lemma begin_caches (r : Resource) (w : Bing.Process) :
  Bing._metadataCache (snd (Bing.requestMetadata_begin r w)) !! resource_url r
  = Some (fst (Bing.requestMetadata_begin r w)).
Proof.
  unfold Bing.requestMetadata_begin.
  destruct (Bing._metadataCache w !! resource_url r) as [p|] eqn:E; cbn.
  - exact E.
  - apply lookup_insert_eq.
Qed.

Lemma step_keeps (w : Bing.Process) (e : Bing.Event) (k : string) (p : Bing.Promise) :
  Bing._metadataCache w !! k = Some p ->
  Bing._metadataCache (Bing.step w e) !! k = Some p.
Proof.
  intros Hk. destruct e as [r|r]; [|exact Hk].
  cbn. unfold Bing.requestMetadata_begin.
  destruct (Bing._metadataCache w !! resource_url r) as [q|] eqn:E; cbn.
  - exact Hk.
  - rewrite lookup_insert_ne; [exact Hk|].
    intros Heq. rewrite Heq in E. congruence.
Qed.

Lemma run_keeps (schedule : list Bing.Event) (w : Bing.Process)
      (k : string) (p : Bing.Promise) :
  Bing._metadataCache w !! k = Some p ->
  Bing._metadataCache (Bing.run schedule w) !! k = Some p.
Proof.
  revert w. induction schedule as [|e rest IH]; intros w Hk; [exact Hk|].
  cbn. apply IH. now apply step_keeps.
Qed.

Lemma run_agrees (schedule : list Bing.Event) (w : Bing.Process) :
  cache_agrees w -> cache_agrees (Bing.run schedule w).
Proof.
  revert w. induction schedule as [|e rest IH]; intros w Hw; [exact Hw|].
  cbn. apply IH. destruct e as [r|r]; [|exact Hw].
  now apply begin_agrees.
Qed.

Lemma run_app (s1 s2 : list Bing.Event) (w : Bing.Process) :
  Bing.run (s1 ++ s2) w = Bing.run s2 (Bing.run s1 w).
Proof. unfold Bing.run. apply fold_left_app. Qed.

Lemma run_cons (e : Bing.Event) (s : list Bing.Event) (w : Bing.Process) :
  Bing.run (e :: s) w = Bing.run s (Bing.step w e).
Proof. reflexivity. Qed.

(** C8, as the code has it.  In the Bing provider the cache keyed by the
    URL of the metadata resource leaves at most one metadata fetch per key
    on every schedule of provider constructions, exactly one once a
    construction has asked for the key, and a second request for the same
    resource gets the promise of the first without a call to the transport.
    The ArcGIS provider has no cache: every call of its [requestMetadata]
    makes its own fetch. *)
Theorem metadata_fetches :
  (forall (schedule : list Bing.Event) (cacheKey : string),
      (length (Bing.fetches_of cacheKey
                 (Bing.network (Bing.run schedule Bing.process_start)))
       <= 1)%nat)
  /\ (forall (before after : list Bing.Event) (r : Resource),
         length (Bing.fetches_of (resource_url r)
                   (Bing.network
                      (Bing.run (before ++ Bing.Begin r :: after)
                                Bing.process_start)))
         = 1%nat)
  /\ (forall (w : Bing.Process) (r : Resource),
         let first := Bing.requestMetadata_begin r w in
         Bing.requestMetadata_begin r (snd first) = first)
  /\ (forall (resource : Resource) (b : ArcGis.ImageryProviderBuilder)
             (settled : Settled ArcGis.CapabilityDocument),
         fst (ArcGis.requestMetadata resource b settled)
         = [FetchJsonp
              (getDerivedResource resource
                 {| opt_url := None; opt_request := None;
                    opt_templateValues := [];
                    opt_queryParameters := [("f"%string, QString "json")] |})
              None]).
Proof.
  split; [|split; [|split]].
  - intros schedule k.
    rewrite (run_agrees schedule _ cache_agrees_start k).
    destruct (_ !! k); lia.
  - intros before after r.
    rewrite (run_agrees _ _ cache_agrees_start (resource_url r)).
    rewrite run_app, run_cons. cbn [Bing.step].
    erewrite run_keeps; [reflexivity|].
    apply begin_caches.
  - intros w r. cbv zeta.
    pose proof (begin_caches r w) as Hc.
    destruct (Bing.requestMetadata_begin r w) as [p w1] eqn:E1.
    cbn [fst snd] in *.
    unfold Bing.requestMetadata_begin at 1. now rewrite Hc.
  - reflexivity.
Qed.

End Cache.

(** ** The theorems and the code on concrete documents *)

Section Examples.
Import Sample.

Lemma quadkey_roundtrip_witness :
  (0 <= 3 <= 23 /\ 0 <= 6 < 2 ^ 3 /\ 0 <= 5 < 2 ^ 3) /\
  Bing.quadKeyToTileXY (Bing.tileXYToQuadKey 6 5 3)
  = {| Bing.tile_x := 6; Bing.tile_y := 5; Bing.tile_level := 3 |}.
Proof.
  split.
  - cbn. lia.
  - apply (proj1 quadkey_roundtrip 6 5 3); cbn; lia.
Defined.

(** A document without a tile-grid section whose data extent reports the
    unsupported code 9999 is parsed without an error. *)
Lemma unsupported_extent_code_without_tiles :
  let data :=
    Sample.untiled_document (Some (Sample.extent_in (Some 9999))) in
  (exists extent,
      ArcGis.fullExtent data = Some extent /\
      ArcGis.fullExtent_spatialReference extent
      = Some {| ArcGis.wkid := Some 9999 |})
  /\ Spec.SpatialReferenceMap (Some 9999) = None
  /\ snd (ArcGis.metadataSuccess data Sample.builder) = inr tt.
Proof.
  cbv zeta. split; [|split; reflexivity].
  eexists. split; reflexivity.
Qed.

Lemma metadataSuccess_spatial_reference_witness :
  let data := Sample.tiled_document (Some (Sample.extent_in (Some 4326))) in
  let after := ArcGis.metadataSuccess data Sample.builder in
  (ArcGis.tileInfo data = Some Sample.tiles /\
   ArcGis.tileInfo_spatialReference Sample.tiles
   = Some {| ArcGis.wkid := Some 102100 |})
  /\ ArcGis.tilingScheme (fst after) = WebMercatorTilingScheme None
  /\ snd after = inr tt
  /\ ArcGis.rectangle (fst after)
     = {| west := -10; south := -20; east := 30; north := 40 |}.
Proof.
  cbv zeta. split; [split; reflexivity|].
  pose proof (metadataSuccess_spatial_reference
                (Sample.tiled_document (Some (Sample.extent_in (Some 4326))))
                Sample.builder Sample.tiles
                {| ArcGis.wkid := Some 102100 |} eq_refl eq_refl)
    as [Hscheme Hextent].
  split; [exact Hscheme|].
  apply (Hextent (Sample.extent_in (Some 4326)) 4326);
    [discriminate|reflexivity|reflexivity].
Defined.

(** Two entries of one supplier both cover tile (0, 0, 6): the supplier's
    credit is returned twice. *)
Lemma getTileCredits_repeats_credit :
  let result :=
    Bing.getTileCredits
      (Sample.bing [Sample.supplier_everywhere; Sample.supplier_west]) 0 0 6 in
  result = [ {| html := "Supplier" |}; {| html := "Supplier" |} ]
  /\ ~ NoDup result.
Proof.
  cbv zeta.
  assert (Bing.getTileCredits
            (Sample.bing [Sample.supplier_everywhere; Sample.supplier_west])
            0 0 6
          = [ {| html := "Supplier" |}; {| html := "Supplier" |} ]) as ->
    by reflexivity.
  split; [reflexivity|].
  intros Hnd. apply NoDup_cons in Hnd as [Hnotin _].
  apply Hnotin. constructor.
Qed.

Lemma getTileCredits_creditsFor_witness :
  let attributionList := [Sample.supplier_everywhere; Sample.other_supplier] in
  NoDup (map Bing.credit attributionList)
  /\ NoDup (Bing.getTileCredits (Sample.bing attributionList) 0 0 6).
Proof.
  cbv zeta.
  assert (NoDup (map Bing.credit
                     [Sample.supplier_everywhere; Sample.other_supplier]))
    as Hnd.
  { apply NoDup_cons. split; [|apply NoDup_singleton].
    intros Hin. apply list_elem_of_In in Hin.
    destruct Hin as [E|[]]. discriminate E. }
  split; [exact Hnd|].
  apply (proj2 (proj2 (proj2
           (getTileCredits_creditsFor
              (Sample.bing [Sample.supplier_everywhere; Sample.other_supplier])
              0 0 6)))).
  exact Hnd.
Defined.

(** A provider made with the empty string as its layer list, in dynamic
    mode: the export request of tile (2, 3, 5) has no [layers] parameter,
    while the identify request of the same provider carries the filter
    "visible:" made from that list. *)
Lemma empty_layers_not_exported :
  match snd (ArcGis.fromUrl Sample.server Sample.empty_layers_options
                            (Fulfilled (Sample.untiled_document None))) with
  | inr provider =>
      ArcGis.layers provider = Some ""%string
      /\ ArcGis._useTiles provider = false
      /\ ArcGis._tileWidth provider = 256
      /\ ArcGis._tileHeight provider = 256
      /\ query_parameter
           (ArcGis.buildImageResource provider 2 3 (Some 5) None) "layers"
         = None
      /\ query_parameter
           (ArcGis.buildImageResource provider 2 3 (Some 5) None) "size"
         = Some (QString "256,256")
      /\ exists identify,
          ArcGis.pickFeatures provider 2 3 5 10 20
          = (Some (ArcGis.IdentifyThen identify), [FetchJson identify])
          /\ query_parameter identify "layers" = Some (QString "visible:")
  | inl _ => False
  end.
Proof.
  cbn. repeat split. eexists. split; reflexivity.
Qed.

(** A tiled server whose data extent carries no spatial reference, asked
    by a caller who passes a rectangle: the provider keeps the caller's
    rectangle, which is not the full rectangle of its tiling scheme. *)
Lemma extent_without_reference_keeps_rectangle :
  let data := Sample.tiled_document (Some (Sample.extent_in None)) in
  match snd (ArcGis.fromUrl Sample.server Sample.options_with_rectangle
                            (Fulfilled data)) with
  | inr provider =>
      ArcGis._useTiles provider = true
      /\ ArcGis._rectangle provider = Sample.small
      /\ scheme_rectangle (ArcGis._tilingScheme provider) = Sample.world
      /\ ArcGis._rectangle provider
         <> scheme_rectangle (ArcGis._tilingScheme provider)
  | inl _ => False
  end.
Proof. cbv zeta. cbn. repeat split. discriminate. Qed.

Lemma metadataSuccess_rectangle_witness :
  let data := Sample.tiled_document (Some (Sample.extent_in None)) in
  let b := ArcGis.new_ImageryProviderBuilder Sample.options_with_rectangle in
  let after := ArcGis.metadataSuccess data b in
  (ArcGis.tileInfo data = Some Sample.tiles /\
   ArcGis.tileInfo_spatialReference Sample.tiles
   = Some {| ArcGis.wkid := Some 102100 |} /\
   Spec.SpatialReferenceMap (Some 102100) <> None /\
   ArcGis.fullExtent data = Some (Sample.extent_in None) /\
   ArcGis.fullExtent_spatialReference (Sample.extent_in None) = None)
  /\ snd after = inr tt
  /\ ArcGis.rectangle (fst after) = Sample.small
  /\ scheme_rectangle (ArcGis.tilingScheme (fst after)) = Sample.world.
Proof.
  cbv zeta. split; [repeat split; discriminate|].
  destruct (proj2 (proj2 (metadataSuccess_rectangle
                            (Sample.tiled_document
                               (Some (Sample.extent_in None)))
                            (ArcGis.new_ImageryProviderBuilder
                               Sample.options_with_rectangle)
                            Sample.tiles {| ArcGis.wkid := Some 102100 |}
                            eq_refl eq_refl ltac:(discriminate)))
              (Sample.extent_in None) eq_refl eq_refl) as [Hok Hrect].
  split; [exact Hok|]. split; [exact Hrect|reflexivity].
Defined.

(** Two ArcGIS providers built from one endpoint: the metadata is fetched
    twice, from the same URL. *)
Lemma arcgis_fetches_per_construction :
  let data := Sample.tiled_document None in
  let first := ArcGis.fromUrl Sample.server Sample.no_options (Fulfilled data) in
  let second := ArcGis.fromUrl Sample.server Sample.no_options (Fulfilled data) in
  length (Bing.fetches_of "https://example.com/MapServer/"
                          (fst first ++ fst second)) = 2%nat.
Proof. reflexivity. Qed.

(** A tile grid of 256 rows and 512 columns: the builder's tile width is
    256 and its tile height 512. *)
Lemma tile_size_of_rows_and_cols :
  let after :=
    fst (ArcGis.metadataSuccess (Sample.tiled_document None) Sample.builder) in
  ArcGis.rows Sample.tiles = 256 /\ ArcGis.cols Sample.tiles = 512
  /\ ArcGis.tileWidth after = 256 /\ ArcGis.tileHeight after = 512.
Proof. cbv zeta. repeat split. Qed.

End Examples.

(** * Further properties *)

(** ** Quadkeys beyond the round trip *)

Section QuadkeyShape.

Lemma string_length_app (a b : string) :
  String.length (a ++ b) = (String.length a + String.length b)%nat.
Proof.
  induction a as [|ch a IH]; [reflexivity|].
  rewrite string_app_cons. cbn. now rewrite IH.
Qed.

Lemma string_all_app (test : ascii -> bool) (a b : string) :
  string_all test (a ++ b) = string_all test a && string_all test b.
Proof.
  induction a as [|ch a IH]; [reflexivity|].
  rewrite string_app_cons. cbn. now rewrite IH, andb_assoc.
Qed.

(** Whatever the coordinates and the bit, the encoder appends one of the
    characters 0, 1, 2, 3. *)
Lemma encoder_digit_character (x y i : Z) :
  exists c : ascii,
    JS.number_to_string
      (let bitmask := JS.shl 1 i in
       let digit := 0 in
       let digit := if JS.band x bitmask =? 0 then digit else JS.bor digit 1 in
       let digit := if JS.band y bitmask =? 0 then digit else JS.bor digit 2 in
       digit)
    = String c EmptyString
    /\ is_quad_character c = true.
Proof.
  cbv zeta.
  destruct (JS.band x (JS.shl 1 i) =? 0), (JS.band y (JS.shl 1 i) =? 0);
    eexists; split; reflexivity.
Qed.

Lemma encoder_loop_shape (x y : Z) (n : nat) (quadkey : string) :
  exists digits : string,
    JS.for_down n (Z.of_nat n - 1)
      (fun i quadkey =>
         let bitmask := JS.shl 1 i in
         let digit := 0 in
         let digit := if JS.band x bitmask =? 0 then digit else JS.bor digit 1 in
         let digit := if JS.band y bitmask =? 0 then digit else JS.bor digit 2 in
         (quadkey ++ JS.number_to_string digit)%string)
      quadkey
    = (quadkey ++ digits)%string
    /\ String.length digits = n
    /\ string_all is_quad_character digits = true.
Proof.
  revert quadkey. induction n as [|n IH]; intros quadkey.
  - exists EmptyString. cbn. now rewrite string_app_nil_r.
  - cbn [JS.for_down].
    replace (0 <=? Z.of_nat (S n) - 1) with true
      by (symmetry; apply Z.leb_le; lia).
    replace (Z.of_nat (S n) - 1 - 1) with (Z.of_nat n - 1) by lia.
    destruct (encoder_digit_character x y (Z.of_nat (S n) - 1))
      as (c & Hc & Hq).
    cbv zeta in Hc, IH |- *. rewrite Hc.
    destruct (IH (quadkey ++ String c EmptyString)%string)
      as (digits & -> & Hlen & Hall).
    exists (String c digits). split; [|split].
    + now rewrite string_app_assoc, string_app_cons, string_app_nil_l.
    + cbn. now rewrite Hlen.
    + cbn. now rewrite Hq, Hall.
Qed.

(** X1.  For all coordinates and every level, the quadkey has [level + 1]
    characters (none for a negative level), each one of 0, 1, 2, 3. *)
Theorem tileXYToQuadKey_shape (x y level : Z) :
  String.length (Bing.tileXYToQuadKey x y level) = Z.to_nat (level + 1)
  /\ string_all is_quad_character (Bing.tileXYToQuadKey x y level) = true.
Proof.
  unfold Bing.tileXYToQuadKey, JS.for_down_to_zero.
  destruct (Z.to_nat (level + 1)) as [|n] eqn:En; [split; reflexivity|].
  assert (level = Z.of_nat (S n) - 1) as E by lia.
  rewrite E.
  destruct (encoder_loop_shape x y (S n) EmptyString)
    as (digits & Hloop & Hlen & Hall).
  cbv zeta in Hloop. rewrite Hloop.
  rewrite string_app_nil_l. split; assumption.
Qed.

End QuadkeyShape.

Section QuadkeyAlgebra.

(** X2.  On the provider's grid of two by two tiles at level zero (levels
    0 to 30, coordinates below [2 ^ (level + 1)]), decoding the quadkey of
    a tile gives the tile back. *)
Theorem quadkey_roundtrip_two_by_two (x y level : Z) :
  0 <= level <= 30 ->
  0 <= x < 2 ^ (level + 1) -> 0 <= y < 2 ^ (level + 1) ->
  Bing.quadKeyToTileXY (Bing.tileXYToQuadKey x y level)
  = {| Bing.tile_x := x; Bing.tile_y := y; Bing.tile_level := level |}.
Proof. intros Hl Hx Hy. apply quadkey_roundtrip_31; lia. Qed.

(** X3.  On that grid, two tiles with the same quadkey are the same tile. *)
Theorem tileXYToQuadKey_injective (x y level x' y' level' : Z) :
  0 <= level <= 30 ->
  0 <= x < 2 ^ (level + 1) -> 0 <= y < 2 ^ (level + 1) ->
  0 <= level' <= 30 ->
  0 <= x' < 2 ^ (level' + 1) -> 0 <= y' < 2 ^ (level' + 1) ->
  Bing.tileXYToQuadKey x y level = Bing.tileXYToQuadKey x' y' level' ->
  x = x' /\ y = y' /\ level = level'.
Proof.
  intros Hl Hx Hy Hl' Hx' Hy' Hkey.
  pose proof (quadkey_roundtrip_31 x y level ltac:(lia) Hx Hy) as R.
  pose proof (quadkey_roundtrip_31 x' y' level' ltac:(lia) Hx' Hy') as R'.
  rewrite Hkey, R' in R. injection R as -> -> ->. auto.
Qed.

Lemma quad_digit_half (x y i : Z) :
  0 <= i -> quad_digit (x / 2) (y / 2) i = quad_digit x y (i + 1).
Proof.
  intros Hi. unfold quad_digit.
  replace (x / 2) with (Z.shiftr x 1)
    by (rewrite Z.shiftr_div_pow2 by lia; reflexivity).
  replace (y / 2) with (Z.shiftr y 1)
    by (rewrite Z.shiftr_div_pow2 by lia; reflexivity).
  rewrite !Z.shiftr_spec by lia. reflexivity.
Qed.

Lemma quad_digits_half (x y : Z) (n : nat) :
  quad_digits x y (S n)
  = (quad_digits (x / 2) (y / 2) n
     ++ JS.number_to_string (quad_digit x y 0))%string.
Proof.
  induction n as [|n IH].
  - cbn [quad_digits]. rewrite string_app_nil_l.
    apply string_app_nil_r.
  - change (quad_digits x y (S (S n)))
      with (JS.number_to_string (quad_digit x y (Z.of_nat (S n)))
            ++ quad_digits x y (S n))%string.
    rewrite IH.
    change (quad_digits (x / 2) (y / 2) (S n))
      with (JS.number_to_string (quad_digit (x / 2) (y / 2) (Z.of_nat n))
            ++ quad_digits (x / 2) (y / 2) n)%string.
    rewrite quad_digit_half by lia.
    replace (Z.of_nat n + 1) with (Z.of_nat (S n)) by lia.
    now rewrite string_app_assoc.
Qed.

(** X4.  The quadkey of a tile is the quadkey of its parent tile
    (coordinates halved, one level up) followed by one more digit, which
    holds the lowest bit of x (as 1) and of y (as 2). *)
Theorem tileXYToQuadKey_parent (x y level : Z) :
  0 <= level <= 30 -> 0 <= x < 2 ^ 31 -> 0 <= y < 2 ^ 31 ->
  Bing.tileXYToQuadKey x y level
  = (Bing.tileXYToQuadKey (x / 2) (y / 2) (level - 1)
     ++ JS.number_to_string (x mod 2 + 2 * (y mod 2)))%string.
Proof.
  intros Hl Hx Hy.
  assert (0 <= x / 2 < 2 ^ 31) by (split; [apply Z.div_pos|apply Z.div_lt_upper_bound]; lia).
  assert (0 <= y / 2 < 2 ^ 31) by (split; [apply Z.div_pos|apply Z.div_lt_upper_bound]; lia).
  rewrite !tileXYToQuadKey_digits by lia.
  replace (Z.to_nat (level + 1)) with (S (Z.to_nat (level - 1 + 1))) by lia.
  rewrite quad_digits_half. do 2 f_equal.
  unfold quad_digit. rewrite !Z.bit0_mod. reflexivity.
Qed.

End QuadkeyAlgebra.

Section QuadkeyDecoding.

Lemma lor_below_pow2 (a b n : Z) :
  0 <= n -> 0 <= a < 2 ^ n -> 0 <= b < 2 ^ n -> 0 <= Z.lor a b < 2 ^ n.
Proof.
  intros Hn Ha Hb.
  assert (0 <= Z.lor a b) as Hnonneg by (apply Z.lor_nonneg; lia).
  split; [exact Hnonneg|].
  apply (Z.bounded_iff_bits_nonneg n (Z.lor a b) Hn Hnonneg).
  intros l Hl. rewrite Z.lor_spec.
  rewrite (proj1 (Z.bounded_iff_bits_nonneg n a Hn ltac:(lia)) ltac:(lia) l Hl).
  rewrite (proj1 (Z.bounded_iff_bits_nonneg n b Hn ltac:(lia)) ltac:(lia) l Hl).
  reflexivity.
Qed.

Lemma pow2_below (i n : Z) : 0 <= i < n -> 0 <= 2 ^ i < 2 ^ n.
Proof.
  intros Hi. split.
  - apply Z.pow_nonneg. lia.
  - apply Z.pow_lt_mono_r; lia.
Qed.

(** The decoder keeps its coordinates below [2 ^ n] on every string of
    [n] characters, whatever the characters are. *)
Lemma decoder_loop_range (quadkey : string) (level : Z) (n m : nat)
      (xa ya : Z) :
  (m <= n <= 31)%nat ->
  0 <= xa < 2 ^ Z.of_nat n -> 0 <= ya < 2 ^ Z.of_nat n ->
  let xy :=
    JS.for_down m (Z.of_nat m - 1)
      (fun i (xy : Z * Z) =>
         let (x, y) := xy in
         let bitmask := JS.shl 1 i in
         let digit := JS.to_number (JS.char_at quadkey (level - i)) in
         let x := if JS.band (JS.number_ToInt32 digit) 1 =? 0
                  then x else JS.bor x bitmask in
         let y := if JS.band (JS.number_ToInt32 digit) 2 =? 0
                  then y else JS.bor y bitmask in
         (x, y))
      (xa, ya) in
  0 <= fst xy < 2 ^ Z.of_nat n /\ 0 <= snd xy < 2 ^ Z.of_nat n.
Proof.
  intros Hm. revert xa ya.
  induction m as [|m IH]; intros xa ya Hx Hy; [cbn; split; assumption|].
  cbn [JS.for_down].
  replace (0 <=? Z.of_nat (S m) - 1) with true
    by (symmetry; apply Z.leb_le; lia).
  replace (Z.of_nat (S m) - 1 - 1) with (Z.of_nat m - 1) by lia.
  replace (Z.of_nat (S m) - 1) with (Z.of_nat m) by lia.
  cbv zeta in IH |- *.
  assert (2 ^ Z.of_nat n <= 2 ^ 31) by (apply Z.pow_le_mono_r; lia).
  pose proof (pow2_below (Z.of_nat m) (Z.of_nat n) ltac:(lia)) as Hp.
  rewrite shl_one by lia.
  apply IH; [lia| |].
  - destruct (JS.band _ 1 =? 0); [assumption|].
    unfold JS.bor. rewrite !ToInt32_small by lia.
    apply lor_below_pow2; lia.
  - destruct (JS.band _ 2 =? 0); [assumption|].
    unfold JS.bor. rewrite !ToInt32_small by lia.
    apply lor_below_pow2; lia.
Qed.

(** X5.  Whatever characters a string of at most 31 characters holds, it
    decodes to the level one below its length and to coordinates between 0
    and [2 ^ length]: digits beyond 3 and other characters never push a
    coordinate out of the grid. *)
Theorem quadKeyToTileXY_range (quadkey : string) :
  (String.length quadkey <= 31)%nat ->
  let tile := Bing.quadKeyToTileXY quadkey in
  Bing.tile_level tile = Z.of_nat (String.length quadkey) - 1
  /\ 0 <= Bing.tile_x tile < 2 ^ Z.of_nat (String.length quadkey)
  /\ 0 <= Bing.tile_y tile < 2 ^ Z.of_nat (String.length quadkey).
Proof.
  intros Hlen. cbv zeta. unfold Bing.quadKeyToTileXY, JS.for_down_to_zero.
  cbn [Bing.tile_level Bing.tile_x Bing.tile_y].
  split; [reflexivity|].
  set (n := String.length quadkey) in *.
  replace (Z.to_nat (Z.of_nat n - 1 + 1)) with n by lia.
  assert (0 < 2 ^ Z.of_nat n) by (apply Z.pow_pos_nonneg; lia).
  pose proof (decoder_loop_range quadkey (Z.of_nat n - 1) n n 0 0
                ltac:(lia) ltac:(lia) ltac:(lia)) as R.
  cbv zeta in R. exact R.
Qed.

Lemma quad_digits_low_bits (x y x' y' : Z) (n : nat) :
  (forall i, 0 <= i < Z.of_nat n ->
             Z.testbit x i = Z.testbit x' i /\ Z.testbit y i = Z.testbit y' i) ->
  quad_digits x y n = quad_digits x' y' n.
Proof.
  induction n as [|n IH]; intros Hbits; [reflexivity|].
  cbn [quad_digits]. unfold quad_digit.
  destruct (Hbits (Z.of_nat n) ltac:(lia)) as [-> ->].
  rewrite IH; [reflexivity|].
  intros i Hi. apply Hbits. lia.
Qed.

Lemma is_quad_character_cases (c : ascii) :
  is_quad_character c = true ->
  c = "0"%char \/ c = "1"%char \/ c = "2"%char \/ c = "3"%char.
Proof.
  unfold is_quad_character. intros Hc.
  apply andb_true_iff in Hc as [Hlo Hhi].
  apply Nat.leb_le in Hlo, Hhi.
  rewrite <- (ascii_nat_embedding c).
  assert (nat_of_ascii c = 48 \/ nat_of_ascii c = 49
          \/ nat_of_ascii c = 50 \/ nat_of_ascii c = 51)%nat
    as [->|[->|[->| ->]]] by lia; auto.
Qed.

Lemma with_bit_range (b : bool) (x n : Z) :
  0 <= n -> 0 <= x < 2 ^ n -> 0 <= with_bit b x n < 2 ^ (n + 1).
Proof.
  intros Hn Hx.
  assert (2 ^ n < 2 ^ (n + 1)) by (apply Z.pow_lt_mono_r; lia).
  destruct b; cbn; [|lia].
  apply lor_below_pow2; lia.
Qed.

Lemma with_bit_spec (b : bool) (x n i : Z) :
  0 <= n -> 0 <= x < 2 ^ n -> 0 <= i ->
  Z.testbit (with_bit b x n) i
  = if i =? n then b else Z.testbit x i.
Proof.
  intros Hn Hx Hi.
  assert (Z.testbit x n = false) as Hhigh
    by (apply (Z.bounded_iff_bits_nonneg n x); lia).
  destruct b; cbn.
  - rewrite Z.lor_spec, Z.pow2_bits_eqb by lia.
    rewrite (Z.eqb_sym n i).
    destruct (Z.eqb_spec i n) as [->|Hne].
    + apply orb_true_r.
    + apply orb_false_r.
  - destruct (Z.eqb_spec i n) as [->|Hne]; [exact Hhigh|reflexivity].
Qed.

(** A string of the digits 0 to 3 is the digit string of some pair of
    coordinates. *)
Lemma quad_string_digits (quadkey : string) :
  string_all is_quad_character quadkey = true ->
  exists x y : Z,
    0 <= x < 2 ^ Z.of_nat (String.length quadkey)
    /\ 0 <= y < 2 ^ Z.of_nat (String.length quadkey)
    /\ quadkey = quad_digits x y (String.length quadkey).
Proof.
  induction quadkey as [|c rest IH]; intros Hall.
  - exists 0, 0. cbn. repeat split; lia.
  - cbn [string_all] in Hall. apply andb_true_iff in Hall as [Hc Hrest].
    destruct (IH Hrest) as (x & y & Hx & Hy & Hdigits).
    set (n := String.length rest) in *.
    assert (exists bx bystr : bool,
               JS.number_to_string (Z.b2z bx + 2 * Z.b2z bystr)
               = String c EmptyString) as (bx & by_ & Hprint).
    { destruct (is_quad_character_cases c Hc) as [->|[->|[->| ->]]].
      - exists false, false. reflexivity.
      - exists true, false. reflexivity.
      - exists false, true. reflexivity.
      - exists true, true. reflexivity. }
    exists (with_bit bx x (Z.of_nat n)), (with_bit by_ y (Z.of_nat n)).
    change (String.length (String c rest)) with (S n).
    replace (Z.of_nat (S n)) with (Z.of_nat n + 1) by lia.
    split; [apply with_bit_range; lia|].
    split; [apply with_bit_range; lia|].
    cbn [quad_digits]. unfold quad_digit at 1.
    rewrite !with_bit_spec by lia. rewrite Z.eqb_refl, Hprint.
    rewrite string_app_cons, string_app_nil_l. f_equal.
    rewrite Hdigits at 1. apply quad_digits_low_bits.
    intros i Hi. rewrite !with_bit_spec by lia.
    replace (i =? Z.of_nat n) with false by (symmetry; apply Z.eqb_neq; lia).
    split; reflexivity.
Qed.

(** X6.  A string of at most 31 digits 0 to 3 is the quadkey of the tile it
    decodes to: encoding after decoding gives the string back. *)
Theorem quadkey_decode_encode (quadkey : string) :
  (String.length quadkey <= 31)%nat ->
  string_all is_quad_character quadkey = true ->
  let tile := Bing.quadKeyToTileXY quadkey in
  Bing.tileXYToQuadKey (Bing.tile_x tile) (Bing.tile_y tile)
                       (Bing.tile_level tile)
  = quadkey.
Proof.
  intros Hlen Hall. cbv zeta.
  destruct (quad_string_digits quadkey Hall) as (x & y & Hx & Hy & Hdigits).
  set (n := String.length quadkey) in *.
  assert (2 ^ Z.of_nat n <= 2 ^ 31) by (apply Z.pow_le_mono_r; lia).
  assert (quadkey = Bing.tileXYToQuadKey x y (Z.of_nat n - 1)) as Hkey.
  { rewrite tileXYToQuadKey_digits by lia.
    replace (Z.to_nat (Z.of_nat n - 1 + 1)) with n by lia. exact Hdigits. }
  rewrite Hkey at 1 2 3.
  rewrite quadkey_roundtrip_31;
    [|lia|replace (Z.of_nat n - 1 + 1) with (Z.of_nat n) by lia; lia ..].
  cbn [Bing.tile_x Bing.tile_y Bing.tile_level]. now rewrite <- Hkey.
Qed.

End QuadkeyDecoding.

(** ** Bing tile requests, metadata and cache *)

Section BingRequests.
Context `{TileGeometry} `{!ResourceUrl}.

(** X7.  For a tile whose coordinates and level add up to a non-negative
    number and a non-empty list of subdomains, the request carries the
    subdomain at position [(x + y + level) mod count] of the list, together
    with the quadkey, the culture and the query parameter [n=z]. *)
Theorem buildImageResource_subdomain
        (imageryProvider : Bing.BingMapsImageryProvider) (x y level : Z)
        (request : option Request) :
  0 <= x + y + level ->
  Bing._imageUrlSubdomains imageryProvider <> [] ->
  let subdomains := Bing._imageUrlSubdomains imageryProvider in
  exists subdomain : string,
    nth_error subdomains
      (Z.to_nat ((x + y + level) mod Z.of_nat (length subdomains)))
    = Some subdomain
    /\ Bing.buildImageResource imageryProvider x y level request
       = getDerivedResource (Bing._resource imageryProvider)
           {| opt_url := Bing._imageUrlTemplate imageryProvider;
              opt_request := request;
              opt_templateValues :=
                [ ("quadkey"%string, Some (Bing.tileXYToQuadKey x y level));
                  ("subdomain"%string, Some subdomain);
                  ("culture"%string, Some (Bing._culture imageryProvider)) ];
              opt_queryParameters := [ ("n"%string, QString "z") ] |}.
Proof.
  intros Hsum Hne. cbv zeta.
  set (subdomains := Bing._imageUrlSubdomains imageryProvider) in *.
  assert (0 < Z.of_nat (length subdomains)) as Hlen
    by (destruct subdomains; [contradiction|cbn; lia]).
  pose proof (Z.mod_pos_bound (x + y + level) _ Hlen) as Hmod.
  destruct (nth_error subdomains
              (Z.to_nat ((x + y + level) mod Z.of_nat (length subdomains))))
    as [subdomain|] eqn:Enth.
  - exists subdomain. split; [reflexivity|].
    unfold Bing.buildImageResource. fold subdomains.
    rewrite Z.rem_mod_nonneg by lia.
    unfold JS.array_get.
    replace (_ <? 0) with false by (symmetry; apply Z.ltb_ge; lia).
    rewrite Enth. reflexivity.
  - apply nth_error_None in Enth. lia.
Qed.

(** The subdomain is [undefined] when the list of subdomains is empty. *)
Lemma buildImageResource_no_subdomain
      (imageryProvider : Bing.BingMapsImageryProvider) (x y level : Z)
      (request : option Request) :
  Bing._imageUrlSubdomains imageryProvider = [] ->
  Bing.buildImageResource imageryProvider x y level request
  = getDerivedResource (Bing._resource imageryProvider)
      {| opt_url := Bing._imageUrlTemplate imageryProvider;
         opt_request := request;
         opt_templateValues :=
           [ ("quadkey"%string, Some (Bing.tileXYToQuadKey x y level));
             ("subdomain"%string, None);
             ("culture"%string, Some (Bing._culture imageryProvider)) ];
         opt_queryParameters := [ ("n"%string, QString "z") ] |}.
Proof.
  intros Hempty. unfold Bing.buildImageResource. rewrite Hempty.
  unfold JS.array_get. destruct (_ <? 0); [reflexivity|].
  destruct (Z.to_nat _); reflexivity.
Qed.

(** X8.  [requestMetadata] after its [await] changes the builder all at
    once or not at all.  It succeeds exactly when the fetch is fulfilled
    with metadata that has one resource set with a first resource: on such
    metadata it returns without an error and all six fields of the builder
    come from that resource, the maximum level being its [zoomMax] minus
    one; in every other case the builder is as it was and the error is a
    [RuntimeError] whose message starts with the URL notice. *)
Theorem requestMetadata_resume_outcome
        (metadataResource : Resource) (settled : Settled Bing.Metadata)
        (imageryProviderBuilder : Bing.ImageryProviderBuilder) :
  let after :=
    Bing.requestMetadata_resume metadataResource settled
                                imageryProviderBuilder in
  (snd after = None
   <-> exists data set resource others,
         settled = Fulfilled data
         /\ Bing.resourceSets data = [set]
         /\ Bing.resources set = resource :: others)
  /\ (forall data set resource others,
         settled = Fulfilled data ->
         Bing.resourceSets data = [set] ->
         Bing.resources set = resource :: others ->
         after
         = ({| Bing.tileWidth := Some (Bing.imageWidth resource);
               Bing.tileHeight := Some (Bing.imageHeight resource);
               Bing.maximumLevel := Some (Bing.resource_zoomMax resource - 1);
               Bing.imageUrlSubdomains :=
                 Bing.resource_imageUrlSubdomains resource;
               Bing.imageUrlTemplate := Some (Bing.imageUrl resource);
               Bing.attributionList := Bing.imageryProviders resource |},
            None))
  /\ (forall error,
         snd after = Some error ->
         fst after = imageryProviderBuilder
         /\ exists detail : string,
             error = RuntimeError
                       ("An error occurred while accessing "
                        ++ resource_url metadataResource ++ detail)).
Proof.
  cbv zeta.
  unfold Bing.requestMetadata_resume, Bing.metadataSuccess,
    Bing.metadataFailure.
  split; [|split].
  - split.
    + destruct settled as [data|reason]; [|discriminate].
      destruct (Bing.resourceSets data) as [|set [|set' sets]] eqn:Esets;
        [discriminate| |discriminate].
      destruct (Bing.resources set) as [|resource others] eqn:Eres;
        [discriminate|].
      intros _. exists data, set, resource, others.
      repeat split; assumption.
    + intros (data & set & resource & others & -> & Esets & Eres).
      now rewrite Esets, Eres.
  - intros data set resource others -> Esets Eres.
    now rewrite Esets, Eres.
  - intros error.
    destruct settled as [data|reason].
    + destruct (Bing.resourceSets data) as [|set [|set' sets]].
      * intros [= <-]. split; [reflexivity|]. eexists.
        cbn. rewrite string_app_assoc. reflexivity.
      * destruct (Bing.resources set) as [|resource others];
          [|discriminate].
        intros [= <-]. split; [reflexivity|]. eexists.
        cbn. rewrite string_app_assoc. reflexivity.
      * intros [= <-]. split; [reflexivity|]. eexists.
        cbn. rewrite string_app_assoc. reflexivity.
    + intros [= <-]. split; [reflexivity|].
      destruct reason as [m|]; cbn.
      * eexists. rewrite string_app_assoc. reflexivity.
      * exists EmptyString. now rewrite string_app_nil_r.
Qed.

End BingRequests.

Section BingCache.
Context `{TileGeometry} `{!ResourceUrl}.

Lemma begin_points (r : Resource) (w : Bing.Process) :
  cache_points_to_fetches w ->
  cache_points_to_fetches (snd (Bing.requestMetadata_begin r w)).
Proof.
  intros Hw k p. unfold Bing.requestMetadata_begin.
  destruct (Bing._metadataCache w !! resource_url r) as [q|] eqn:E;
    cbn [snd Bing.network Bing._metadataCache]; [apply Hw|].
  destruct (decide (resource_url r = k)) as [Heq|Hne].
  - rewrite <- Heq, lookup_insert_eq. intros [= <-].
    exists r. split; [|reflexivity].
    rewrite nth_error_app2 by lia.
    now rewrite Nat.sub_diag.
  - rewrite lookup_insert_ne by assumption. intros Hk.
    destruct (Hw k p Hk) as (r' & Hnth & Hurl).
    exists r'. split; [|assumption].
    rewrite nth_error_app1; [assumption|].
    apply nth_error_Some. congruence.
Qed.

Lemma run_points (schedule : list Bing.Event) (w : Bing.Process) :
  cache_points_to_fetches w ->
  cache_points_to_fetches (Bing.run schedule w).
Proof.
  revert w. induction schedule as [|e rest IH]; intros w Hw; [exact Hw|].
  rewrite run_cons. apply IH. destruct e as [r|r]; [|exact Hw].
  now apply begin_points.
Qed.

(** X9.  On every schedule of provider constructions, the promise that
    the cache holds for a key is the one returned by the metadata fetch
    for that key: it is the position, in the log of the transport, of a
    JSONP fetch of a resource with that URL. *)
Theorem cache_holds_the_fetch (schedule : list Bing.Event)
        (cacheKey : string) (promise : Bing.Promise) :
  let w := Bing.run schedule Bing.process_start in
  Bing._metadataCache w !! cacheKey = Some promise ->
  exists r : Resource,
    nth_error (Bing.network w) promise
    = Some (FetchJsonp r (Some "jsonp"%string))
    /\ resource_url r = cacheKey.
Proof.
  cbv zeta. apply run_points.
  intros k p Hk. cbn in Hk. rewrite lookup_empty in Hk. discriminate.
Qed.

Lemma begin_counts (r : Resource) (w : Bing.Process) :
  cache_counts w -> cache_counts (snd (Bing.requestMetadata_begin r w)).
Proof.
  unfold cache_counts, Bing.requestMetadata_begin. intros Hw.
  destruct (Bing._metadataCache w !! resource_url r) as [q|] eqn:E;
    cbn [snd Bing.network Bing._metadataCache]; [exact Hw|].
  rewrite length_app, map_size_insert_None by assumption.
  cbn. lia.
Qed.

Lemma begin_dom (r : Resource) (w : Bing.Process) :
  dom (Bing._metadataCache (snd (Bing.requestMetadata_begin r w)))
  = {[ resource_url r ]} ∪ dom (Bing._metadataCache w).
Proof.
  unfold Bing.requestMetadata_begin.
  destruct (Bing._metadataCache w !! resource_url r) as [q|] eqn:E;
    cbn [snd Bing._metadataCache].
  - apply (elem_of_dom_2 (D := gset string)) in E.
    symmetry. apply subseteq_union_1_L. now apply singleton_subseteq_l.
  - apply dom_insert_L.
Qed.

Lemma run_counts (schedule : list Bing.Event) (w : Bing.Process) :
  cache_counts w -> cache_counts (Bing.run schedule w).
Proof.
  revert w. induction schedule as [|e rest IH]; intros w Hw; [exact Hw|].
  rewrite run_cons. apply IH. destruct e as [r|r]; [|exact Hw].
  now apply begin_counts.
Qed.

Lemma run_dom (schedule : list Bing.Event) (w : Bing.Process) :
  dom (Bing._metadataCache (Bing.run schedule w))
  = list_to_set (begun_keys schedule) ∪ dom (Bing._metadataCache w).
Proof.
  revert w. induction schedule as [|e rest IH]; intros w.
  - cbn. now rewrite (left_id_L ∅ (∪)).
  - rewrite run_cons, IH.
    destruct e as [r|r]; cbn [Bing.step begun_keys flat_map app].
    + rewrite begin_dom, list_to_set_cons.
      rewrite (assoc_L (∪)).
      now rewrite (comm_L (∪) (list_to_set (begun_keys rest)) {[resource_url r]}).
    + reflexivity.
Qed.

(** X10.  On every schedule of provider constructions, the number of calls
    that reach the transport is the number of distinct cache keys that the
    constructions ask for. *)
Theorem fetches_count_distinct_keys (schedule : list Bing.Event) :
  length (Bing.network (Bing.run schedule Bing.process_start))
  = size (list_to_set (begun_keys schedule) : gset string).
Proof.
  rewrite (run_counts schedule Bing.process_start);
    [|unfold cache_counts; cbn; now rewrite map_size_empty].
  rewrite <- size_dom, run_dom. cbn.
  now rewrite dom_empty_L, (right_id_L ∅ (∪)).
Qed.

End BingCache.

Section BingBuild.
Context `{TileGeometry} `{!ResourceUrl}.

(** X11.  For a provider built from the attribution entries of a metadata
    response, the credits of a tile are the attribution texts of the
    entries that have a coverage area whose zoom range holds the level
    plus one and whose box, read as south, west, north, east in degrees
    and converted to radians, meets the rectangle of the tile. *)
Theorem getTileCredits_of_response
        (this : Bing.ImageryProviderBuilder)
        (provider : Bing.BingMapsImageryProvider)
        (entries : list Bing.ResponseAttribution) (x y level : Z) (text : string) :
  Bing.attributionList this = Some (Bing.FromResponse entries) ->
  let rectangle := tileXYToRectangle (Bing._tilingScheme provider) x y level in
  In {| html := text |}
     (Bing.getTileCredits (Bing.build this provider) x y level)
  <->
  exists entry area,
    In entry entries /\ Bing.attribution entry = text
    /\ In area (Bing.response_coverageAreas entry)
    /\ Bing.response_zoomMin area <= level + 1 <= Bing.response_zoomMax area
    /\ Rectangle_intersection rectangle
         {| west := toRadians (snd (fst (fst (Bing.response_bbox area))));
            south := toRadians (fst (fst (fst (Bing.response_bbox area))));
            east := toRadians (snd (Bing.response_bbox area));
            north := toRadians (snd (fst (Bing.response_bbox area))) |}
       <> None.
Proof.
  intros Harray. cbv zeta.
  unfold Bing.getTileCredits.
  rewrite getRectangleAttribution_creditsFor, creditsFor_In.
  cbn [Bing.build Bing._attributionList Bing._tilingScheme].
  rewrite Harray. split.
  - intros (credited & Hin & Hcredit & area & Harea & Hzoom & Hmeet).
    apply in_map_iff in Hin as (entry & <- & Hentry).
    cbn in Hcredit, Harea. injection Hcredit as Htext.
    apply in_map_iff in Harea as (raw & <- & Hraw).
    exists entry, raw. destruct (Bing.response_bbox raw) as [[[b0 b1] b2] b3].
    cbn in *. repeat split; try assumption; lia.
  - intros (entry & raw & Hentry & Htext & Hraw & Hzoom & Hmeet).
    exists (Bing.credit_attribution entry). split; [|split].
    + apply in_map. exact Hentry.
    + cbn. now rewrite Htext.
    + eexists. split; [cbn; apply in_map; exact Hraw|].
      destruct (Bing.response_bbox raw) as [[[b0 b1] b2] b3].
      cbn in *. split; [lia|assumption].
Qed.

End BingBuild.

(** ** The metadata request of the Bing provider *)

Section BingMetadataRequest.
Context `{TileGeometry} `{!ResourceUrl}.

Lemma string_get_last (p : string) (c : ascii) :
  String.get (String.length p) (p ++ String c "") = Some c.
Proof.
  induction p as [|a p IH]; [reflexivity|].
  rewrite string_app_cons. cbn [String.length String.get]. exact IH.
Qed.

Lemma string_substring_prefix (p s : string) :
  String.substring 0 (String.length p) (p ++ s) = p.
Proof.
  induction p as [|a p IH].
  - rewrite string_app_nil_l. destruct s; reflexivity.
  - rewrite string_app_cons. cbn [String.length String.substring].
    now rewrite IH.
Qed.

(** X12.  A tile protocol may be given with or without the colon of a URL
    protocol: for a protocol that does not itself end in a colon, both
    spellings give the same metadata request, whose [uriScheme] is the
    protocol without colon.  Without the option the scheme is that of the
    document: http for an http document, https for every other. *)
Theorem fromUrl_uriScheme
        (AERIAL : string) (resource : Resource) (key : string)
        (mapStyle : option string) (protocol documentProtocol : string) :
  ends_with_colon protocol = false ->
  fromUrl_metadataResource AERIAL resource key (Some (protocol ++ ":")%string)
                           mapStyle documentProtocol
  = fromUrl_metadataResource AERIAL resource key (Some protocol)
                             mapStyle documentProtocol
  /\ query_parameter
       (fromUrl_metadataResource AERIAL resource key (Some protocol)
                                 mapStyle documentProtocol)
       "uriScheme"
     = Some (QString protocol)
  /\ query_parameter
       (fromUrl_metadataResource AERIAL resource key None
                                 mapStyle documentProtocol)
       "uriScheme"
     = Some (QString (if String.eqb documentProtocol "http:"
                      then "http" else "https")%string).
Proof.
  intros Hp.
  assert (fromUrl_tileProtocol (Some (protocol ++ ":")%string) documentProtocol
          = protocol) as Hcolon.
  { unfold fromUrl_tileProtocol, ends_with_colon.
    rewrite string_length_app. cbn [String.length].
    replace (String.length protocol + 1 - 1)%nat
      with (String.length protocol) by lia.
    rewrite string_get_last, Ascii.eqb_refl.
    replace (0 <? String.length protocol + 1)%nat with true
      by (symmetry; apply Nat.ltb_lt; lia).
    cbn [andb]. apply string_substring_prefix. }
  assert (fromUrl_tileProtocol (Some protocol) documentProtocol = protocol)
    as Hplain.
  { unfold fromUrl_tileProtocol. now rewrite Hp. }
  unfold fromUrl_metadataResource. cbv zeta.
  rewrite Hcolon, Hplain.
  split; [reflexivity|]. split; reflexivity.
Qed.

End BingMetadataRequest.

(** ** The ArcGIS provider from the URL to the provider *)

Section FromUrl.
Context `{TileGeometry} `{!ResourceUrl}.

Lemma metadataSuccess_untiled (data : ArcGis.CapabilityDocument)
      (b : ArcGis.ImageryProviderBuilder) :
  ArcGis.tileInfo data = None ->
  exists c : option Credit,
    ArcGis.metadataSuccess data b
    = (ArcGis.set_credit c (ArcGis.set_useTiles false b), inr tt).
Proof.
  intros Hnone. unfold ArcGis.metadataSuccess. rewrite Hnone. run_stmt.
  destruct (read_copyrightText_run data (ArcGis.set_useTiles false b))
    as [c ->].
  now exists c.
Qed.

(** A successful parse of a document with a tile-grid section leaves the
    builder in precached mode with the maximum level of the grid. *)
Lemma metadataSuccess_tiled_success (data : ArcGis.CapabilityDocument)
      (b b' : ArcGis.ImageryProviderBuilder) (tileInfo : ArcGis.TileInfo) :
  ArcGis.tileInfo data = Some tileInfo ->
  ArcGis.metadataSuccess data b = (b', inr tt) ->
  ArcGis.useTiles b' = true
  /\ ArcGis.maximumLevel b'
     = Some (Z.of_nat (length (ArcGis.lods tileInfo)) - 1)
  /\ ArcGis.tileDiscardPolicy b' = ArcGis.tileDiscardPolicy b.
Proof.
  intros Hti. rewrite (metadataSuccess_tiled data b tileInfo Hti).
  unfold ArcGis.select_tilingScheme.
  destruct (ArcGis.tileInfo_spatialReference tileInfo) as [reference|];
    [|discriminate].
  destruct (ArcGis.wkid_is _ 102100 || ArcGis.wkid_is _ 102113);
    [|destruct (ArcGis.wkid_is _ 4326); [|discriminate]];
    run_stmt; rewrite read_fullExtent_run;
    (destruct (ArcGis.fullExtent data) as [extent|];
     [destruct (ArcGis.fullExtent_spatialReference extent) as [[[code|]]|];
      [destruct (Spec.SpatialReferenceMap (Some code)) as [[]|]| |]|]);
    try discriminate;
    match goal with
    | |- context [ArcGis.read_copyrightText ?d ?b0] =>
        destruct (read_copyrightText_run d b0) as [c ->]
    end; intros [= <-]; repeat split.
Qed.

(** X13.  A provider that [fromUrl] returns in dynamic mode has the
    caller's configuration: the tiling scheme, rectangle, tile size and
    maximum level of the options, with their defaults, and the caller's
    discard policy; no default discard policy is installed. *)
Theorem fromUrl_dynamic_provider
        (resource : Resource) (options : ArcGis.ConstructorOptions)
        (settled : Settled ArcGis.CapabilityDocument)
        (calls : list NetworkCall)
        (provider : ArcGis.ArcGisMapServerImageryProvider) :
  ArcGis.fromUrl resource options settled = (calls, inr provider) ->
  ArcGis._useTiles provider = false ->
  let scheme :=
    ArcGis.defaultValue (ArcGis.options_tilingScheme options)
      (GeographicTilingScheme (ArcGis.options_ellipsoid options)) in
  ArcGis._tilingScheme provider = scheme
  /\ ArcGis._rectangle provider
     = ArcGis.defaultValue (ArcGis.options_rectangle options)
                           (scheme_rectangle scheme)
  /\ ArcGis._tileWidth provider
     = ArcGis.defaultValue (ArcGis.options_tileWidth options) 256
  /\ ArcGis._tileHeight provider
     = ArcGis.defaultValue (ArcGis.options_tileHeight options) 256
  /\ ArcGis._maximumLevel provider = ArcGis.options_maximumLevel options
  /\ ArcGis._tileDiscardPolicy provider
     = ArcGis.options_tileDiscardPolicy options.
Proof.
  unfold ArcGis.fromUrl. cbv zeta.
  destruct (ArcGis.defaultValue
              (ArcGis.options_usePreCachedTilesIfAvailable options) true)
    eqn:Emode.
  - unfold ArcGis.requestMetadata.
    destruct settled as [data|reason]; [|discriminate].
    destruct (ArcGis.metadataSuccess data _) as [b' [e|[]]] eqn:Eparse;
      [discriminate|].
    intros [= <- <-] Hmode.
    destruct (ArcGis.tileInfo data) as [tileInfo|] eqn:Hti.
    + destruct (metadataSuccess_tiled_success data _ b' tileInfo Hti Eparse)
        as (Htiles & _).
      rewrite build_useTiles in Hmode. congruence.
    + destruct (metadataSuccess_untiled data
                  (ArcGis.new_ImageryProviderBuilder options) Hti) as [c Hc].
      rewrite Hc in Eparse. injection Eparse as <-.
      cbn. repeat split.
  - intros [= <- <-] Hmode. unfold ArcGis.build.
    cbn. rewrite Emode. cbn. repeat split.
Qed.



End FromUrl.

Section TiledServer.
Context `{TileGeometry} `{!ResourceUrl}.

Lemma select_tilingScheme_maximumLevel (tileInfo : ArcGis.TileInfo)
      (m : option Z) (b : ArcGis.ImageryProviderBuilder) :
  ArcGis.select_tilingScheme tileInfo (ArcGis.set_maximumLevel m b)
  = (ArcGis.set_maximumLevel m (fst (ArcGis.select_tilingScheme tileInfo b)),
     snd (ArcGis.select_tilingScheme tileInfo b)).
Proof.
  unfold ArcGis.select_tilingScheme.
  destruct (ArcGis.tileInfo_spatialReference tileInfo) as [reference|];
    [|reflexivity].
  destruct (ArcGis.wkid_is _ 102100 || ArcGis.wkid_is _ 102113);
    [reflexivity|].
  destruct (ArcGis.wkid_is _ 4326); reflexivity.
Qed.

(** X16.  When the capability document has a tile-grid section, the tile
    width, tile height and maximum level of the options do not reach the
    outcome of [fromUrl]: whatever the caller passes for them, the
    provider, or the error, is the same. *)
Theorem tiled_server_ignores_tile_options
        (resource : Resource) (options : ArcGis.ConstructorOptions)
        (data : ArcGis.CapabilityDocument) (tileInfo : ArcGis.TileInfo)
        (width height maximumLevel : option Z) :
  ArcGis.options_usePreCachedTilesIfAvailable options <> Some false ->
  ArcGis.tileInfo data = Some tileInfo ->
  ArcGis.fromUrl resource
    (with_tile_options width height maximumLevel options) (Fulfilled data)
  = ArcGis.fromUrl resource options (Fulfilled data).
Proof.
  intros Hmode Hti. unfold ArcGis.fromUrl. cbv zeta.
  cbn [with_tile_options ArcGis.options_usePreCachedTilesIfAvailable].
  assert (ArcGis.defaultValue
            (ArcGis.options_usePreCachedTilesIfAvailable options) true = true)
    as -> by (destruct (ArcGis.options_usePreCachedTilesIfAvailable options)
                as [[]|]; [reflexivity|contradiction|reflexivity]).
  unfold ArcGis.requestMetadata.
  rewrite !(metadataSuccess_tiled data _ tileInfo Hti).
  change (ArcGis.set_tileHeight (ArcGis.cols tileInfo)
            (ArcGis.set_tileWidth (ArcGis.rows tileInfo)
               (ArcGis.new_ImageryProviderBuilder
                  (with_tile_options width height maximumLevel options))))
    with (ArcGis.set_maximumLevel maximumLevel
            (ArcGis.set_tileHeight (ArcGis.cols tileInfo)
               (ArcGis.set_tileWidth (ArcGis.rows tileInfo)
                  (ArcGis.set_maximumLevel maximumLevel
                     (ArcGis.new_ImageryProviderBuilder options))))).
  change (ArcGis.set_tileHeight (ArcGis.cols tileInfo)
            (ArcGis.set_tileWidth (ArcGis.rows tileInfo)
               (ArcGis.new_ImageryProviderBuilder options)))
    with (ArcGis.set_maximumLevel (ArcGis.options_maximumLevel options)
            (ArcGis.set_tileHeight (ArcGis.cols tileInfo)
               (ArcGis.set_tileWidth (ArcGis.rows tileInfo)
                  (ArcGis.set_maximumLevel maximumLevel
                     (ArcGis.new_ImageryProviderBuilder options))))).
  rewrite !select_tilingScheme_maximumLevel.
  destruct (ArcGis.select_tilingScheme tileInfo _) as [b1 [e|[]]];
    cbn [fst snd]; [reflexivity|].
  change (ArcGis.set_maximumLevel
            (Some (Z.of_nat (length (ArcGis.lods tileInfo)) - 1))
            (ArcGis.set_maximumLevel maximumLevel b1))
    with (ArcGis.set_maximumLevel
            (Some (Z.of_nat (length (ArcGis.lods tileInfo)) - 1))
            (ArcGis.set_maximumLevel (ArcGis.options_maximumLevel options) b1)).
  destruct (ArcGis.read_fullExtent data _) as [b2 [e|[]]]; [reflexivity|].
  destruct (ArcGis.read_copyrightText data _) as [b3 [e|[]]]; reflexivity.
Qed.

(** X17.  The credit of a provider made from a fetched capability
    document is the document's copyright text when that is a non-empty
    string, and the credit of the options otherwise, a string of the
    options being made a credit. *)
Theorem fromUrl_credit
        (resource : Resource) (options : ArcGis.ConstructorOptions)
        (data : ArcGis.CapabilityDocument) (calls : list NetworkCall)
        (provider : ArcGis.ArcGisMapServerImageryProvider) :
  ArcGis.options_usePreCachedTilesIfAvailable options <> Some false ->
  ArcGis.fromUrl resource options (Fulfilled data) = (calls, inr provider) ->
  ArcGis._credit provider
  = match ArcGis.copyrightText data with
    | Some (String c text) => Some {| html := String c text |}
    | _ =>
        match ArcGis.options_credit options with
        | Some (inr text) => Some {| html := text |}
        | Some (inl credit) => Some credit
        | None => None
        end
    end.
Proof.
  intros Hmode. unfold ArcGis.fromUrl. cbv zeta.
  assert (ArcGis.defaultValue
            (ArcGis.options_usePreCachedTilesIfAvailable options) true = true)
    as -> by (destruct (ArcGis.options_usePreCachedTilesIfAvailable options)
                as [[]|]; [reflexivity|contradiction|reflexivity]).
  unfold ArcGis.requestMetadata.
  assert (forall b b1,
             ArcGis.read_copyrightText data b = (b1, inr tt) ->
             ArcGis.credit b1
             = match ArcGis.copyrightText data with
               | Some (String c text) => Some {| html := String c text |}
               | _ => ArcGis.credit b
               end) as Hcredit.
  { intros b b1. unfold ArcGis.read_copyrightText.
    destruct (ArcGis.copyrightText data) as [[|c text]|]; cbn;
      intros [= <-]; reflexivity. }
  destruct (ArcGis.tileInfo data) as [tileInfo|] eqn:Hti.
  - rewrite (metadataSuccess_tiled data _ tileInfo Hti).
    unfold ArcGis.select_tilingScheme.
    destruct (ArcGis.tileInfo_spatialReference tileInfo) as [reference|];
      [|discriminate].
    destruct (ArcGis.wkid_is _ 102100 || ArcGis.wkid_is _ 102113);
      [|destruct (ArcGis.wkid_is _ 4326); [|discriminate]];
      run_stmt; rewrite read_fullExtent_run;
      (destruct (ArcGis.fullExtent data) as [extent|];
       [destruct (ArcGis.fullExtent_spatialReference extent) as [[[code|]]|];
        [destruct (Spec.SpatialReferenceMap (Some code)) as [[]|]| |]|]);
      try discriminate;
      match goal with
      | |- context [ArcGis.read_copyrightText data ?b0] =>
          destruct (ArcGis.read_copyrightText data b0) as [b1 [e|[]]] eqn:E;
            [discriminate|];
          intros [= <- <-]; cbn [ArcGis.build ArcGis._credit];
          rewrite (Hcredit _ _ E); reflexivity
      end.
  - unfold ArcGis.metadataSuccess. rewrite Hti. run_stmt.
    destruct (ArcGis.read_copyrightText data _) as [b1 [e|[]]] eqn:E;
      [discriminate|].
    intros [= <- <-]. cbn [ArcGis.build ArcGis._credit].
    rewrite (Hcredit _ _ E). reflexivity.
Qed.

End TiledServer.

Section Identify.
Context `{TileGeometry} `{!ResourceUrl}.

Lemma feature_info_position (feature : ArcGis.IdentifyResult) :
  ArcGis.info_position (ArcGis.feature_info feature) <> None <->
  (ArcGis.result_geometryType feature = Some "esriGeometryPoint"%string
   /\ exists geometry,
       ArcGis.result_geometry feature = Some geometry
       /\ In (point_wkid geometry) [4326; 4283; 102100; 900913; 3857]).
Proof.
  unfold ArcGis.feature_info. cbn [ArcGis.info_position].
  destruct (ArcGis.result_geometryType feature) as [type|];
    [|split; [congruence|intros [? _]; discriminate]].
  destruct (ArcGis.result_geometry feature) as [geometry|];
    [|split; [congruence|intros [_ (g & ? & _)]; discriminate]].
  destruct (String.eqb_spec type "esriGeometryPoint") as [->|Hne];
    [|split; [congruence|intros [[= ?] _]; contradiction]].
  fold (point_wkid geometry).
  destruct (Z.eqb_spec (point_wkid geometry) 4326) as [E1|N1];
    [cbn; split; [intros _; split; [reflexivity|]; exists geometry;
                  split; [reflexivity|rewrite E1; cbn; tauto]
                 |congruence]|].
  destruct (Z.eqb_spec (point_wkid geometry) 4283) as [E2|N2];
    [cbn; split; [intros _; split; [reflexivity|]; exists geometry;
                  split; [reflexivity|rewrite E2; cbn; tauto]
                 |congruence]|].
  cbn [orb].
  destruct (Z.eqb_spec (point_wkid geometry) 102100) as [E3|N3];
    [cbn; split; [intros _; split; [reflexivity|]; exists geometry;
                  split; [reflexivity|rewrite E3; cbn; tauto]
                 |congruence]|].
  destruct (Z.eqb_spec (point_wkid geometry) 900913) as [E4|N4];
    [cbn; split; [intros _; split; [reflexivity|]; exists geometry;
                  split; [reflexivity|rewrite E4; cbn; tauto]
                 |congruence]|].
  destruct (Z.eqb_spec (point_wkid geometry) 3857) as [E5|N5];
    [cbn; split; [intros _; split; [reflexivity|]; exists geometry;
                  split; [reflexivity|rewrite E5; cbn; tauto]
                 |congruence]|].
  cbn. split; [congruence|].
  intros [_ (g & [= <-] & Hin)]. cbn in Hin. intuition congruence.
Qed.

(** X18.  The identify callback returns one feature information per
    result, in the order of the results and each holding its result, and
    nothing when the response has no result list.  A feature information
    has a position exactly when its result is of the point geometry type,
    has a geometry, and the geometry's code, 4326 when it is missing or
    zero, is one of 4326, 4283, 102100, 900913 and 3857; a result of
    another kind is returned without a position. *)
Theorem identify_results_records
        (results : option (list ArcGis.IdentifyResult)) :
  map ArcGis.info_data (ArcGis.identify_results results)
  = match results with
    | Some features => features
    | None => []
    end
  /\ forall info,
      In info (ArcGis.identify_results results) ->
      (ArcGis.info_position info <> None <->
       (ArcGis.result_geometryType (ArcGis.info_data info)
        = Some "esriGeometryPoint"%string
        /\ exists geometry,
            ArcGis.result_geometry (ArcGis.info_data info) = Some geometry
            /\ In (point_wkid geometry) [4326; 4283; 102100; 900913; 3857])).
Proof.
  destruct results as [features|]; cbn [ArcGis.identify_results].
  - split.
    + rewrite map_map. cbn. apply map_id.
    + intros info Hin. apply in_map_iff in Hin as (feature & <- & _).
      apply feature_info_position.
  - split; [reflexivity|]. intros info [].
Qed.

End Identify.

(** ** Tile paths and queries *)

Section DecimalStrings.

Lemma number_to_string_injective (a b : Z) :
  JS.number_to_string a = JS.number_to_string b -> a = b.
Proof.
  unfold JS.number_to_string. intros Heq.
  apply DecimalZ.to_int_inj.
  assert (forall z, Z.to_int z <> Decimal.Pos Decimal.Nil
                    /\ Z.to_int z <> Decimal.Neg Decimal.Nil) as Hnonnil.
  { intros [|p|p]; cbn; split; try discriminate;
      intros [= E]; exact (DecimalPos.Unsigned.to_uint_nonnil p E). }
  pose proof (NilZero.isi (Z.to_int a) (proj1 (Hnonnil a)) (proj2 (Hnonnil a)))
    as Ha.
  pose proof (NilZero.isi (Z.to_int b) (proj1 (Hnonnil b)) (proj2 (Hnonnil b)))
    as Hb.
  rewrite Heq in Ha. congruence.
Qed.

Lemma uint_string_no_slash (d : Decimal.uint) :
  string_all is_not_slash (NilEmpty.string_of_uint d) = true.
Proof. induction d; cbn; auto. Qed.

Lemma number_to_string_no_slash (z : Z) :
  string_all is_not_slash (JS.number_to_string z) = true.
Proof.
  unfold JS.number_to_string, NilZero.string_of_int, NilZero.string_of_uint.
  destruct (Z.to_int z) as [d|d]; destruct d; cbn;
    auto using uint_string_no_slash.
Qed.

(** Two strings cut at their first slash. *)
Lemma split_at_slash (a a' b b' : string) :
  string_all is_not_slash a = true ->
  string_all is_not_slash a' = true ->
  (a ++ "/" ++ b = a' ++ "/" ++ b')%string ->
  a = a' /\ b = b'.
Proof.
  revert a'. induction a as [|c a IH]; intros a' Ha Ha' Heq.
  - destruct a' as [|c' a'].
    + rewrite !string_app_nil_l, !string_app_cons, !string_app_nil_l in Heq.
      injection Heq as ->. auto.
    + rewrite !string_app_nil_l, !string_app_cons, !string_app_nil_l in Heq.
      injection Heq as <- _. cbn in Ha'. discriminate.
  - destruct a' as [|c' a'].
    + rewrite !string_app_nil_l, !string_app_cons, !string_app_nil_l in Heq.
      injection Heq as -> _. cbn in Ha. discriminate.
    + rewrite !(string_app_cons c), !(string_app_cons c') in Heq.
      injection Heq as -> Heq.
      cbn in Ha, Ha'. apply andb_true_iff in Ha as [_ Ha].
      apply andb_true_iff in Ha' as [_ Ha'].
      destruct (IH a' Ha Ha' Heq) as [-> ->]. auto.
Qed.

End DecimalStrings.

Section Paths.
Context `{TileGeometry} `{!ResourceUrl}.

(** X19.  In precached mode two tiles with the same request path are the
    same tile: the path [tile/level/y/x] determines the level, the row and
    the column. *)
Theorem precached_path_injective
        (imageryProvider : ArcGis.ArcGisMapServerImageryProvider)
        (x y level x' y' level' : Z) (request request' : option Request) :
  ArcGis._useTiles imageryProvider = true ->
  relative_url (ArcGis.buildImageResource imageryProvider x y (Some level)
                                          request)
  = relative_url (ArcGis.buildImageResource imageryProvider x' y' (Some level')
                                            request') ->
  x = x' /\ y = y' /\ level = level'.
Proof.
  intros Hmode. unfold ArcGis.buildImageResource. rewrite Hmode.
  cbn [relative_url getDerivedResource opt_url JS.optional_number_to_string].
  intros [= Heq].
  rewrite !string_app_nil_l in Heq.
  apply split_at_slash in Heq as [Hlevel Heq];
    [|apply number_to_string_no_slash ..].
  apply split_at_slash in Heq as [Hy Hx];
    [|apply number_to_string_no_slash ..].
  apply number_to_string_injective in Hlevel, Hy, Hx. auto.
Qed.

(** X20.  For a provider in dynamic mode with picking switched on, the
    identify query of a tile and the export request of the same tile agree:
    the map extent of the one is the bounding box of the other, the image
    display is the export size followed by ",96", and the spatial
    reference is the same code. *)
Theorem pick_and_export_agree
        (this : ArcGis.ArcGisMapServerImageryProvider) (x y level : Z)
        (longitude latitude : num) (request : option Request) :
  ArcGis._useTiles this = false ->
  ArcGis.enablePickFeatures this = true ->
  let export := ArcGis.buildImageResource this x y (Some level) request in
  exists identify size code,
    ArcGis.pickFeatures this x y level longitude latitude
    = (Some (ArcGis.IdentifyThen identify), [FetchJson identify])
    /\ query_parameter identify "mapExtent" = query_parameter export "bbox"
    /\ query_parameter export "size" = Some (QString size)
    /\ query_parameter identify "imageDisplay"
       = Some (QString (size ++ ",96")%string)
    /\ query_parameter export "bboxSR" = Some (QNumber code)
    /\ query_parameter export "imageSR" = Some (QNumber code)
    /\ query_parameter identify "sr" = Some (QString (JS.number_to_string code)).
Proof.
  intros Hmode Hpick. cbv zeta.
  unfold ArcGis.pickFeatures, ArcGis.buildImageResource, ArcGis.layers.
  rewrite Hmode, Hpick. cbn [negb].
  destruct (projection (ArcGis._tilingScheme this));
    cbn [instanceof_GeographicProjection];
    destruct (ArcGis._layers this) as [[|c l]|].
  all: eexists _, _, _.
  all: split; [reflexivity|].
  all: cbn.
  all: repeat split; try reflexivity.
  all: now rewrite string_app_assoc.
Qed.

End Paths.

(** ** The iTwin platform requests *)

Section ITwinRequests.
Variable Json : Type.
Variable json_error : Json -> option ITwinPlatform.ErrorInfo.
Variable json_export_id : Json -> option (option string).
Variable undefined_property : string.

(** X21.  Each of the three requests returns a value only when the access
    token is set, the fetch is fulfilled with a response that is [ok], and
    the body of the response can be read; [getExport] and [getExports]
    then return the body, [createExportForModelId] the identifier of its
    export.  A response that is not [ok] never gives a value. *)
Theorem requests_return_only_ok_bodies
        (settings : ITwinPlatform.Settings) (id : string)
        (answer : Settled (ITwinPlatform.Response Json)) :
  (forall result,
      ITwinPlatform.outcome
        (ITwinPlatform.getExport Json json_error undefined_property
           settings id answer) = inr result ->
      exists response,
        ITwinPlatform.defaultAccessToken settings <> None
        /\ answer = Fulfilled response
        /\ ITwinPlatform.ok Json response = true
        /\ ITwinPlatform.json Json response = Fulfilled result)
  /\ (forall result,
         ITwinPlatform.outcome
           (ITwinPlatform.getExports Json json_error undefined_property
              settings id answer) = inr result ->
         exists response,
           ITwinPlatform.defaultAccessToken settings <> None
           /\ answer = Fulfilled response
           /\ ITwinPlatform.ok Json response = true
           /\ ITwinPlatform.json Json response = Fulfilled result)
  /\ (forall exportId,
         ITwinPlatform.outcome (ITwinPlatform.createExportForModelId Json json_error
           json_export_id undefined_property settings id answer)
         = inr exportId ->
         exists response result,
           ITwinPlatform.defaultAccessToken settings <> None
           /\ answer = Fulfilled response
           /\ ITwinPlatform.ok Json response = true
           /\ ITwinPlatform.json Json response = Fulfilled result
           /\ json_export_id result = Some exportId).
Proof.
  unfold ITwinPlatform.getExport, ITwinPlatform.getExports,
    ITwinPlatform.createExportForModelId, ITwinPlatform.code_and_message,
    ITwinPlatform.first_detail_code.
  destruct (ITwinPlatform.defaultAccessToken settings) as [token|];
    [|repeat split; intros ? [=]].
  destruct answer as [response|reason]; [|repeat split; intros ? [=]].
  destruct (ITwinPlatform.ok Json response) eqn:Eok; cbn [negb].
  - destruct (ITwinPlatform.json Json response) as [result|reason] eqn:Ejson;
      [|repeat split; intros ? [=]].
    split; [|split].
    + intros r [= <-]. exists response. repeat split; congruence.
    + intros r [= <-]. exists response. repeat split; congruence.
    + intros exportId. destruct (json_export_id result) as [i|] eqn:Eid;
        intros [= <-].
      exists response, result. repeat split; congruence.
  - destruct (ITwinPlatform.json Json response) as [result|reason];
      [|repeat split; intros ? [=]].
    repeat split; intros r;
      repeat match goal with
             | |- context [if ?c then _ else _] => destruct c
             | |- context [match json_error result with _ => _ end] =>
                 destruct (json_error result) as [?error|]
             | |- context [match ITwinPlatform.error_details ?e with _ => _ end] =>
                 destruct (ITwinPlatform.error_details e) as [[|? ?]|]
             end; intros [=].
Qed.


(** X23.  For a response that is not [ok] and whose body can be read:
    status 429 makes each of the three requests throw "Too many requests";
    a status other than 401, 403, 404, 422 and 429 makes each throw
    "Unknown request failure " followed by the status; status 404 is
    "Requested export is not available " with the identifier in
    [getExport] and an unknown failure in the other two, and status 403 is
    an unknown failure in [getExport]. *)
Theorem failed_response_messages
        (settings : ITwinPlatform.Settings) (token id : string)
        (response : ITwinPlatform.Response Json) (result : Json) :
  ITwinPlatform.defaultAccessToken settings = Some token ->
  ITwinPlatform.ok Json response = false ->
  ITwinPlatform.json Json response = Fulfilled result ->
  let code := ITwinPlatform.status Json response in
  let thrown (message : string) {A : Type} : ITwinPlatform.Raised + A :=
    inl (ITwinPlatform.Threw (RuntimeError message)) in
  let unknown := ("Unknown request failure " ++ JS.number_to_string code)%string in
  (code = 429 ->
   ITwinPlatform.outcome
     (ITwinPlatform.getExport Json json_error undefined_property
        settings id (Fulfilled response))
   = thrown "Too many requests"%string
   /\ ITwinPlatform.outcome
     (ITwinPlatform.getExports Json json_error undefined_property
        settings id (Fulfilled response))
      = thrown "Too many requests"%string
   /\ ITwinPlatform.outcome
        (ITwinPlatform.createExportForModelId Json json_error
           json_export_id undefined_property settings id (Fulfilled response))
      = thrown "Too many requests"%string)
  /\ (code <> 401 -> code <> 403 -> code <> 404 -> code <> 422 ->
      code <> 429 ->
      ITwinPlatform.outcome
        (ITwinPlatform.getExport Json json_error undefined_property
           settings id (Fulfilled response))
      = thrown unknown
      /\ ITwinPlatform.outcome
        (ITwinPlatform.getExports Json json_error undefined_property
           settings id (Fulfilled response))
         = thrown unknown
      /\ ITwinPlatform.outcome
           (ITwinPlatform.createExportForModelId Json json_error
           json_export_id undefined_property settings id (Fulfilled response))
         = thrown unknown)
  /\ (code = 404 ->
      ITwinPlatform.outcome
        (ITwinPlatform.getExport Json json_error undefined_property
           settings id (Fulfilled response))
      = thrown ("Requested export is not available " ++ id)%string
      /\ ITwinPlatform.outcome
        (ITwinPlatform.getExports Json json_error undefined_property
           settings id (Fulfilled response))
         = thrown unknown
      /\ ITwinPlatform.outcome
           (ITwinPlatform.createExportForModelId Json json_error
           json_export_id undefined_property settings id (Fulfilled response))
         = thrown unknown)
  /\ (code = 403 ->
      ITwinPlatform.outcome
        (ITwinPlatform.getExport Json json_error undefined_property
           settings id (Fulfilled response))
      = thrown unknown).
Proof.
  intros Htoken Hok Hjson. cbv zeta.
  unfold ITwinPlatform.getExport, ITwinPlatform.getExports,
    ITwinPlatform.createExportForModelId.
  rewrite Htoken, Hok, Hjson. cbn [negb].
  split; [|split; [|split]].
  - intros E. rewrite E. repeat split; reflexivity.
  - intros N1 N3 N4 N22 N29.
    rewrite (proj2 (Z.eqb_neq _ _) N1), (proj2 (Z.eqb_neq _ _) N3),
      (proj2 (Z.eqb_neq _ _) N4), (proj2 (Z.eqb_neq _ _) N22),
      (proj2 (Z.eqb_neq _ _) N29).
    repeat split; reflexivity.
  - intros E. rewrite E. repeat split; reflexivity.
  - intros E. rewrite E. reflexivity.
Qed.

End ITwinRequests.

(** ** The further properties on sample data *)

Section FurtherExamples.
Import Sample.

Lemma quadkey_roundtrip_two_by_two_witness :
  (0 <= 0 <= 30 /\ 0 <= 1 < 2 ^ (0 + 1))
  /\ Bing.quadKeyToTileXY (Bing.tileXYToQuadKey 1 1 0)
     = {| Bing.tile_x := 1; Bing.tile_y := 1; Bing.tile_level := 0 |}.
Proof.
  split; [cbn; lia|].
  apply (quadkey_roundtrip_two_by_two 1 1 0); cbn; lia.
Defined.

Lemma tileXYToQuadKey_injective_witness :
  Bing.tileXYToQuadKey 3 5 3 = "0213"%string
  /\ Bing.tileXYToQuadKey 3 5 3 = Bing.tileXYToQuadKey 3 5 3
  /\ (3 = 3 /\ 5 = 5 /\ 3 = 3).
Proof.
  split; [reflexivity|]. split; [reflexivity|].
  apply (tileXYToQuadKey_injective 3 5 3 3 5 3); cbn; try lia; reflexivity.
Defined.

Lemma tileXYToQuadKey_parent_witness :
  (0 <= 3 <= 30 /\ 0 <= 3 < 2 ^ 31 /\ 0 <= 5 < 2 ^ 31)
  /\ Bing.tileXYToQuadKey 3 5 3
     = (Bing.tileXYToQuadKey 1 2 2 ++ "3")%string.
Proof.
  split; [cbn; lia|].
  apply (tileXYToQuadKey_parent 3 5 3); cbn; lia.
Defined.

Lemma quadKeyToTileXY_range_witness :
  let tile := Bing.quadKeyToTileXY "0x9"%string in
  (String.length "0x9" <= 31)%nat
  /\ Bing.tile_level tile = 2
  /\ 0 <= Bing.tile_x tile < 8 /\ 0 <= Bing.tile_y tile < 8.
Proof.
  cbv zeta. split; [cbn; lia|].
  apply (quadKeyToTileXY_range "0x9"%string). cbn. lia.
Defined.

Lemma quadkey_decode_encode_witness :
  let tile := Bing.quadKeyToTileXY "0213"%string in
  ((String.length "0213" <= 31)%nat
   /\ string_all is_quad_character "0213"%string = true)
  /\ tile = {| Bing.tile_x := 3; Bing.tile_y := 5; Bing.tile_level := 3 |}
  /\ Bing.tileXYToQuadKey (Bing.tile_x tile) (Bing.tile_y tile)
                          (Bing.tile_level tile)
     = "0213"%string.
Proof.
  cbv zeta. split; [split; [cbn; lia|reflexivity]|].
  split; [reflexivity|].
  apply (quadkey_decode_encode "0213"%string); [cbn; lia|reflexivity].
Defined.

Lemma buildImageResource_subdomain_witness :
  (0 <= 3 + 5 + 3 /\ Bing._imageUrlSubdomains Sample.bing_servers <> [])
  /\ exists subdomain : string,
      nth_error (Bing._imageUrlSubdomains Sample.bing_servers) 3
      = Some subdomain
      /\ Bing.buildImageResource Sample.bing_servers 3 5 3 None
         = getDerivedResource (Bing._resource Sample.bing_servers)
             {| opt_url := Bing._imageUrlTemplate Sample.bing_servers;
                opt_request := None;
                opt_templateValues :=
                  [ ("quadkey"%string, Some "0213"%string);
                    ("subdomain"%string, Some subdomain);
                    ("culture"%string, Some "en-GB"%string) ];
                opt_queryParameters := [ ("n"%string, QString "z") ] |}.
Proof.
  split; [split; [lia|discriminate]|].
  apply (buildImageResource_subdomain Sample.bing_servers 3 5 3 None);
    [lia|discriminate].
Defined.

Lemma requestMetadata_resume_outcome_witness :
  let after :=
    Bing.requestMetadata_resume Sample.server
      (Fulfilled Sample.aerial_metadata) Bing.new_ImageryProviderBuilder in
  snd after = None
  /\ Bing.maximumLevel (fst after) = Some 20
  /\ Bing.imageUrlSubdomains (fst after) = ["t0"; "t1"; "t2"; "t3"]%string.
Proof.
  cbv zeta.
  rewrite (proj1 (proj2 (requestMetadata_resume_outcome
                           Sample.server (Fulfilled Sample.aerial_metadata)
                           Bing.new_ImageryProviderBuilder))
             Sample.aerial_metadata {| Bing.resources := [Sample.aerial] |}
             Sample.aerial [] eq_refl eq_refl eq_refl).
  repeat split.
Defined.

Lemma cache_holds_the_fetch_witness :
  let r := BaseResource "https://dev.virtualearth.net/" in
  let w := Bing.run [Bing.Begin r; Bing.Resume r; Bing.Begin r]
                    Bing.process_start in
  Bing._metadataCache w !! "https://dev.virtualearth.net/"%string
  = Some 0%nat
  /\ exists r' : Resource,
      nth_error (Bing.network w) 0
      = Some (FetchJsonp r' (Some "jsonp"%string))
      /\ resource_url r' = "https://dev.virtualearth.net/"%string.
Proof.
  cbv zeta.
  assert (Bing._metadataCache
            (Bing.run [Bing.Begin (BaseResource "https://dev.virtualearth.net/");
                       Bing.Resume (BaseResource "https://dev.virtualearth.net/");
                       Bing.Begin (BaseResource "https://dev.virtualearth.net/")]
                      Bing.process_start)
          !! "https://dev.virtualearth.net/"%string = Some 0%nat) as E
    by (vm_compute; reflexivity).
  split; [exact E|].
  exact (cache_holds_the_fetch _ _ _ E).
Defined.

Lemma fromUrl_uriScheme_witness :
  ends_with_colon "https" = false
  /\ query_parameter
       (fromUrl_metadataResource "Aerial" Sample.server "key"
                                 (Some "https:"%string) None "http:")
       "uriScheme"
     = Some (QString "https").
Proof.
  split; [reflexivity|].
  destruct (fromUrl_uriScheme "Aerial" Sample.server "key" None
              "https" "http:" eq_refl) as (Hsame & Hscheme & _).
  exact (eq_trans (f_equal (fun r => query_parameter r "uriScheme") Hsame)
                  Hscheme).
Defined.

Lemma getTileCredits_of_response_witness :
  Bing.attributionList Sample.response_builder
  = Some (Bing.FromResponse [Sample.response_supplier])
  /\ In {| html := "Supplier" |}
        (Bing.getTileCredits
           (Bing.build Sample.response_builder (Sample.bing [])) 0 0 6).
Proof.
  split; [reflexivity|].
  apply (proj2 (getTileCredits_of_response
                  Sample.response_builder (Sample.bing [])
                  [Sample.response_supplier] 0 0 6 "Supplier"%string eq_refl)).
  exists Sample.response_supplier.
  eexists. split; [left; reflexivity|]. split; [reflexivity|].
  split; [left; reflexivity|]. split; [cbn; lia|].
  cbn. discriminate.
Defined.

Lemma fromUrl_dynamic_provider_witness :
  exists calls provider,
    ArcGis.fromUrl Sample.server Sample.dynamic_options
                   (Fulfilled (Sample.untiled_document None))
    = (calls, inr provider)
    /\ ArcGis._useTiles provider = false
    /\ ArcGis._tilingScheme provider = GeographicTilingScheme None
    /\ ArcGis._rectangle provider = Sample.world
    /\ ArcGis._tileWidth provider = 256
    /\ ArcGis._tileHeight provider = 256
    /\ ArcGis._maximumLevel provider = None
    /\ ArcGis._tileDiscardPolicy provider = None.
Proof.
  eexists. eexists. split; [reflexivity|]. split; [reflexivity|].
  refine (fromUrl_dynamic_provider Sample.server Sample.dynamic_options
            (Fulfilled (Sample.untiled_document None)) _ _ _ _); reflexivity.
Defined.



Lemma tiled_server_ignores_tile_options_witness :
  (ArcGis.options_usePreCachedTilesIfAvailable Sample.no_options <> Some false
   /\ ArcGis.tileInfo (Sample.tiled_document None) = Some Sample.tiles)
  /\ ArcGis.fromUrl Sample.server
       (with_tile_options (Some 512) (Some 512) (Some 7) Sample.no_options)
       (Fulfilled (Sample.tiled_document None))
     = ArcGis.fromUrl Sample.server Sample.no_options
         (Fulfilled (Sample.tiled_document None)).
Proof.
  split; [split; [discriminate|reflexivity]|].
  apply (tiled_server_ignores_tile_options Sample.server Sample.no_options
           (Sample.tiled_document None) Sample.tiles);
    [discriminate|reflexivity].
Defined.

Lemma fromUrl_credit_witness :
  exists calls provider,
    ArcGis.fromUrl Sample.server Sample.no_options
                   (Fulfilled (Sample.tiled_document None))
    = (calls, inr provider)
    /\ ArcGis._credit provider = Some {| html := "Sample" |}.
Proof.
  eexists. eexists. split; [reflexivity|].
  refine (fromUrl_credit Sample.server Sample.no_options
            (Sample.tiled_document None) _ _ _ _);
    [discriminate|reflexivity].
Defined.

Lemma identify_results_records_witness :
  let info := ArcGis.feature_info Sample.point_result in
  In info (ArcGis.identify_results (Some [Sample.point_result]))
  /\ ArcGis.info_position info <> None.
Proof.
  cbv zeta.
  assert (In (ArcGis.feature_info Sample.point_result)
             (ArcGis.identify_results (Some [Sample.point_result]))) as Hin
    by (left; reflexivity).
  split; [exact Hin|].
  apply (proj2 (identify_results_records (Some [Sample.point_result])) _ Hin).
  split; [reflexivity|].
  eexists. split; [reflexivity|].
  right. right. left. reflexivity.
Defined.

Lemma precached_path_injective_witness :
  ArcGis._useTiles Sample.precached_provider = true
  /\ relative_url
       (ArcGis.buildImageResource Sample.precached_provider 3 5 (Some 4) None)
     = Some "tile/4/5/3"%string
  /\ (3 = 3 /\ 5 = 5 /\ 4 = 4).
Proof.
  split; [reflexivity|]. split; [reflexivity|].
  apply (precached_path_injective Sample.precached_provider 3 5 4 3 5 4
           None None); reflexivity.
Defined.

Lemma pick_and_export_agree_witness :
  (ArcGis._useTiles Sample.dynamic_provider = false
   /\ ArcGis.enablePickFeatures Sample.dynamic_provider = true)
  /\ exists identify,
      ArcGis.pickFeatures Sample.dynamic_provider 0 0 1 10 20
      = (Some (ArcGis.IdentifyThen identify), [FetchJson identify])
      /\ query_parameter identify "mapExtent"
         = query_parameter
             (ArcGis.buildImageResource Sample.dynamic_provider 0 0 (Some 1) None)
             "bbox".
Proof.
  split; [split; reflexivity|].
  destruct (pick_and_export_agree Sample.dynamic_provider 0 0 1 10 20 None
              eq_refl eq_refl)
    as (identify & size & code & Hpick & Hextent & _).
  exists identify. split; [exact Hpick|exact Hextent].
Defined.

Lemma requests_return_only_ok_bodies_witness :
  ITwinPlatform.outcome
    (ITwinPlatform.getExport unit (fun _ => None) "undefined"
       Sample.itwin "export" (Fulfilled Sample.export_found))
  = inr tt
  /\ exists response,
      ITwinPlatform.defaultAccessToken Sample.itwin <> None
      /\ Fulfilled Sample.export_found = Fulfilled response
      /\ ITwinPlatform.ok unit response = true
      /\ ITwinPlatform.json unit response = Fulfilled tt.
Proof.
  split; [reflexivity|].
  apply (proj1 (requests_return_only_ok_bodies unit (fun _ => None)
                  (fun _ => None) "undefined" Sample.itwin "export"
                  (Fulfilled Sample.export_found)) tt).
  reflexivity.
Defined.


Lemma failed_response_messages_witness :
  (ITwinPlatform.defaultAccessToken Sample.itwin = Some "token"%string
   /\ ITwinPlatform.ok unit Sample.too_many_requests = false
   /\ ITwinPlatform.json unit Sample.too_many_requests = Fulfilled tt)
  /\ ITwinPlatform.outcome
       (ITwinPlatform.getExports unit (fun _ => None) "undefined"
          Sample.itwin "model" (Fulfilled Sample.too_many_requests))
     = inl (ITwinPlatform.Threw (RuntimeError "Too many requests")).
Proof.
  split; [repeat split|].
  apply (proj1 (failed_response_messages unit (fun _ => None) (fun _ => None)
                  "undefined" Sample.itwin "token" "model"
                  Sample.too_many_requests tt eq_refl eq_refl eq_refl)).
  reflexivity.
Defined.

End FurtherExamples.
